(** * PyAirseekers: the real-time messaging client ([mqtt_client.py])

    A shallow embedding of [MQTTClient]: the object's attributes, the
    asyncio events it allocates, the temporary directory holding the TLS
    identity and the requests sent to the paho transport are explicit
    state; every method is a function in a state-and-exception monad.

    What the environment decides (results of library calls, callbacks the
    transport delivers while a coroutine is suspended) is an argument of
    the method, so every theorem quantifies over it. *)

From stdpp Require Import base gmap strings list fin_maps.
From Stdlib Require Import ZArith.
From Stdlib.Strings Require Import Ascii Byte.

Local Open Scope string_scope.
Set Warnings "-register-all".

(** ** Python exceptions

    Only instances of [Exception] are modelled ([KeyboardInterrupt],
    [SystemExit] and task cancellation are not), so [except Exception]
    matches every value of this type. *)

Inductive exn :=
| RuntimeError (msg : string)
| TimeoutError                      (* asyncio.TimeoutError *)
| KeyError
| ValueError (msg : string)
| JSONDecodeError                   (* json.JSONDecodeError, a ValueError *)
| UnicodeDecodeError                (* a ValueError *)
| TypeError
| OSError (msg : string)
| FileNotFoundError                 (* an OSError *)
| FileExistsError                   (* an OSError *)
| AttributeError
| ConnectInitFailed (result : Z).   (* Exception(f"Failed to initiate connection: {result}") *)

Inductive outcome (A : Type) :=
| Ret (a : A)
| Raise (e : exn).
Arguments Ret {A} a.
Arguments Raise {A} e.

Definition is_TimeoutError (e : exn) : bool :=
  match e with TimeoutError => true | _ => false end.

Definition is_JSONDecodeError (e : exn) : bool :=
  match e with JSONDecodeError => true | _ => false end.

(** ** Builtins *)

(** [s.split(sep)] for a one-character separator. *)
Fixpoint str_split (sep : Ascii.ascii) (s : string) : list string :=
  match s with
  | EmptyString => [EmptyString]
  | String c rest =>
      if Ascii.eqb c sep then EmptyString :: str_split sep rest
      else match str_split sep rest with
           | h :: t => String c h :: t
           | [] => [String c EmptyString]
           end
  end.

(** [a, b = xs]: unpacking into exactly two targets. *)
Definition unpack2 (xs : list string) : outcome (string * string) :=
  match xs with
  | [a; b] => Ret (a, b)
  | [] | [_] => Raise (ValueError "not enough values to unpack")
  | _ => Raise (ValueError "too many values to unpack")
  end.

(** [os.path.join(dir, name)]. Temporary directories are siblings in the
    system's temporary folder, so a path is a directory and a file name. *)
Definition path : Type := string * string.
Definition os_path_join (dir name : string) : path := (dir, name).

(** [bytes.decode()]: strict UTF-8. The decoded text is represented by its
    UTF-8 encoding, so decoding is a well-formedness check (Unicode
    standard, table 3-7). *)
Definition in_range (lo hi : N) (b : byte) : bool :=
  (lo <=? Byte.to_N b)%N && (Byte.to_N b <=? hi)%N.

Definition utf8_cont : byte -> bool := in_range 0x80 0xBF.

Fixpoint utf8_valid (bs : list byte) : bool :=
  match bs with
  | [] => true
  | b0 :: r0 =>
      if in_range 0x00 0x7F b0 then utf8_valid r0
      else
        match r0 with
        | [] => false
        | b1 :: r1 =>
            if in_range 0xC2 0xDF b0 then utf8_cont b1 && utf8_valid r1
            else
              match r1 with
              | [] => false
              | b2 :: r2 =>
                  if in_range 0xE0 0xE0 b0 then
                    in_range 0xA0 0xBF b1 && utf8_cont b2 && utf8_valid r2
                  else if in_range 0xE1 0xEC b0 || in_range 0xEE 0xEF b0 then
                    utf8_cont b1 && utf8_cont b2 && utf8_valid r2
                  else if in_range 0xED 0xED b0 then
                    in_range 0x80 0x9F b1 && utf8_cont b2 && utf8_valid r2
                  else
                    match r2 with
                    | [] => false
                    | b3 :: r3 =>
                        if in_range 0xF0 0xF0 b0 then
                          in_range 0x90 0xBF b1 && utf8_cont b2 && utf8_cont b3
                          && utf8_valid r3
                        else if in_range 0xF1 0xF3 b0 then
                          utf8_cont b1 && utf8_cont b2 && utf8_cont b3
                          && utf8_valid r3
                        else if in_range 0xF4 0xF4 b0 then
                          in_range 0x80 0x8F b1 && utf8_cont b2 && utf8_cont b3
                          && utf8_valid r3
                        else false
                    end
              end
        end
  end.

Definition bytes_decode (bs : list byte) : outcome string :=
  if utf8_valid bs then Ret (String.string_of_list_byte bs)
  else Raise UnicodeDecodeError.

(** paho's [MQTT_ERR_SUCCESS]. *)
Definition MQTT_ERR_SUCCESS : Z := 0.

(** ** The client and its world *)

(** [models.IoTCertResponse]. *)
Record IoTCertResponse := {
  ca : string;
  cert_key : string;
  mqtt_broker : string;
  mqtt_client_id : string;
  private_key : string;
}.

(** Decoded JSON documents, as [json.loads] builds them. A float is kept
    as the text of its literal. *)
Inductive json :=
| JNull
| JBool (b : bool)
| JInt (z : Z)
| JFloat (literal : string)
| JString (s : string)
| JArray (items : list json)
| JObject (members : list (string * json)).

(** [Union[str, dict]], the payload of [publish]. *)
Inductive payload :=
| PStr (s : string)
| PDict (members : list (string * json)).

(** What the consumer callback receives. *)
Inductive decoded :=
| Structured (j : json)
| Text (s : string).

(** The pure library functions the client calls on text: [int()],
    [json.loads] and [json.dumps], an interface of the development. *)
Class PyLib := {
  py_int : string -> outcome Z;           (* int(text): ValueError on failure *)
  json_loads : string -> outcome json;    (* JSONDecodeError on malformed text *)
  json_dumps : json -> outcome string;    (* TypeError on unserialisable values *)
}.

(** [paho.mqtt.client.MQTTMessage]. *)
Record MQTTMessage := {
  msg_topic : string;
  msg_payload : list byte;
}.

(** The paho [Client] object, as far as [MQTTClient] reads it back:
    [userdata] is [None] or the dict [{'subscribe_topic': topic}]. *)
Record Client := {
  client_id : string;
  userdata : option string;
}.

(** Events are waited on by reference: the two created in [__init__] are
    attributes; those created per operation live in [events], by identity. *)
Inductive event_ref :=
| EvConnection
| EvDisconnect
| EvObj (id : nat).

(** Requests to the transport and suspensions of the caller, in order. *)
Inductive action :=
| TlsSet (ca_certs certfile keyfile : path)
| LoopStart
| LoopStop
| Connect (host : string) (port keepalive : Z)
| Disconnect
| UserDataSet (topic : string)
| Subscribe (topic : string)
| Publish (topic text : string)
| Await (ev : event_ref) (timeout : Z).

Inductive level := DEBUG | INFO | WARNING | ERROR.

Inductive logarg :=
| ArgStr (s : string)
| ArgInt (z : Z)
| ArgExn (e : exn).

Definition log_record : Type := level * string * list logarg.

Record MQTTClient := {
  iot_cert : IoTCertResponse;
  message_callback : option nat;
  client : option Client;
  is_connected : bool;
  _temp_dir : option string;
  _connection_event : bool;
  _disconnect_event : bool;
  _subscribe_events : gmap string nat;
  _publish_events : gmap Z nat;
  _publish_results : gmap Z bool;
}.

Record World := {
  events : list bool;                       (* asyncio.Event objects: is it set? *)
  fs : gmap string (gmap string string);    (* directory -> file name -> content *)
  trace : list action;
  tasks : list (nat * string * decoded);    (* asyncio.create_task(callback(topic, payload)) *)
  log : list log_record;
}.

Record state := {
  self : MQTTClient;
  world : World;
}.

(** [MQTTClient.__init__]. *)
Definition init (cert : IoTCertResponse) (callback : option nat) : MQTTClient :=
  {| iot_cert := cert; message_callback := callback; client := None;
     is_connected := false; _temp_dir := None;
     _connection_event := false; _disconnect_event := false;
     _subscribe_events := ∅; _publish_events := ∅; _publish_results := ∅ |}.

Definition empty_world : World :=
  {| events := []; fs := ∅; trace := []; tasks := []; log := [] |}.

(** Attribute assignment. *)
Definition set_client (v : option Client) (m : MQTTClient) : MQTTClient :=
  {| iot_cert := iot_cert m; message_callback := message_callback m; client := v;
     is_connected := is_connected m; _temp_dir := _temp_dir m;
     _connection_event := _connection_event m; _disconnect_event := _disconnect_event m;
     _subscribe_events := _subscribe_events m; _publish_events := _publish_events m;
     _publish_results := _publish_results m |}.

Definition set_is_connected (v : bool) (m : MQTTClient) : MQTTClient :=
  {| iot_cert := iot_cert m; message_callback := message_callback m; client := client m;
     is_connected := v; _temp_dir := _temp_dir m;
     _connection_event := _connection_event m; _disconnect_event := _disconnect_event m;
     _subscribe_events := _subscribe_events m; _publish_events := _publish_events m;
     _publish_results := _publish_results m |}.

Definition set_temp_dir (v : option string) (m : MQTTClient) : MQTTClient :=
  {| iot_cert := iot_cert m; message_callback := message_callback m; client := client m;
     is_connected := is_connected m; _temp_dir := v;
     _connection_event := _connection_event m; _disconnect_event := _disconnect_event m;
     _subscribe_events := _subscribe_events m; _publish_events := _publish_events m;
     _publish_results := _publish_results m |}.

Definition set_connection_event (v : bool) (m : MQTTClient) : MQTTClient :=
  {| iot_cert := iot_cert m; message_callback := message_callback m; client := client m;
     is_connected := is_connected m; _temp_dir := _temp_dir m;
     _connection_event := v; _disconnect_event := _disconnect_event m;
     _subscribe_events := _subscribe_events m; _publish_events := _publish_events m;
     _publish_results := _publish_results m |}.

Definition set_disconnect_event (v : bool) (m : MQTTClient) : MQTTClient :=
  {| iot_cert := iot_cert m; message_callback := message_callback m; client := client m;
     is_connected := is_connected m; _temp_dir := _temp_dir m;
     _connection_event := _connection_event m; _disconnect_event := v;
     _subscribe_events := _subscribe_events m; _publish_events := _publish_events m;
     _publish_results := _publish_results m |}.

Definition set_subscribe_events (v : gmap string nat) (m : MQTTClient) : MQTTClient :=
  {| iot_cert := iot_cert m; message_callback := message_callback m; client := client m;
     is_connected := is_connected m; _temp_dir := _temp_dir m;
     _connection_event := _connection_event m; _disconnect_event := _disconnect_event m;
     _subscribe_events := v; _publish_events := _publish_events m;
     _publish_results := _publish_results m |}.

Definition set_publish_events (v : gmap Z nat) (m : MQTTClient) : MQTTClient :=
  {| iot_cert := iot_cert m; message_callback := message_callback m; client := client m;
     is_connected := is_connected m; _temp_dir := _temp_dir m;
     _connection_event := _connection_event m; _disconnect_event := _disconnect_event m;
     _subscribe_events := _subscribe_events m; _publish_events := v;
     _publish_results := _publish_results m |}.

Definition set_publish_results (v : gmap Z bool) (m : MQTTClient) : MQTTClient :=
  {| iot_cert := iot_cert m; message_callback := message_callback m; client := client m;
     is_connected := is_connected m; _temp_dir := _temp_dir m;
     _connection_event := _connection_event m; _disconnect_event := _disconnect_event m;
     _subscribe_events := _subscribe_events m; _publish_events := _publish_events m;
     _publish_results := v |}.

Definition set_events (v : list bool) (w : World) : World :=
  {| events := v; fs := fs w; trace := trace w; tasks := tasks w; log := log w |}.

Definition set_fs (v : gmap string (gmap string string)) (w : World) : World :=
  {| events := events w; fs := v; trace := trace w; tasks := tasks w; log := log w |}.

Definition set_trace (v : list action) (w : World) : World :=
  {| events := events w; fs := fs w; trace := v; tasks := tasks w; log := log w |}.

Definition set_tasks (v : list (nat * string * decoded)) (w : World) : World :=
  {| events := events w; fs := fs w; trace := trace w; tasks := v; log := log w |}.

Definition set_log (v : list log_record) (w : World) : World :=
  {| events := events w; fs := fs w; trace := trace w; tasks := tasks w; log := v |}.

Definition on_self (f : MQTTClient -> MQTTClient) (s : state) : state :=
  {| self := f (self s); world := world s |}.

Definition on_world (f : World -> World) (s : state) : state :=
  {| self := self s; world := f (world s) |}.

(** ** The monad: state, and exceptions that keep the state *)

Definition M (A : Type) : Type := state -> outcome A * state.

Definition ret {A} (a : A) : M A := fun s => (Ret a, s).

Definition raise {A} (e : exn) : M A := fun s => (Raise e, s).

Definition bind {A B} (m : M A) (k : A -> M B) : M B :=
  fun s =>
    match m s with
    | (Ret a, s') => k a s'
    | (Raise e, s') => (Raise e, s')
    end.

Definition lift {A} (o : outcome A) : M A := fun s => (o, s).

Definition gets {A} (f : state -> A) : M A := fun s => (Ret (f s), s).

Definition modify (f : state -> state) : M unit := fun s => (Ret tt, f s).

(** [try: body / except ...]: [handler] returns [None] for an exception no
    clause matches, which then propagates. *)
Definition try_except {A} (body : M A) (handler : exn -> option (M A)) : M A :=
  fun s =>
    match body s with
    | (Ret a, s') => (Ret a, s')
    | (Raise e, s') =>
        match handler e with
        | Some h => h s'
        | None => (Raise e, s')
        end
    end.

Declare Scope py_scope.
Delimit Scope py_scope with py.
Notation "'let!' x ':=' m 'in' k" := (bind m (fun x => k))
  (at level 10, x binder, m at level 100, k at level 200) : py_scope.
Notation "m ';;' k" := (bind m (fun _ => k))
  (at level 100, k at level 200, right associativity) : py_scope.
Local Open Scope py_scope.


(** ** Primitive operations *)

(** [_LOGGER.<level>(f"...")]: the literal part of the message and the
    values formatted into it. *)
Definition logger (lvl : level) (msg : string) (args : list logarg) : M unit :=
  modify (on_world (fun w => set_log (log w ++ [(lvl, msg, args)]) w)).

Definition record (a : action) : M unit :=
  modify (on_world (fun w => set_trace (trace w ++ [a]) w)).

(** A call into the transport: the request is noted, the environment gives
    what the call returns or raises. *)
Definition call {A} (a : action) (result : outcome A) : M A :=
  record a ;; lift result.

Definition fault (f : option exn) : outcome unit :=
  match f with
  | Some e => Raise e
  | None => Ret tt
  end.

(** [asyncio.Event()]: a new object, distinct from every other one. *)
Definition new_event : M nat :=
  fun s =>
    (Ret (length (events (world s))),
     on_world (fun w => set_events (events w ++ [false]) w) s).

(** [event.set()] *)
Definition event_set (id : nat) : M unit :=
  modify (on_world (fun w => set_events (<[id := true]> (events w)) w)).

(** [event.is_set()] *)
Definition is_set (ev : event_ref) (s : state) : bool :=
  match ev with
  | EvConnection => _connection_event (self s)
  | EvDisconnect => _disconnect_event (self s)
  | EvObj id => default false (events (world s) !! id)
  end.

(** [d[k]] *)
Definition getitem {K V} `{Countable K} (d : gmap K V) (k : K) : outcome V :=
  match d !! k with
  | Some v => Ret v
  | None => Raise KeyError
  end.

(** [del self._subscribe_events[topic]] *)
Definition del_subscribe_event (topic : string) : M unit :=
  fun s =>
    match _subscribe_events (self s) !! topic with
    | Some _ =>
        (Ret tt, on_self (fun m => set_subscribe_events (delete topic (_subscribe_events m)) m) s)
    | None => (Raise KeyError, s)
    end.

(** [del self._publish_events[mid]] *)
Definition del_publish_event (mid : Z) : M unit :=
  fun s =>
    match _publish_events (self s) !! mid with
    | Some _ =>
        (Ret tt, on_self (fun m => set_publish_events (delete mid (_publish_events m)) m) s)
    | None => (Raise KeyError, s)
    end.

(** [del self._publish_results[mid]] *)
Definition del_publish_result (mid : Z) : M unit :=
  fun s =>
    match _publish_results (self s) !! mid with
    | Some _ =>
        (Ret tt, on_self (fun m => set_publish_results (delete mid (_publish_results m)) m) s)
    | None => (Raise KeyError, s)
    end.

(** [tempfile.mkdtemp()]: the environment names the directory; it is
    created only if no such directory exists. *)
Definition mkdtemp (result : outcome string) : M string :=
  fun s =>
    match result with
    | Raise e => (Raise e, s)
    | Ret d =>
        match fs (world s) !! d with
        | Some _ => (Raise FileExistsError, s)
        | None => (Ret d, on_world (fun w => set_fs (<[d := ∅]> (fs w)) w) s)
        end
    end.

(** [with open(p, "w") as f: f.write(text)] *)
Definition write_file (f : option exn) (p : path) (text : string) : M unit :=
  fun s =>
    match f with
    | Some e => (Raise e, s)
    | None =>
        match fs (world s) !! p.1 with
        | None => (Raise FileNotFoundError, s)
        | Some files =>
            (Ret tt,
             on_world (fun w => set_fs (<[p.1 := <[p.2 := text]> files]> (fs w)) w) s)
        end
    end.

(** [shutil.rmtree(d)] *)
Definition rmtree (f : option exn) (d : string) : M unit :=
  fun s =>
    match f with
    | Some e => (Raise e, s)
    | None =>
        match fs (world s) !! d with
        | None => (Raise FileNotFoundError, s)
        | Some _ => (Ret tt, on_world (fun w => set_fs (delete d (fs w)) w) s)
        end
    end.

(** [self.client.<method>]: the attribute must hold a client. *)
Definition the_client : M Client :=
  fun s =>
    match client (self s) with
    | Some c => (Ret c, s)
    | None => (Raise AttributeError, s)
    end.

(** [self.client.user_data_set({'subscribe_topic': topic})] *)
Definition user_data_set (topic : string) : M unit :=
  let! c := the_client in
  record (UserDataSet topic) ;;
  modify (on_self (set_client (Some {| client_id := client_id c; userdata := Some topic |}))).

(** The thread a piece of code runs on: the application's, on which the
    event loop runs, or the one [loop_start] (line 106) starts, on which
    the transport runs its handlers. *)
Inductive thread := Application | Network.

(** [asyncio.create_task(self.message_callback(topic, payload))]: the
    call of the consumer is queued on the event loop that runs on the
    calling thread; on a thread that runs none, [create_task] raises
    [RuntimeError]. *)
Definition create_task (caller : thread) (consumer : nat) (topic : string) (p : decoded)
    : M unit :=
  match caller with
  | Application =>
      modify (on_world (fun w => set_tasks (tasks w ++ [(consumer, topic, p)]) w))
  | Network => raise (RuntimeError "no running event loop")
  end.

(** ** Transport callbacks

    The parameters a handler does not read ([client], [flags],
    [properties], [reason_codes]) are left out. *)

Inductive callback :=
| OnConnect (reason_code : Z)
| OnDisconnect (reason_code : Z)
| OnMessage (msg : MQTTMessage)
| OnSubscribe (mid : Z)
| OnPublish (mid : Z) (reason_code : option Z).

Section Methods.
Context `{L : PyLib}.

Definition _on_connect (reason_code : Z) : M unit :=
  if (reason_code =? 0)%Z then
    modify (on_self (set_is_connected true)) ;;
    modify (on_self (set_connection_event true)) ;;
    logger INFO "Successfully connected to MQTT broker" []
  else
    logger ERROR "Failed to connect to MQTT broker: " [ArgInt reason_code].

Definition _on_disconnect (reason_code : Z) : M unit :=
  modify (on_self (set_is_connected false)) ;;
  modify (on_self (set_connection_event false)) ;;
  modify (on_self (set_disconnect_event true)) ;;
  logger INFO "Disconnected from MQTT broker" [].

(** The handler is registered as [client.on_message]; the transport calls
    it on the network thread that [loop_start] made in [connect], so that
    is the thread on which it calls [create_task]. *)
Definition _on_message (msg : MQTTMessage) : M unit :=
  let! consumer := gets (fun s => message_callback (self s)) in
  match consumer with
  | Some f =>
      let! p :=
        try_except
          (let! text := lift (bytes_decode (msg_payload msg)) in
           let! j := lift (json_loads text) in
           ret (Structured j))
          (fun e =>
             if is_JSONDecodeError e then
               Some (let! text := lift (bytes_decode (msg_payload msg)) in
                     ret (Text text))
             else None) in
      create_task Network f (msg_topic msg) p
  | None => ret tt
  end.

Definition _on_subscribe (userdata : option string) (mid : Z) : M unit :=
  let topic := userdata in
  match topic with
  | Some t =>
      let! evs := gets (fun s => _subscribe_events (self s)) in
      if bool_decide (t ≠ "") && bool_decide (is_Some (evs !! t)) then
        let! e := lift (getitem evs t) in
        event_set e ;;
        logger INFO "Successfully subscribed to topic: " [ArgStr t]
      else ret tt
  | None => ret tt
  end.

Definition _on_publish (mid : Z) (reason_code : option Z) : M unit :=
  let! evs := gets (fun s => _publish_events (self s)) in
  if bool_decide (is_Some (evs !! mid)) then
    modify (on_self (fun m =>
      set_publish_results
        (<[mid := bool_decide (reason_code = Some MQTT_ERR_SUCCESS)]> (_publish_results m)) m)) ;;
    let! e := lift (getitem evs mid) in
    event_set e
  else ret tt.

(** The transport invokes a handler with its own client's [userdata]. *)
Definition handle (cb : callback) : M unit :=
  match cb with
  | OnConnect rc => _on_connect rc
  | OnDisconnect rc => _on_disconnect rc
  | OnMessage msg => _on_message msg
  | OnSubscribe mid =>
      let! c := gets (fun s => client (self s)) in
      _on_subscribe (c ≫= userdata) mid
  | OnPublish mid rc => _on_publish mid rc
  end.

(** A handler runs on the transport's side: an exception it raises does
    not reach the suspended caller, the attribute updates it made stay. *)
Definition deliver (cb : callback) (s : state) : state := (handle cb s).2.

(** The caller of [event.wait()] while it is suspended. [arrivals] are the
    callbacks the transport runs before the caller runs again: a handler
    sets the event from the transport's thread, which does not wake the
    event loop, so the callbacks that come after the one that set the
    event and before the loop's next turn run first. [woken] says whether
    the event has been set since the caller suspended; it stays so when a
    later callback clears the event. *)
Fixpoint suspended (ev : event_ref) (arrivals : list callback) (woken : bool) : M unit :=
  fun s =>
    match arrivals with
    | [] => if woken then (Ret tt, s) else (Raise TimeoutError, s)
    | cb :: rest =>
        let s' := deliver cb s in
        suspended ev rest (woken || is_set ev s') s'
    end.

(** [await asyncio.wait_for(event.wait(), timeout)]: with the event set
    the caller goes on at once; otherwise it suspends, and gets
    [TimeoutError] when the event was not set by the time it runs
    again. *)
Definition wait (ev : event_ref) (arrivals : list callback) : M unit :=
  fun s => if is_set ev s then (Ret tt, s) else suspended ev arrivals false s.

Definition wait_for (ev : event_ref) (timeout : Z) (arrivals : list callback) : M unit :=
  record (Await ev timeout) ;; wait ev arrivals.

(** ** Public operations

    Each takes the part the environment plays during the call. *)

Record connect_env := {
  ce_mkdtemp : outcome string;          (* tempfile.mkdtemp() *)
  ce_write : string -> option exn;      (* open()/write() failing, per file name *)
  ce_Client : option exn;               (* Client(...) raising *)
  ce_tls_set : option exn;              (* client.tls_set(...) raising *)
  ce_loop_start : option exn;           (* client.loop_start() raising *)
  ce_connect : outcome Z;               (* client.connect(...) *)
  ce_arrivals : list callback;          (* delivered during the 10.0 wait *)
}.

Record disconnect_env := {
  de_disconnect : outcome Z;            (* client.disconnect() *)
  de_arrivals : list callback;          (* delivered during the 5.0 wait *)
  de_rmtree : option exn;               (* shutil.rmtree failing for its own reasons *)
}.

Record subscribe_env := {
  se_subscribe : outcome (Z * option Z);   (* client.subscribe(topic): (result, mid) *)
  se_arrivals : list callback;
}.

Record publish_env := {
  pe_publish : outcome Z;               (* client.publish(...).mid *)
  pe_is_published : outcome bool;       (* msg_info.is_published() *)
  pe_arrivals : list callback;
}.

(** Lines 71-80 of [connect]: the TLS identity written into directory [d]. *)
Definition materialise (env : connect_env) (d : string) : M (path * path * path) :=
  let ca_file := os_path_join d "ca.crt" in
  let cert_file := os_path_join d "cert.pem" in
  let key_file := os_path_join d "private.key" in
  let! cert := gets (fun s => iot_cert (self s)) in
  write_file (ce_write env "ca.crt") ca_file (ca cert) ;;
  write_file (ce_write env "cert.pem") cert_file (cert_key cert) ;;
  write_file (ce_write env "private.key") key_file (private_key cert) ;;
  ret (ca_file, cert_file, key_file).

(** Lines 82-111 of [connect]: the transport client is created,
    configured and asked to connect. *)
Definition open_transport (env : connect_env) (ca_file cert_file key_file : path) : M unit :=
  let! cert := gets (fun s => iot_cert (self s)) in
  let! '(broker_host, broker_port) := lift (unpack2 (str_split ":"%char (mqtt_broker cert))) in
  lift (fault (ce_Client env)) ;;
  modify (on_self (set_client
    (Some {| client_id := mqtt_client_id cert; userdata := None |}))) ;;
  (* on_connect, on_disconnect, on_message, on_subscribe, on_publish := the
     five handlers *)
  call (TlsSet ca_file cert_file key_file) (fault (ce_tls_set env)) ;;
  call LoopStart (fault (ce_loop_start env)) ;;
  let! port := lift (py_int broker_port) in
  let! result := call (Connect broker_host port 60) (ce_connect env) in
  if bool_decide (result ≠ MQTT_ERR_SUCCESS) then raise (ConnectInitFailed result)
  else ret tt.

(** Lines 70-111 of [connect]: everything before the wait. *)
Definition connect_setup (env : connect_env) : M unit :=
  let! d := mkdtemp (ce_mkdtemp env) in
  modify (on_self (set_temp_dir (Some d))) ;;
  let! '(ca_file, cert_file, key_file) := materialise env d in
  open_transport env ca_file cert_file key_file.

Definition connect (env : connect_env) : M bool :=
  try_except
    (connect_setup env ;;
     wait_for EvConnection 10 (ce_arrivals env) ;;
     ret true)
    (fun e =>
       Some (logger ERROR "Failed to connect to MQTT broker: " [ArgExn e] ;;
             ret false)).

(** Lines 122-137 of [disconnect]: the transport is asked to disconnect
    and the caller waits for the acknowledgement. *)
Definition close_transport (env : disconnect_env) : M unit :=
  let! c := gets (fun s => client (self s)) in
  let! connected := gets (fun s => is_connected (self s)) in
  if bool_decide (is_Some c) && connected then
    try_except
      (modify (on_self (set_disconnect_event false)) ;;
       call Disconnect (de_disconnect env) ;;
       wait_for EvDisconnect 5 (de_arrivals env) ;;
       record LoopStop ;;
       modify (on_self (set_is_connected false)) ;;
       logger INFO "Disconnected from MQTT broker" [])
      (fun e =>
         if is_TimeoutError e then
           Some (logger WARNING "Disconnect timeout, forcing stop" [] ;;
                 record LoopStop ;;
                 modify (on_self (set_is_connected false)))
         else
           Some (logger ERROR "Error disconnecting from MQTT: " [ArgExn e]))
  else ret tt.

(** Lines 139-144 of [disconnect]: the temporary directory is removed. *)
Definition cleanup (env : disconnect_env) : M unit :=
  let! d := gets (fun s => _temp_dir (self s)) in
  match d with
  | Some dir =>
      if bool_decide (dir ≠ "") then
        try_except
          (rmtree (de_rmtree env) dir)
          (fun e => Some (logger ERROR "Error cleaning up temp files: " [ArgExn e]))
      else ret tt
  | None => ret tt
  end.

Definition disconnect (env : disconnect_env) : M unit :=
  close_transport env ;; cleanup env.

(** [if not self.is_connected or not self.client: raise RuntimeError(...)] *)
Definition require_connected : M unit :=
  let! connected := gets (fun s => is_connected (self s)) in
  let! c := gets (fun s => client (self s)) in
  if negb connected || negb (bool_decide (is_Some c)) then
    raise (RuntimeError "MQTT client not connected")
  else ret tt.

(** A coroutine at its suspension point: finished, or about to wait on an
    event object. *)
Inductive progress :=
| Done (result : bool)
| Pending (ev : nat).

(** Lines 147-164 of [subscribe], up to the suspension. *)
Definition subscribe_issue (env : subscribe_env) (topic : string) : M progress :=
  require_connected ;;
  let! e := new_event in
  modify (on_self (fun m => set_subscribe_events (<[topic := e]> (_subscribe_events m)) m)) ;;
  user_data_set topic ;;
  the_client ;;
  let! '(result, mid) := call (Subscribe topic) (se_subscribe env) in
  if bool_decide (result ≠ MQTT_ERR_SUCCESS) then
    del_subscribe_event topic ;;
    logger ERROR "Failed to subscribe to " [ArgStr topic; ArgInt result] ;;
    ret (Done false)
  else
    let! evs := gets (fun s => _subscribe_events (self s)) in
    let! ev := lift (getitem evs topic) in
    ret (Pending ev).

(** Lines 164-171 of [subscribe]: what follows the wait, in the [try]. *)
Definition subscribe_settle (topic : string) (waited : M unit) : M bool :=
  try_except
    (waited ;;
     del_subscribe_event topic ;;
     logger INFO "Subscribed to MQTT topic: " [ArgStr topic] ;;
     ret true)
    (fun e =>
       if is_TimeoutError e then
         Some (del_subscribe_event topic ;;
               logger ERROR "Subscription timeout for topic: " [ArgStr topic] ;;
               ret false)
       else None).

Definition subscribe (env : subscribe_env) (topic : string) : M bool :=
  let! p := subscribe_issue env topic in
  match p with
  | Done result => ret result
  | Pending ev => subscribe_settle topic (wait_for (EvObj ev) 5 (se_arrivals env))
  end.

(** [if isinstance(payload, dict): payload = json.dumps(payload)] *)
Definition serialise (p : payload) : M string :=
  match p with
  | PStr text => ret text
  | PDict members => lift (json_dumps (JObject members))
  end.

Definition publish (env : publish_env) (topic : string) (p : payload) : M bool :=
  require_connected ;;
  let! text := serialise p in
  the_client ;;
  let! mid := call (Publish topic text) (pe_publish env) in
  let! published := lift (pe_is_published env) in
  if negb published then
    let! e := new_event in
    modify (on_self (fun m => set_publish_events (<[mid := e]> (_publish_events m)) m)) ;;
    try_except
      (let! evs := gets (fun s => _publish_events (self s)) in
       let! ev := lift (getitem evs mid) in
       wait_for (EvObj ev) 5 (pe_arrivals env) ;;
       let! results := gets (fun s => _publish_results (self s)) in
       let success := default false (results !! mid) in
       del_publish_event mid ;;
       let! results := gets (fun s => _publish_results (self s)) in
       (if bool_decide (is_Some (results !! mid)) then del_publish_result mid else ret tt) ;;
       (if success then logger DEBUG "Published to MQTT topic " [ArgStr topic; ArgStr text]
        else logger ERROR "Failed to publish to MQTT topic " [ArgStr topic]) ;;
       ret success)
      (fun e =>
         if is_TimeoutError e then
           Some (let! evs := gets (fun s => _publish_events (self s)) in
                 (if bool_decide (is_Some (evs !! mid)) then del_publish_event mid else ret tt) ;;
                 let! results := gets (fun s => _publish_results (self s)) in
                 (if bool_decide (is_Some (results !! mid)) then del_publish_result mid else ret tt) ;;
                 logger ERROR "Publish timeout for topic: " [ArgStr topic] ;;
                 ret false)
         else None)
  else
    logger DEBUG "Published to MQTT topic " [ArgStr topic; ArgStr text] ;;
    ret true.

Definition is_connection_alive (s : state) : bool :=
  is_connected (self s) && bool_decide (is_Some (client (self s))).

End Methods.

Arguments wait : simpl never.

(** * Vocabulary of the properties *)

Section Vocabulary.
Context `{L : PyLib}.
Local Open Scope list_scope.

(** Every event object referenced from a tracking dictionary has been
    allocated. *)
Definition wf (s : state) : Prop :=
  (forall t e, _subscribe_events (self s) !! t = Some e -> e < length (events (world s)))
  /\ (forall mid e, _publish_events (self s) !! mid = Some e -> e < length (events (world s))).

(** The part of the state no transport callback writes. *)
Definition frame (s : state) :=
  (iot_cert (self s), message_callback (self s), client (self s), _temp_dir (self s),
   _subscribe_events (self s), _publish_events (self s),
   fs (world s), trace (world s), length (events (world s))).

(** Subscribe acknowledgements. *)
Definition is_suback (cb : callback) : bool :=
  match cb with
  | OnSubscribe _ => true
  | _ => false
  end.

(** The subscribe for [topic] is the one the transport's [userdata] names,
    and its completion event [n] is the registered one. *)
Definition registered (topic : string) (n : nat) (s : state) : Prop :=
  client (self s) ≫= userdata = Some topic
  /\ _subscribe_events (self s) !! topic = Some n
  /\ n < length (events (world s)).

(** No pending publish shares the event object [n]. *)
Definition unshared (n : nat) (s : state) : Prop :=
  forall mid e, _publish_events (self s) !! mid = Some e -> e ≠ n.

(** Publish acknowledgements for message [mid]. *)
Definition is_puback (mid : Z) (cb : callback) : bool :=
  match cb with
  | OnPublish m _ => bool_decide (m = mid)
  | _ => false
  end.

(** Event [n] is the completion event of the publish [mid] and of nothing
    else. *)
Definition owned_by (mid : Z) (n : nat) (s : state) : Prop :=
  (forall t e, _subscribe_events (self s) !! t = Some e -> e ≠ n)
  /\ (forall m e, m ≠ mid -> _publish_events (self s) !! m = Some e -> e ≠ n).

(** [m] does not change what [f] reads of the state. *)
Definition preserves {X A} (f : state -> X) (m : M A) : Prop :=
  forall s, f (m s).2 = f s.

(** The handle and the file system. *)
Definition tf (s : state) := (_temp_dir (self s), fs (world s)).

(** What [wf] reads: the two dictionaries of events and how many event
    objects exist. *)
Definition registry (s : state) :=
  (_subscribe_events (self s), _publish_events (self s), length (events (world s))).

(** The attributes the set-up part of [connect] does not write. *)
Definition untouched_by_setup (s : state) :=
  (is_connected (self s), _connection_event (self s), _disconnect_event (self s),
   _subscribe_events (self s), _publish_events (self s), _publish_results (self s),
   events (world s)).

(** Connect acknowledgements with reason code 0. *)
Definition is_connack_success (cb : callback) : bool :=
  match cb with
  | OnConnect rc => (rc =? 0)%Z
  | _ => false
  end.

(** What [connect] leaves alone until it creates the transport client. *)
Definition before_transport (s : state) :=
  (iot_cert (self s), client (self s), trace (world s)).

(** The two attributes the connect acknowledgement sets. *)
Definition flags (s : state) := (is_connected (self s), _connection_event (self s)).

(** A client that says it is connected has its connection event set. *)
Definition connection_consistent (s : state) : Prop :=
  is_connected (self s) = true -> _connection_event (self s) = true.

(** What a callback makes of [is_connected], and of the connection event:
    a connect acknowledgement with reason code 0 sets it, a disconnect
    clears it, the others leave it. *)
Definition link_step (linked : bool) (cb : callback) : bool :=
  match cb with
  | OnConnect rc => (rc =? 0)%Z || linked
  | OnDisconnect _ => false
  | _ => linked
  end.

(** The same for the callbacks of a wait, in their order: the last
    successful acknowledgement or disconnect decides. *)
Definition link_after (arrivals : list callback) (linked : bool) : bool :=
  fold_left link_step arrivals linked.

(** The reason code of the last acknowledgement for message [mid] among
    [later], [rc] when there is none. *)
Definition final_ack (mid : Z) (rc : option Z) (later : list callback) : option Z :=
  fold_left (fun r cb =>
               match cb with
               | OnPublish m rc' => if bool_decide (m = mid) then rc' else r
               | _ => r
               end) later rc.

(** Disconnect acknowledgements. *)
Definition is_disconnect_ack (cb : callback) : bool :=
  match cb with
  | OnDisconnect _ => true
  | _ => false
  end.

(** [m] keeps [P] true. *)
Definition maintains {A} (P : state -> Prop) (m : M A) : Prop :=
  forall s, P s -> P (m s).2.

(** The handle names [d] and [d] is on disk. *)
Definition holds_dir (d : string) (s : state) : Prop :=
  _temp_dir (self s) = Some d /\ is_Some (fs (world s) !! d).

(** [connect] from the point where directory [d] exists and the handle
    names it. *)
Definition connect_in (env : connect_env) (d : string) : M bool :=
  try_except
    ((let! '(ca_file, cert_file, key_file) := materialise env d in
      open_transport env ca_file cert_file key_file) ;;
     wait_for EvConnection 10 (ce_arrivals env) ;;
     ret true)
    (fun e =>
       Some (logger ERROR "Failed to connect to MQTT broker: " [ArgExn e] ;;
             ret false)).

(** What a caller or the transport can do to the client. *)
Inductive op :=
| DoConnect (env : connect_env)
| DoDisconnect (env : disconnect_env)
| DoSubscribe (env : subscribe_env) (topic : string)
| DoPublish (env : publish_env) (topic : string) (p : payload)
| DoDeliver (cb : callback).

Definition step (o : op) (s : state) : state :=
  match o with
  | DoConnect env => (connect env s).2
  | DoDisconnect env => (disconnect env s).2
  | DoSubscribe env topic => (subscribe env topic s).2
  | DoPublish env topic p => (publish env topic p s).2
  | DoDeliver cb => deliver cb s
  end.

Definition run_ops (ops : list op) (s : state) : state :=
  fold_left (fun s o => step o s) ops s.

(** Directory [d] is on disk with [files] in it, and the handle names
    another directory or none. *)
Definition orphaned (d : string) (files : gmap string string) (s : state) : Prop :=
  fs (world s) !! d = Some files /\ _temp_dir (self s) ≠ Some d.

(** The three files of the TLS identity. *)
Definition credentials (cert : IoTCertResponse) : gmap string string :=
  <["private.key" := private_key cert]>
    (<["cert.pem" := cert_key cert]> (<["ca.crt" := ca cert]> ∅)).

(** The files [connect] has written into a new directory when it leaves
    lines 75-80: all three, or those before the first one that could not
    be written. *)
Definition written (env : connect_env) (cert : IoTCertResponse) : gmap string string :=
  match ce_write env "ca.crt" with
  | Some _ => ∅
  | None =>
      match ce_write env "cert.pem" with
      | Some _ => <["ca.crt" := ca cert]> ∅
      | None =>
          match ce_write env "private.key" with
          | Some _ => <["cert.pem" := cert_key cert]> (<["ca.crt" := ca cert]> ∅)
          | None => credentials cert
          end
      end
  end.

End Vocabulary.

(** * Scenarios

    The library functions on the inputs of the scenarios of the
    specification: [int()] on decimal numerals, [json.loads] and
    [json.dumps] on the two documents the scenarios exchange. *)

Definition digit_value (c : Ascii.ascii) : option Z :=
  let n := Ascii.N_of_ascii c in
  if (48 <=? n)%N && (n <=? 57)%N then Some (Z.of_N (n - 48)) else None.

Fixpoint decimal (acc : Z) (s : string) : option Z :=
  match s with
  | EmptyString => Some acc
  | String c rest =>
      match digit_value c with
      | Some v => decimal (10 * acc + v) rest
      | None => None
      end
  end.

Definition quote : string := String (Ascii.ascii_of_nat 34) EmptyString.

Definition battery_text : string := "{" ++ quote ++ "battery" ++ quote ++ ":80}".
Definition battery_json : json := JObject [("battery", JInt 80)].

Definition lock_members : list (string * json) := [("action", JString "lock")].
Definition lock_text : string :=
  "{" ++ quote ++ "action" ++ quote ++ ": " ++ quote ++ "lock" ++ quote ++ "}".

Definition scenario_int (text : string) : outcome Z :=
  match text with
  | EmptyString => Raise (ValueError "invalid literal for int()")
  | _ =>
      match decimal 0 text with
      | Some z => Ret z
      | None => Raise (ValueError "invalid literal for int()")
      end
  end.

Definition scenario_loads (text : string) : outcome json :=
  if String.eqb text battery_text then Ret battery_json else Raise JSONDecodeError.

Definition scenario_dumps (j : json) : outcome string :=
  match j with
  | JObject [(key, JString value)] =>
      if String.eqb key "action" && String.eqb value "lock" then Ret lock_text
      else Raise TypeError
  | _ => Raise TypeError
  end.

Definition scenario_lib : PyLib :=
  {| py_int := scenario_int; json_loads := scenario_loads; json_dumps := scenario_dumps |}.

Definition cert0 : IoTCertResponse :=
  {| ca := "CA"; cert_key := "CERT"; mqtt_broker := "broker.example:8883";
     mqtt_client_id := "client-1"; private_key := "KEY" |}.

Definition status_topic : string := "device/42/status".
Definition command_topic : string := "device/42/command".

(** A client just constructed, with a consumer. *)
Definition fresh : state := {| self := init cert0 (Some 0); world := empty_world |}.

Definition no_fault : string -> option exn := fun _ => None.

(** The broker never answers. *)
Definition unanswered : connect_env :=
  {| ce_mkdtemp := Ret "/tmp/tmpa1"; ce_write := no_fault; ce_Client := None;
     ce_tls_set := None; ce_loop_start := None; ce_connect := Ret 0%Z;
     ce_arrivals := [] |}.

(** The broker accepts the connection. *)
Definition acknowledged : connect_env :=
  {| ce_mkdtemp := Ret "/tmp/tmpa1"; ce_write := no_fault; ce_Client := None;
     ce_tls_set := None; ce_loop_start := None; ce_connect := Ret 0%Z;
     ce_arrivals := [OnConnect 0] |}.

(** The broker refuses it (reason code 5, not authorised). *)
Definition refusing : connect_env :=
  {| ce_mkdtemp := Ret "/tmp/tmpa1"; ce_write := no_fault; ce_Client := None;
     ce_tls_set := None; ce_loop_start := None; ce_connect := Ret 0%Z;
     ce_arrivals := [OnConnect 5] |}.

(** A second attempt, in a second directory. *)
Definition acknowledged_again : connect_env :=
  {| ce_mkdtemp := Ret "/tmp/tmpb2"; ce_write := no_fault; ce_Client := None;
     ce_tls_set := None; ce_loop_start := None; ce_connect := Ret 0%Z;
     ce_arrivals := [OnConnect 0] |}.

Definition connected : state := (connect (L := scenario_lib) acknowledged fresh).2.

Definition late_ack : subscribe_env :=
  {| se_subscribe := Ret (0%Z, Some 1%Z); se_arrivals := [] |}.

Definition prompt_ack : subscribe_env :=
  {| se_subscribe := Ret (0%Z, Some 1%Z); se_arrivals := [OnSubscribe 1] |}.

(** The request gets message identifier 2, and the only acknowledgement
    delivered during the wait answers an earlier request, identifier 1. *)
Definition stray_ack : subscribe_env :=
  {| se_subscribe := Ret (0%Z, Some 2%Z); se_arrivals := [OnSubscribe 1] |}.

(** The transport refuses the topic by raising, as paho does for a topic
    filter it finds invalid. *)
Definition invalid_topic : subscribe_env :=
  {| se_subscribe := Raise (ValueError "Invalid subscription filter."); se_arrivals := [] |}.

(** The first subscribe for [status_topic], suspended. *)
Definition in_flight : state :=
  (subscribe_issue late_ack status_topic connected).2.

Definition flushed : publish_env :=
  {| pe_publish := Ret 7%Z; pe_is_published := Ret true; pe_arrivals := [] |}.

Definition silent : disconnect_env :=
  {| de_disconnect := Ret 0%Z; de_arrivals := []; de_rmtree := None |}.

Definition binary_message : MQTTMessage :=
  {| msg_topic := status_topic; msg_payload := [Byte.xff] |}.

(** C1 as the specification words it, for one call. *)
Definition connect_as_specified (env : connect_env) (s : state) : Prop :=
  exists b s', connect (L := scenario_lib) env s = (Ret b, s')
    /\ (b = true -> is_connected (self s') = true)
    /\ (b = false ->
          is_connected (self s') = false
          /\ forall d, fs (world s) !! d = None -> fs (world s') !! d = None).

(** C2 as the specification words it, for one call: a subscribe for a
    topic with an unresolved registration is refused and the registration
    stays. *)
Definition duplicate_subscribe_refused (env : subscribe_env) (topic : string)
    (s : state) : Prop :=
  forall old,
    _subscribe_events (self s) !! topic = Some old ->
    is_set (EvObj old) s = false ->
    exists r s', subscribe_issue env topic s = (r, s')
      /\ (r = Ret (Done false) \/ exists e, r = Raise e)
      /\ _subscribe_events (self s') !! topic = Some old.

(** C6 as the specification words it, for one call: a request the
    transport refuses, by a result code or by raising, gives failure;
    an accepted one gives success exactly when the acknowledgement of its
    own message identifier arrives during the wait; on every path no
    registration for the topic is left. *)
Definition matching_suback (mid : option Z) (cb : callback) : bool :=
  match cb with
  | OnSubscribe m => bool_decide (mid = Some m)
  | _ => false
  end.

Definition subscribe_as_specified (env : subscribe_env) (topic : string) (s : state) : Prop :=
  exists b s', subscribe (L := scenario_lib) env topic s = (Ret b, s')
    /\ _subscribe_events (self s') !! topic = None
    /\ match se_subscribe env with
       | Raise _ => b = false
       | Ret (result, mid) =>
           b = bool_decide (result = MQTT_ERR_SUCCESS)
               && existsb (matching_suback mid) (se_arrivals env)
       end.

(** * The Bluetooth scanner ([ble_scanner.py])

    Log lines are left out of this part: nothing reads them. *)

(** [needle in hay] on strings. *)
Fixpoint str_contains (needle hay : string) : bool :=
  String.prefix needle hay
  || match hay with
     | EmptyString => false
     | String _ rest => str_contains needle rest
     end.

(** [str(xs)] for a list of strings, a builtin. *)
Class PyRepr := {
  str_of_list : list string -> string;
}.

Module Ble.

(** [models.BLEDevice]. *)
Record BLEDevice := {
  address : string;
  name : option string;
  rssi : option Z;
  is_connected : bool;
}.

(** bleak's device and advertisement, as far as the scanner reads them. *)
Record Device := {
  dev_address : string;
  dev_name : option string;
}.

Record AdvertisementData := {
  adv_service_uuids : list string;
  adv_rssi : Z;
}.

Record BLEDeviceScanner := {
  service_uuids : list string;
  discovered_devices : gmap string BLEDevice;
}.

(** [BLEDeviceScanner.__init__]. *)
Definition init (uuids : list string) : BLEDeviceScanner :=
  {| service_uuids := uuids; discovered_devices := ∅ |}.

(** What the environment decides during a scan: whether [import bleak]
    succeeds, and what [BleakScanner.discover(..., return_adv=True)]
    returns (the values of its dictionary, in order) or raises. *)
Record scan_env := {
  bleak_installed : bool;
  discover : outcome (list (Device * AdvertisementData));
}.

Section Scanner.
Context `{R : PyRepr}.

(** [any(uuid in str(adv_data.service_uuids) for uuid in self.service_uuids)] *)
Definition advertises (uuids : list string) (adv : AdvertisementData) : bool :=
  existsb (fun uuid => str_contains uuid (str_of_list (adv_service_uuids adv))) uuids.

(** [BLEDevice(address=device.address, name=device.name, rssi=adv_data.rssi)] *)
Definition ble_device (device : Device) (adv : AdvertisementData) : BLEDevice :=
  {| address := dev_address device; name := dev_name device;
     rssi := Some (adv_rssi adv); is_connected := false |}.

(** The [for] loop of lines 27-35, on the list built so far and the
    dictionary. *)
Fixpoint scan_loop (uuids : list string) (found : list (Device * AdvertisementData))
    (airseekers_devices : list BLEDevice) (known : gmap string BLEDevice)
    : list BLEDevice * gmap string BLEDevice :=
  match found with
  | [] => (airseekers_devices, known)
  | (device, adv) :: rest =>
      if advertises uuids adv then
        let b := ble_device device adv in
        scan_loop uuids rest (airseekers_devices ++ [b]) (<[dev_address device := b]> known)
      else scan_loop uuids rest airseekers_devices known
  end.

(** [scan_for_devices]: both [except] clauses return the empty list. *)
Definition scan_for_devices (env : scan_env) (self : BLEDeviceScanner)
    : list BLEDevice * BLEDeviceScanner :=
  if bleak_installed env then
    match discover env with
    | Ret found =>
        let '(devices, known) :=
          scan_loop (service_uuids self) found [] (discovered_devices self) in
        (devices, {| service_uuids := service_uuids self; discovered_devices := known |})
    | Raise _ => ([], self)
    end
  else ([], self).

Definition get_device_by_address (self : BLEDeviceScanner) (a : string) : option BLEDevice :=
  discovered_devices self !! a.

(** The discovered devices that advertise one of the scanner's services,
    as [BLEDevice]s, in the order of discovery. *)
Definition advertisers (uuids : list string) (found : list (Device * AdvertisementData))
    : list BLEDevice :=
  List.map (fun p => ble_device p.1 p.2) (List.filter (fun p => advertises uuids p.2) found).

End Scanner.

End Ble.

(** * The REST client ([api_client.py])

    Log lines are left out of this part: nothing reads them. *)

(** What a coroutine of the REST client or of the wrapper raises: a
    builtin exception, or [Exception(message)]. *)
Inductive raised :=
| Builtin (e : exn)
| PlainException (msg : string).

Inductive result (A : Type) :=
| Return (a : A)
| Throw (e : raised).
Arguments Return {A} a.
Arguments Throw {A} e.

Definition of_outcome {A} (o : outcome A) : result A :=
  match o with
  | Ret a => Return a
  | Raise e => Throw (Builtin e)
  end.

(** State and exceptions, over any state. *)
Definition St (S A : Type) : Type := S -> result A * S.

Definition st_ret {S A} (a : A) : St S A := fun s => (Return a, s).

Definition st_raise {S A} (e : raised) : St S A := fun s => (Throw e, s).

Definition st_bind {S A B} (m : St S A) (k : A -> St S B) : St S B :=
  fun s =>
    match m s with
    | (Return a, s') => k a s'
    | (Throw e, s') => (Throw e, s')
    end.

Definition st_lift {S A} (r : result A) : St S A := fun s => (r, s).

Definition st_gets {S A} (f : S -> A) : St S A := fun s => (Return (f s), s).

Definition st_modify {S} (f : S -> S) : St S unit := fun s => (Return tt, f s).

(** [try: body / except Exception as e: handler(e)], which matches every
    value of [raised]. *)
Definition st_try {S A} (body : St S A) (handler : raised -> St S A) : St S A :=
  fun s =>
    match body s with
    | (Return a, s') => (Return a, s')
    | (Throw e, s') => handler e s'
    end.

(** [try: body / finally: final]. *)
Definition st_finally {S A} (body : St S A) (final : St S unit) : St S A :=
  fun s =>
    match body s with
    | (r, s') =>
        match final s' with
        | (Return _, s'') => (r, s'')
        | (Throw e, s'') => (Throw e, s'')
        end
    end.

Declare Scope st_scope.
Delimit Scope st_scope with st.
Notation "'let!' x ':=' m 'in' k" := (st_bind m (fun x => k))
  (at level 10, x binder, m at level 100, k at level 200) : st_scope.
Notation "m ';;' k" := (st_bind m (fun _ => k))
  (at level 100, k at level 200, right associativity) : st_scope.

(** [bool(value)] and the library functions of this part. *)
Class ApiLib := {
  urljoin : string -> string -> string;        (* urllib.parse.urljoin *)
  py_str : json -> string;                     (* str(value) of a value that is no string *)
  float_nonzero : string -> bool;              (* bool(x) of the float a literal denotes *)
}.

Section Values.
Context `{A : ApiLib}.

Definition truthy (v : json) : bool :=
  match v with
  | JNull => false
  | JBool b => b
  | JInt z => negb (z =? 0)%Z
  | JFloat literal => float_nonzero literal
  | JString text => negb (String.eqb text EmptyString)
  | JArray items => match items with [] => false | _ => true end
  | JObject members => match members with [] => false | _ => true end
  end.

(** [f"{value}"] *)
Definition format_value (v : json) : string :=
  match v with
  | JString text => text
  | _ => py_str v
  end.

End Values.

(** [d.get(key)] on a dictionary, whose keys are distinct. *)
Fixpoint dict_get (key : string) (members : list (string * json)) : option json :=
  match members with
  | [] => None
  | (k, v) :: rest => if String.eqb k key then Some v else dict_get key rest
  end.

Module Api.

Local Open Scope st_scope.

(** [models.ApiResponse]: [data] is [None], a dict or a list. *)
Record ApiResponse := {
  code : Z;
  data : option json;
  errorCode : Z;
  msg : string;
}.

(** [models.LoginResponse]. *)
Record LoginResponse := {
  login_access_token : string;
  login_host : string;
  login_language : string;
  login_refresh_token : string;
}.

(** [models.DeviceListResponse]; [list_] is its field [list]. *)
Record DeviceListResponse := {
  list_ : list (list (string * json));
  total : Z;
}.

(** The pydantic constructors applied to the members of a dictionary. *)
Class Models := {
  ServerHostResponse : list (string * json) -> result string;    (* its [host] *)
  LoginResponse_of : list (string * json) -> result LoginResponse;
  IoTCertResponse_of : list (string * json) -> result IoTCertResponse;
  DeviceListResponse_of : list (string * json) -> result DeviceListResponse;
}.

(** [AirseekersAPI]: a session is known by its identity; [None] is
    [JNull] for the access token, which [refresh_access_token] sets to
    whatever the response holds. [token_expires_at] is a [datetime], in
    microseconds. *)
Record AirseekersAPI := {
  email : string;
  password : string;
  session : option nat;
  _should_close_session : bool;
  base_url : string;
  access_token : json;
  refresh_token : option string;
  token_expires_at : option Z;
  app_version : string;
  ble_service_uuids : list string;
}.

(** One call of [session.request]. *)
Record request := {
  rq_session : nat;
  rq_method : string;
  rq_url : string;
  rq_headers : list (string * string);
  rq_json : option (list (string * json));
}.

(** The sessions created and closed, the requests made, and how often the
    clock was read. *)
Record Net := {
  created : nat;
  closed : list nat;
  requests : list request;
  clock_reads : nat;
}.

Record state := {
  self : AirseekersAPI;
  net : Net;
}.

(** The environment: what the n-th request returns or raises (the
    response parsed into an [ApiResponse]), and what the n-th reading of
    [datetime.now()] gives. *)
Record env := {
  respond : nat -> result ApiResponse;
  now : nat -> Z;
}.

(** [AirseekersAPI.__init__]. *)
Definition init (email password : string) (session : option nat) : AirseekersAPI :=
  {| email := email; password := password; session := session;
     _should_close_session := match session with None => true | Some _ => false end;
     base_url := "https://cloud-eu.airseekers-robotics.com";
     access_token := JNull; refresh_token := None; token_expires_at := None;
     app_version := "1.0.7(2025052706)";
     ble_service_uuids :=
       ["b725d2d0-353a-11f0-8d6e-09546e761b8b";
        "88992250-360c-11f0-90a3-792c334dd14f";
        "3f1dbe80-3538-11f0-8d6e-09546e761b8b"] |}.

Definition empty_net : Net :=
  {| created := 0; closed := []; requests := []; clock_reads := 0 |}.

Definition set_session (v : option nat) (a : AirseekersAPI) : AirseekersAPI :=
  {| email := email a; password := password a; session := v;
     _should_close_session := _should_close_session a; base_url := base_url a;
     access_token := access_token a; refresh_token := refresh_token a;
     token_expires_at := token_expires_at a; app_version := app_version a;
     ble_service_uuids := ble_service_uuids a |}.

Definition set_base_url (v : string) (a : AirseekersAPI) : AirseekersAPI :=
  {| email := email a; password := password a; session := session a;
     _should_close_session := _should_close_session a; base_url := v;
     access_token := access_token a; refresh_token := refresh_token a;
     token_expires_at := token_expires_at a; app_version := app_version a;
     ble_service_uuids := ble_service_uuids a |}.

Definition set_access_token (v : json) (a : AirseekersAPI) : AirseekersAPI :=
  {| email := email a; password := password a; session := session a;
     _should_close_session := _should_close_session a; base_url := base_url a;
     access_token := v; refresh_token := refresh_token a;
     token_expires_at := token_expires_at a; app_version := app_version a;
     ble_service_uuids := ble_service_uuids a |}.

Definition set_refresh_token (v : option string) (a : AirseekersAPI) : AirseekersAPI :=
  {| email := email a; password := password a; session := session a;
     _should_close_session := _should_close_session a; base_url := base_url a;
     access_token := access_token a; refresh_token := v;
     token_expires_at := token_expires_at a; app_version := app_version a;
     ble_service_uuids := ble_service_uuids a |}.

Definition set_token_expires_at (v : option Z) (a : AirseekersAPI) : AirseekersAPI :=
  {| email := email a; password := password a; session := session a;
     _should_close_session := _should_close_session a; base_url := base_url a;
     access_token := access_token a; refresh_token := refresh_token a;
     token_expires_at := v; app_version := app_version a;
     ble_service_uuids := ble_service_uuids a |}.

Definition on_self (f : AirseekersAPI -> AirseekersAPI) (s : state) : state :=
  {| self := f (self s); net := net s |}.

Definition on_net (f : Net -> Net) (s : state) : state :=
  {| self := self s; net := f (net s) |}.

Definition add_session (n : Net) : Net :=
  {| created := S (created n); closed := closed n; requests := requests n;
     clock_reads := clock_reads n |}.

Definition add_closed (id : nat) (n : Net) : Net :=
  {| created := created n; closed := closed n ++ [id]; requests := requests n;
     clock_reads := clock_reads n |}.

Definition add_request (rq : request) (n : Net) : Net :=
  {| created := created n; closed := closed n; requests := requests n ++ [rq];
     clock_reads := clock_reads n |}.

Definition add_clock_read (n : Net) : Net :=
  {| created := created n; closed := closed n; requests := requests n;
     clock_reads := S (clock_reads n) |}.

(** [timedelta(hours=23)], in microseconds. *)
Definition hours_23 : Z := 23 * 3600 * 1000000.

Section Client.
Context `{A : ApiLib} `{P : Models}.
Variable e : env.

(** [datetime.now()] *)
Definition datetime_now : St state Z :=
  fun s => (Return (now e (clock_reads (net s))), on_net add_clock_read s).

(** [aiohttp.ClientSession()] *)
Definition new_session : St state nat :=
  fun s => (Return (created (net s)), on_net add_session s).

(** [await session.close()] *)
Definition close_session (id : nat) : St state unit :=
  st_modify (on_net (add_closed id)).

Definition __aenter__ : St state unit :=
  let! current := st_gets (fun s => session (self s)) in
  match current with
  | None =>
      let! id := new_session in
      st_modify (on_self (set_session (Some id)))
  | Some _ => st_ret tt
  end.

Definition __aexit__ : St state unit :=
  let! should_close := st_gets (fun s => _should_close_session (self s)) in
  let! current := st_gets (fun s => session (self s)) in
  match current with
  | Some id => if should_close then close_session id else st_ret tt
  | None => st_ret tt
  end.

(** [async with self: body] *)
Definition async_with {B} (body : St state B) : St state B :=
  __aenter__ ;; st_finally body __aexit__.

Definition _get_headers (a : AirseekersAPI) (include_auth : bool) : list (string * string) :=
  let headers :=
    [("accept", "application/json,*/*"); ("accept-encoding", "gzip");
     ("accept-language", "en-US"); ("app-version", app_version a);
     ("content-type", "application/json")] in
  if include_auth && truthy (access_token a) then
    headers ++ [("authorization", "Bearer " +:+ format_value (access_token a))]
  else if include_auth then headers ++ [("authorization", "Bearer")]
  else headers.

(** Lines 74-83 of [_make_request]: the call of [session.request] on the
    session [id]; [json] is passed for a dictionary that is not empty. *)
Definition request_for (a : AirseekersAPI) (id : nat) (method endpoint : string)
    (body : option (list (string * json))) (include_auth : bool) : request :=
  let url := urljoin (base_url a) endpoint in
  let headers := _get_headers a include_auth in
  {| rq_session := id; rq_method := method; rq_url := url; rq_headers := headers;
     rq_json := match body with
                | Some ((_ :: _) as members) => Some members
                | _ => None
                end |}.

Definition _make_request (method endpoint : string) (body : option (list (string * json)))
    (include_auth : bool) : St state ApiResponse :=
  let! current := st_gets (fun s => session (self s)) in
  match current with
  | None => st_raise (Builtin (RuntimeError "Session not initialized"))
  | Some id =>
      let! a := st_gets self in
      fun s =>
        (respond e (length (requests (net s))),
         on_net (add_request (request_for a id method endpoint body include_auth)) s)
  end.

(** [response.code == 0 and response.data] *)
Definition succeeded (response : ApiResponse) : bool :=
  (code response =? 0)%Z && match data response with Some v => truthy v | None => false end.

(** A model constructed from the keywords of [response.data]: a list
    cannot be unpacked into keywords. *)
Definition construct {B} (model : list (string * json) -> result B) (v : option json)
    : St state B :=
  match v with
  | Some (JObject members) => st_lift (model members)
  | _ => st_raise (Builtin TypeError)
  end.

Definition get_server_host : St state string :=
  let! response := _make_request "GET" "/api/web/server-host" None false in
  if succeeded response then
    let! host := construct ServerHostResponse (data response) in
    st_modify (on_self (set_base_url host)) ;;
    st_ret host
  else st_raise (PlainException ("Failed to get server host: " +:+ msg response)).

Definition login : St state LoginResponse :=
  let! a := st_gets self in
  let login_data := [("email", JString (email a)); ("password", JString (password a))] in
  let! response := _make_request "POST" "/user/login" (Some login_data) false in
  if succeeded response then
    let! login_response := construct LoginResponse_of (data response) in
    st_modify (on_self (set_access_token (JString (login_access_token login_response)))) ;;
    st_modify (on_self (set_refresh_token (Some (login_refresh_token login_response)))) ;;
    st_modify (on_self (set_base_url (login_host login_response))) ;;
    let! t := datetime_now in
    st_modify (on_self (set_token_expires_at (Some (t + hours_23)%Z))) ;;
    st_ret login_response
  else st_raise (PlainException ("Login failed: " +:+ msg response)).

(** [response.data.get("access_token")]: a list has no [get]. *)
Definition data_get (key : string) (v : option json) : St state json :=
  match v with
  | Some (JObject members) => st_ret (default JNull (dict_get key members))
  | _ => st_raise (Builtin AttributeError)
  end.

Definition refresh_access_token : St state bool :=
  let! token := st_gets (fun s => refresh_token (self s)) in
  match token with
  | Some ((String _ _) as text) =>
      st_try
        (let! response :=
           _make_request "POST" "/api/web/user/refresh-token"
             (Some [("refresh_token", JString text)]) true in
         if succeeded response then
           let! fresh := data_get "access_token" (data response) in
           st_modify (on_self (set_access_token fresh)) ;;
           let! t := datetime_now in
           st_modify (on_self (set_token_expires_at (Some (t + hours_23)%Z))) ;;
           st_ret true
         else st_ret false)
        (fun _ => st_ret false)
  | _ => st_ret false
  end.

Definition ensure_authenticated : St state bool :=
  let! token := st_gets (fun s => access_token (self s)) in
  if negb (truthy token) then login ;; st_ret true
  else
    let! expires := st_gets (fun s => token_expires_at (self s)) in
    match expires with
    | Some at_ =>
        let! t := datetime_now in
        if (at_ <=? t)%Z then
          let! refreshed := refresh_access_token in
          (if refreshed then st_ret tt else login ;; st_ret tt) ;;
          st_ret true
        else st_ret true
    | None => st_ret true
    end.

Definition get_iot_certificates : St state IoTCertResponse :=
  ensure_authenticated ;;
  let! response := _make_request "POST" "/api/web/device/iot-cert" (Some []) true in
  if succeeded response then construct IoTCertResponse_of (data response)
  else st_raise (PlainException ("Failed to get IoT certificates: " +:+ msg response)).

Definition get_devices : St state DeviceListResponse :=
  ensure_authenticated ;;
  let! response := _make_request "GET" "/api/web/device" None true in
  if succeeded response then construct DeviceListResponse_of (data response)
  else st_raise (PlainException ("Failed to get devices: " +:+ msg response)).

Definition is_user_authorized : St state bool :=
  ensure_authenticated ;;
  let! response := _make_request "GET" "/api/web/user/is-authorized?123=1" None true in
  st_ret (code response =? 0)%Z.

(** [bind_device], [unbind_device], [lock_device], [unlock_device] and
    [upgrade_firmware] differ in the endpoint only. *)
Definition device_command (endpoint device_id : string) : St state bool :=
  ensure_authenticated ;;
  let! response :=
    _make_request "POST" endpoint (Some [("device_id", JString device_id)]) true in
  st_ret (code response =? 0)%Z.

Definition bind_device : string -> St state bool := device_command "/api/web/device/bind".
Definition unbind_device : string -> St state bool := device_command "/api/web/device/unbind".
Definition lock_device : string -> St state bool := device_command "/api/web/device/lock".
Definition unlock_device : string -> St state bool := device_command "/api/web/device/unlock".
Definition upgrade_firmware : string -> St state bool :=
  device_command "/api/web/firmware/upgrade".

(** [get_device_map] and [get_latest_firmware] differ in the endpoint and
    the message only. *)
Definition device_query (endpoint failure device_id : string) : St state json :=
  ensure_authenticated ;;
  let! response := _make_request "GET" (endpoint +:+ device_id) None true in
  if (code response =? 0)%Z then
    st_ret (match data response with
            | Some v => if truthy v then v else JObject []
            | None => JObject []
            end)
  else st_raise (PlainException (failure +:+ msg response)).

Definition get_device_map : string -> St state json :=
  device_query "/api/web/device/map?device_id=" "Failed to get device map: ".

Definition get_latest_firmware : string -> St state json :=
  device_query "/api/web/firmware/latest?device_id=" "Failed to get latest firmware: ".

End Client.

End Api.

(** * The wrapper ([main.py])

    Log lines are left out of this part: nothing reads them. *)

(** [value == text] for a string [text]. *)
Definition eq_str (v : option json) (text : string) : bool :=
  match v with
  | Some (JString t) => String.eqb t text
  | _ => false
  end.

Module Main.

Local Open Scope st_scope.

Record AirseekersHomeAssistantAPI := {
  api : Api.AirseekersAPI;
  ble_scanner : Ble.BLEDeviceScanner;
  mqtt_client : option MQTTClient;
  message_callback : option nat;
}.

(** The wrapper, the network it talks to and the world of its messaging
    client. *)
Record app := {
  this : AirseekersHomeAssistantAPI;
  the_net : Api.Net;
  the_world : World;
}.

Definition set_api (v : Api.AirseekersAPI) (a : AirseekersHomeAssistantAPI)
    : AirseekersHomeAssistantAPI :=
  {| api := v; ble_scanner := ble_scanner a; mqtt_client := mqtt_client a;
     message_callback := message_callback a |}.

Definition set_ble_scanner (v : Ble.BLEDeviceScanner) (a : AirseekersHomeAssistantAPI)
    : AirseekersHomeAssistantAPI :=
  {| api := api a; ble_scanner := v; mqtt_client := mqtt_client a;
     message_callback := message_callback a |}.

Definition set_mqtt_client (v : option MQTTClient) (a : AirseekersHomeAssistantAPI)
    : AirseekersHomeAssistantAPI :=
  {| api := api a; ble_scanner := ble_scanner a; mqtt_client := v;
     message_callback := message_callback a |}.

Definition on_this (f : AirseekersHomeAssistantAPI -> AirseekersHomeAssistantAPI) (s : app)
    : app :=
  {| this := f (this s); the_net := the_net s; the_world := the_world s |}.

(** A coroutine of [self.api]. *)
Definition in_api {B} (m : St Api.state B) : St app B :=
  fun s =>
    let '(r, t) := m {| Api.self := api (this s); Api.net := the_net s |} in
    (r, {| this := set_api (Api.self t) (this s); the_net := Api.net t;
           the_world := the_world s |}).

(** A coroutine of [self.mqtt_client]; [None] has no methods. *)
Definition in_mqtt {B} (m : M B) : St app B :=
  fun s =>
    match mqtt_client (this s) with
    | None => (Throw (Builtin AttributeError), s)
    | Some c =>
        let '(o, t) := m {| self := c; world := the_world s |} in
        (of_outcome o,
         {| this := set_mqtt_client (Some (self t)) (this s); the_net := the_net s;
            the_world := world t |})
    end.

(** [await self.ble_scanner.scan_for_devices()] *)
Definition in_ble `{R : PyRepr} (env : Ble.scan_env) : St app (list Ble.BLEDevice) :=
  fun s =>
    let '(devices, scanner) := Ble.scan_for_devices env (ble_scanner (this s)) in
    (Return devices, on_this (set_ble_scanner scanner) s).

(** [async with self.api: body] *)
Definition async_with_api {S B} (inject : St app unit -> St S unit) (body : St S B)
    : St S B :=
  inject (in_api Api.__aenter__) ;; st_finally body (inject (in_api Api.__aexit__)).

(** The dictionary [discover_devices] returns; a [BLEDevice] stands for
    its [dict()]. *)
Record discovery := {
  cloud_devices : list (list (string * json));
  ble_devices : list Ble.BLEDevice;
}.

(** A coroutine beside the local variable [result]. *)
Definition beside {V B} (m : St app B) : St (app * V) B :=
  fun sv =>
    let '(r, s) := m sv.1 in
    (r, (s, sv.2)).

Section Wrapper.
Context `{L : PyLib} `{A : ApiLib} `{P : Api.Models} `{R : PyRepr}.

Definition initialize (e : Api.env) : St app bool :=
  st_try
    (async_with_api id
       (in_api (Api.get_server_host e) ;;
        in_api (Api.login e) ;;
        st_ret true))
    (fun _ => st_ret false).

Definition discover_devices (e : Api.env) (scan : Ble.scan_env) (scan_ble : bool)
    : St app discovery :=
  fun s =>
    let result := {| cloud_devices := []; ble_devices := [] |} in
    let '(_, (s', result')) :=
      st_try
        (async_with_api beside
           (let! found := beside (in_api (Api.get_devices e)) in
            st_modify (fun sv : app * discovery =>
              (sv.1, {| cloud_devices := Api.list_ found;
                        ble_devices := ble_devices sv.2 |})) ;;
            if scan_ble then
              let! devices := beside (in_ble scan) in
              st_modify (fun sv : app * discovery =>
                (sv.1, {| cloud_devices := cloud_devices sv.2; ble_devices := devices |}))
            else st_ret tt))
        (fun _ => st_ret tt)
        (s, result) in
    (Return result', s').

Definition get_device_status (e : Api.env) (device_id : string)
    : St app (list (string * json)) :=
  st_try
    (async_with_api id
       (let! devices := in_api (Api.get_devices e) in
        st_ret (default [] (List.find (fun device => eq_str (dict_get "id" device) device_id)
                              (Api.list_ devices)))))
    (fun _ => st_ret []).

Definition control_device (e : Api.env) (device_id action : string) : St app bool :=
  st_try
    (async_with_api id
       (if String.eqb action "lock" then in_api (Api.lock_device e device_id)
        else if String.eqb action "unlock" then in_api (Api.unlock_device e device_id)
        else if String.eqb action "bind" then in_api (Api.bind_device e device_id)
        else if String.eqb action "unbind" then in_api (Api.unbind_device e device_id)
        else st_ret false))
    (fun _ => st_ret false).

Definition setup_mqtt (e : Api.env) (env : connect_env) : St app bool :=
  st_try
    (async_with_api id
       (let! cert := in_api (Api.get_iot_certificates e) in
        let! callback := st_gets (fun s => message_callback (this s)) in
        st_modify (on_this (set_mqtt_client (Some (init cert callback)))) ;;
        in_mqtt (connect env)))
    (fun _ => st_ret false).

(** [if not self.mqtt_client or not self.mqtt_client.is_connected: raise ...] *)
Definition require_mqtt : St app unit :=
  let! c := st_gets (fun s => mqtt_client (this s)) in
  match c with
  | Some m =>
      if is_connected m then st_ret tt
      else st_raise (Builtin (RuntimeError
                                "MQTT client not connected. Call setup_mqtt() first."))
  | None => st_raise (Builtin (RuntimeError
                                 "MQTT client not connected. Call setup_mqtt() first."))
  end.

Definition subscribe_to_device_updates (env : subscribe_env) (device_id : string)
    : St app bool :=
  require_mqtt ;;
  let topic := "device/" +:+ device_id +:+ "/status" in
  in_mqtt (subscribe env topic).

Definition send_device_command (env : publish_env) (device_id : string)
    (command : list (string * json)) : St app bool :=
  require_mqtt ;;
  let topic := "device/" +:+ device_id +:+ "/command" in
  in_mqtt (publish env topic (PDict command)).

Definition disconnect_mqtt (env : disconnect_env) : St app unit :=
  let! c := st_gets (fun s => mqtt_client (this s)) in
  match c with
  | Some _ => in_mqtt (disconnect env)
  | None => st_ret tt
  end.

Definition is_mqtt_connected (s : app) : bool :=
  match mqtt_client (this s) with
  | Some c => is_connection_alive {| self := c; world := the_world s |}
  | None => false
  end.

End Wrapper.

(** [AirseekersHomeAssistantAPI.__init__]. *)
Definition init (email password : string) (callback : option nat)
    : AirseekersHomeAssistantAPI :=
  let a := Api.init email password None in
  {| api := a; ble_scanner := Ble.init (Api.ble_service_uuids a); mqtt_client := None;
     message_callback := callback |}.

End Main.

(** * Vocabulary of the REST client and the wrapper *)

Section ApiVocabulary.
Context `{A : ApiLib} `{P : Api.Models}.
Variable e : Api.env.

(** [m] raises for want of a session, and leaves the client and the
    requests made as they were. *)
Definition refused {B} (m : St Api.state B) (s : Api.state) : Prop :=
  (m s).1 = Throw (Builtin (RuntimeError "Session not initialized"))
  /\ Api.self (m s).2 = Api.self s
  /\ Api.requests (Api.net (m s).2) = Api.requests (Api.net s).

(** [body] leaves the client's session, and the sessions created and
    closed, as they were. *)
Definition keeps_session {B} (body : St Api.state B) : Prop :=
  forall s,
    Api.session (Api.self (body s).2) = Api.session (Api.self s)
    /\ Api._should_close_session (Api.self (body s).2) = Api._should_close_session (Api.self s)
    /\ Api.closed (Api.net (body s).2) = Api.closed (Api.net s)
    /\ Api.created (Api.net (body s).2) = Api.created (Api.net s).

(** The client holds a token, and the clock has not reached its expiry. *)
Definition token_valid (s : Api.state) : Prop :=
  truthy (Api.access_token (Api.self s)) = true
  /\ match Api.token_expires_at (Api.self s) with
     | Some expires => (Api.now e (Api.clock_reads (Api.net s)) < expires)%Z
     | None => True
     end.

End ApiVocabulary.

(** The wrapper after [__aenter__] and after [__aexit__] of its REST
    client. *)
Definition entered (s : Main.app) : Main.app := (Main.in_api Api.__aenter__ s).2.
Definition exited (s : Main.app) : Main.app := (Main.in_api Api.__aexit__ s).2.

(** The actions [control_device] knows. *)
Definition known_action (action : string) : Prop :=
  action = "lock" \/ action = "unlock" \/ action = "bind" \/ action = "unbind".

(** The REST client of the wrapper with the network, and a messaging
    client in the wrapper's world. *)
Definition api_state (s : Main.app) : Api.state :=
  {| Api.self := Main.api (Main.this s); Api.net := Main.the_net s |}.
Definition mqtt_state (c : MQTTClient) (s : Main.app) : state :=
  {| self := c; world := Main.the_world s |}.

(** * Scenarios of the scanner, the REST client and the wrapper

    The library functions on the inputs of the scenarios: [str()] of a
    list of identifiers, [urljoin] of a base without a path and an
    endpoint that starts with a slash, and the models on dictionaries
    whose fields are strings. *)

(** The acknowledgement of the disconnect comes. *)
Definition parting : disconnect_env :=
  {| de_disconnect := Ret 0%Z; de_arrivals := [OnDisconnect 0]; de_rmtree := None |}.

(** The socket is gone when the transport is asked to disconnect. *)
Definition broken_pipe : disconnect_env :=
  {| de_disconnect := Raise (OSError "Broken pipe"); de_arrivals := []; de_rmtree := None |}.

(** The broker acknowledges message 7 after an acknowledgement that is
    not awaited. *)
Definition acknowledging : publish_env :=
  {| pe_publish := Ret 7%Z; pe_is_published := Ret false;
     pe_arrivals := [OnPublish 3 (Some 0%Z); OnPublish 7 (Some 0%Z)] |}.

(** Certificates whose broker address has no port. *)
Definition cert_no_port : IoTCertResponse :=
  {| ca := "CA"; cert_key := "CERT"; mqtt_broker := "broker.example";
     mqtt_client_id := "client-1"; private_key := "KEY" |}.

(** A client just constructed from them. *)
Definition fresh_no_port : state :=
  {| self := init cert_no_port (Some 0); world := empty_world |}.

(** The connected client after a disconnect whose acknowledgement did not
    come. *)
Definition stopped : state := (disconnect (L := scenario_lib) silent connected).2.


(** [str()] of a list of strings without quotes or backslashes. *)
Definition scenario_repr : PyRepr :=
  {| str_of_list := fun xs =>
       "[" +:+ String.concat ", " (List.map (fun x => "'" +:+ x +:+ "'") xs) +:+ "]" |}.

Definition mower : Ble.Device * Ble.AdvertisementData :=
  ({| Ble.dev_address := "AA:BB:CC:00:00:01"; Ble.dev_name := Some "Airseekers" |},
   {| Ble.adv_service_uuids := ["b725d2d0-353a-11f0-8d6e-09546e761b8b"];
      Ble.adv_rssi := (-60)%Z |}).

Definition headset : Ble.Device * Ble.AdvertisementData :=
  ({| Ble.dev_address := "AA:BB:CC:00:00:02"; Ble.dev_name := None |},
   {| Ble.adv_service_uuids := ["0000110b-0000-1000-8000-00805f9b34fb"];
      Ble.adv_rssi := (-48)%Z |}).

(** The scanner of a wrapper, and one without identifiers. *)
Definition scanner0 : Ble.BLEDeviceScanner :=
  Ble.init (Api.ble_service_uuids (Api.init "user@example.com" "secret" None)).

Definition nearby : Ble.scan_env :=
  {| Ble.bleak_installed := true; Ble.discover := Ret [headset; mower] |}.

Definition scenario_api : ApiLib :=
  {| urljoin := fun base endpoint => base +:+ endpoint;
     py_str := fun v =>
       match v with
       | JBool true => "True"
       | JBool false => "False"
       | _ => "None"
       end;
     float_nonzero := fun literal => negb (String.eqb literal "0.0") |}.

(** A field of a model that has to be a string. *)
Definition str_field (key : string) (members : list (string * json)) : result string :=
  match dict_get key members with
  | Some (JString text) => Return text
  | _ => Throw (Builtin (ValueError "validation error"))
  end.

Definition scenario_models : Api.Models :=
  {| Api.ServerHostResponse := str_field "host";
     Api.LoginResponse_of := fun members =>
       match str_field "access_token" members, str_field "host" members,
             str_field "refresh_token" members with
       | Return token, Return host, Return refresh =>
           Return {| Api.login_access_token := token; Api.login_host := host;
                     Api.login_language :=
                       match dict_get "language" members with
                       | Some (JString language) => language
                       | _ => EmptyString
                       end;
                     Api.login_refresh_token := refresh |}
       | _, _, _ => Throw (Builtin (ValueError "validation error"))
       end;
     Api.IoTCertResponse_of := fun members =>
       match str_field "ca" members, str_field "cert_key" members,
             str_field "mqtt_broker" members, str_field "mqtt_client_id" members,
             str_field "private_key" members with
       | Return a, Return b, Return c, Return d, Return k =>
           Return {| ca := a; cert_key := b; mqtt_broker := c; mqtt_client_id := d;
                     private_key := k |}
       | _, _, _, _, _ => Throw (Builtin (ValueError "validation error"))
       end;
     Api.DeviceListResponse_of := fun members =>
       match dict_get "list" members, dict_get "total" members with
       | Some (JArray items), Some (JInt n) =>
           Return {| Api.list_ :=
                       List.map (fun item => match item with
                                             | JObject fields => fields
                                             | _ => []
                                             end) items;
                     Api.total := n |}
       | _, _ => Throw (Builtin (ValueError "validation error"))
       end |}.

Definition ok (members : list (string * json)) : result Api.ApiResponse :=
  Return {| Api.code := 0; Api.data := Some (JObject members); Api.errorCode := 0;
            Api.msg := "success" |}.

Definition login_members : list (string * json) :=
  [("access_token", JString "token-1"); ("host", JString "https://eu.example");
   ("language", JString "en"); ("refresh_token", JString "refresh-1")].

Definition cert_members : list (string * json) :=
  [("ca", JString "CA"); ("cert_key", JString "CERT");
   ("mqtt_broker", JString "broker.example:8883"); ("mqtt_client_id", JString "client-1");
   ("private_key", JString "KEY")].

(** The cloud answers a login, then hands out the certificates. *)
Definition cloud : Api.env :=
  {| Api.respond := fun n =>
       match n with
       | 0 => ok login_members
       | 1 => ok cert_members
       | _ => Throw (Builtin (OSError "Connection reset"))
       end;
     Api.now := fun _ => 1000%Z |}.

(** The cloud names its host, then answers the login. *)
Definition welcoming : Api.env :=
  {| Api.respond := fun n =>
       match n with
       | 0 => ok [("host", JString "https://eu.example")]
       | 1 => ok login_members
       | _ => Throw (Builtin (OSError "Connection reset"))
       end;
     Api.now := fun _ => 1000%Z |}.

(** The cloud answers a login, then lists two devices, the first with a
    number for its identifier. *)
Definition stocked : Api.env :=
  {| Api.respond := fun n =>
       match n with
       | 0 => ok login_members
       | 1 => ok [("list", JArray [JObject [("id", JInt 42)];
                                   JObject [("id", JString "42"); ("name", JString "mower")]]);
                  ("total", JInt 2)]
       | _ => Throw (Builtin (OSError "Connection reset"))
       end;
     Api.now := fun _ => 1000%Z |}.

(** The cloud cannot be reached. *)
Definition offline : Api.env :=
  {| Api.respond := fun _ => Throw (Builtin (OSError "Network is unreachable"));
     Api.now := fun _ => 1000%Z |}.

(** The cloud accepts a refresh and sends no token. *)
Definition forgetful : Api.env :=
  {| Api.respond := fun n =>
       match n with
       | 0 => ok [("expires_in", JInt 82800)]
       | _ => Throw (Builtin (OSError "Connection reset"))
       end;
     Api.now := fun _ => 1000%Z |}.

(** The cloud has nothing to say about the device. *)
Definition blank : Api.env :=
  {| Api.respond := fun _ =>
       Return {| Api.code := 0; Api.data := None; Api.errorCode := 0; Api.msg := "success" |};
     Api.now := fun _ => 1000%Z |}.

(** A client just constructed, without and with a session of the caller. *)
Definition signed_out : Api.state :=
  {| Api.self := Api.init "user@example.com" "secret" None; Api.net := Api.empty_net |}.

Definition in_session : Api.state :=
  {| Api.self := Api.init "user@example.com" "secret" (Some 0); Api.net := Api.empty_net |}.

(** A client in a session whose token expired at 500. *)
Definition expired : Api.state :=
  Api.on_self (fun a => Api.set_token_expires_at (Some 500%Z)
                          (Api.set_refresh_token (Some "refresh-1")
                             (Api.set_access_token (JString "token-1") a))) in_session.

(** A client in a session whose token holds until 5000. *)
Definition signed_in : Api.state :=
  Api.on_self (fun a => Api.set_token_expires_at (Some 5000%Z)
                          (Api.set_refresh_token (Some "refresh-1")
                             (Api.set_access_token (JString "token-1") a))) in_session.

(** A wrapper just constructed, and one whose messaging client is the
    connected client of the scenarios above. *)
Definition app0 : Main.app :=
  {| Main.this := Main.init "user@example.com" "secret" (Some 0);
     Main.the_net := Api.empty_net; Main.the_world := empty_world |}.

Definition app_signed_in : Main.app :=
  {| Main.this := Main.set_api (Api.self signed_in) (Main.this app0);
     Main.the_net := Api.empty_net; Main.the_world := empty_world |}.

Definition app_connected : Main.app :=
  {| Main.this := Main.set_mqtt_client (Some (self connected)) (Main.this app0);
     Main.the_net := Api.empty_net; Main.the_world := world connected |}.

(** * Properties *)

Section Properties.
Context `{L : PyLib}.
Local Open Scope list_scope.

Ltac run :=
  unfold call, record, logger in *;
  unfold bind, ret, raise, lift, gets, modify, try_except, fault in *;
  cbn [fst snd self world on_self on_world] in *.

(** ** Acknowledgements that find no registration *)

Lemma on_publish_noop (mid : Z) (reason_code : option Z) (s : state) :
  _publish_events (self s) !! mid = None ->
  _on_publish mid reason_code s = (Ret tt, s).
Proof.
  intros Hnone. unfold _on_publish. run. rewrite Hnone.
  rewrite bool_decide_eq_false_2; [reflexivity | ].
  intros [? ?]; discriminate.
Qed.

(** C3: a publish acknowledgement whose message identifier has no
    registered completion event returns normally and leaves the whole
    state, the three tracking dictionaries included, as it was: the
    transport delivering it changes nothing a later operation could
    observe. *)
Theorem on_publish_unregistered (mid : Z) (reason_code : option Z) (s : state) :
  _publish_events (self s) !! mid = None ->
  _on_publish mid reason_code s = (Ret tt, s)
  /\ deliver (OnPublish mid reason_code) s = s.
Proof.
  intros Hnone. unfold deliver. cbn [handle].
  rewrite (on_publish_noop mid reason_code s Hnone). auto.
Qed.

(** ** Operations issued while not connected *)

(** C4: [subscribe] on a client whose [is_connected] is false raises
    [RuntimeError("MQTT client not connected")] and leaves the state as it
    was: nothing is sent to the transport, nothing is registered. *)
Theorem subscribe_not_connected (env : subscribe_env) (topic : string) (s : state) :
  is_connected (self s) = false ->
  subscribe env topic s = (Raise (RuntimeError "MQTT client not connected"), s).
Proof.
  intros Hoff. unfold subscribe, subscribe_issue, require_connected. run.
  rewrite Hoff. reflexivity.
Qed.

(** ** What callbacks leave alone *)

Lemma handle_frame (cb : callback) (s : state) :
  frame (handle cb s).2 = frame s.
Proof.
  destruct cb as [rc | rc | msg | mid | mid rc]; cbn [handle].
  - unfold _on_connect. destruct (rc =? 0)%Z; reflexivity.
  - reflexivity.
  - unfold _on_message. run.
    destruct (message_callback (self s)); [ | reflexivity].
    destruct (bytes_decode (msg_payload msg)) as [text | e]; cbn.
    + destruct (json_loads text) as [j | e]; cbn; [reflexivity | ].
      destruct e; reflexivity.
    + destruct e; reflexivity.
  - unfold _on_subscribe. run.
    destruct (client (self s) ≫= userdata) as [t | ]; [ | reflexivity].
    destruct (bool_decide (t ≠ "")); cbn; [ | reflexivity].
    destruct (_subscribe_events (self s) !! t) as [e | ] eqn:He.
    + rewrite bool_decide_eq_true_2 by eauto. unfold getitem. rewrite He. cbn.
      unfold frame, event_set; cbn. rewrite length_insert. reflexivity.
    + rewrite bool_decide_eq_false_2 by (intros [? ?]; discriminate). reflexivity.
  - unfold _on_publish. run.
    destruct (_publish_events (self s) !! mid) as [e | ] eqn:He.
    + rewrite bool_decide_eq_true_2 by eauto. unfold getitem. cbn. rewrite He. cbn.
      unfold frame, event_set; cbn. rewrite length_insert. reflexivity.
    + rewrite bool_decide_eq_false_2 by (intros [? ?]; discriminate). reflexivity.
Qed.

Lemma deliver_frame (cb : callback) (s : state) : frame (deliver cb s) = frame s.
Proof. apply handle_frame. Qed.

(** ** Waiting for a subscribe acknowledgement *)

Lemma registered_frame topic n s s' :
  frame s' = frame s -> registered topic n s -> registered topic n s'.
Proof.
  unfold frame, registered. intros Hf (Hu & Hs & Hn).
  injection Hf as _ _ -> _ -> _ _ _ ->. auto.
Qed.

Lemma unshared_frame n s s' :
  frame s' = frame s -> unshared n s -> unshared n s'.
Proof.
  unfold frame, unshared. intros Hf Hu.
  injection Hf as _ _ _ _ _ -> _ _ _. exact Hu.
Qed.

Lemma deliver_keeps_event (cb : callback) (n : nat) (s : state) :
  is_suback cb = false -> unshared n s ->
  events (world (deliver cb s)) !! n = events (world s) !! n.
Proof.
  intros Hcb Hun. unfold deliver.
  destruct cb as [rc | rc | msg | mid | mid rc]; cbn [handle]; try discriminate.
  - unfold _on_connect. destruct (rc =? 0)%Z; reflexivity.
  - reflexivity.
  - unfold _on_message. run.
    destruct (message_callback (self s)); [ | reflexivity].
    destruct (bytes_decode (msg_payload msg)) as [text | e]; cbn.
    + destruct (json_loads text) as [j | e]; cbn; [reflexivity | ].
      destruct e; reflexivity.
    + destruct e; reflexivity.
  - unfold _on_publish. run.
    destruct (_publish_events (self s) !! mid) as [e | ] eqn:He.
    + rewrite bool_decide_eq_true_2 by eauto. unfold getitem. cbn. rewrite He. cbn.
      apply list_lookup_insert_ne. eauto.
    + rewrite bool_decide_eq_false_2 by (intros [? ?]; discriminate). reflexivity.
Qed.

Lemma deliver_suback_sets (mid : Z) (topic : string) (n : nat) (s : state) :
  topic ≠ "" -> registered topic n s ->
  events (world (deliver (OnSubscribe mid) s)) !! n = Some true.
Proof.
  intros Hne (Hu & Hs & Hn). unfold deliver. cbn [handle]. unfold _on_subscribe. run.
  rewrite Hu. rewrite bool_decide_eq_true_2 by assumption. cbn.
  rewrite Hs. rewrite bool_decide_eq_true_2 by eauto. unfold getitem. rewrite Hs. cbn.
  apply list_lookup_insert_eq. exact Hn.
Qed.

Lemma wait_set (ev : event_ref) (arrivals : list callback) (s : state) :
  is_set ev s = true -> wait ev arrivals s = (Ret tt, s).
Proof. intros H. unfold wait. rewrite H. reflexivity. Qed.

Lemma wait_clear (ev : event_ref) (arrivals : list callback) (s : state) :
  is_set ev s = false -> wait ev arrivals s = suspended ev arrivals false s.
Proof. intros H. unfold wait. rewrite H. reflexivity. Qed.

(** A caller that was woken returns, whatever runs before it does. *)
Lemma suspended_woken (ev : event_ref) (arrivals : list callback) (s : state) :
  (suspended ev arrivals true s).1 = Ret tt.
Proof.
  revert s. induction arrivals as [ | cb rest IH]; intros s; [reflexivity | ].
  cbn. apply IH.
Qed.

Lemma suspended_frame (ev : event_ref) (arrivals : list callback) (woken : bool) (s : state) :
  frame (suspended ev arrivals woken s).2 = frame s.
Proof.
  revert woken s. induction arrivals as [ | cb rest IH]; intros woken s; cbn.
  - destruct woken; reflexivity.
  - rewrite IH. apply deliver_frame.
Qed.

(** A caller that callbacks satisfying [quiet] never wake gets
    [TimeoutError]; [I] is what these callbacks keep true, the event being
    clear included. *)
Lemma suspended_times_out (I : state -> Prop) (quiet : callback -> bool) (ev : event_ref)
    (arrivals : list callback) (s : state) :
  (forall cb s, quiet cb = true -> I s -> I (deliver cb s)) ->
  (forall s, I s -> is_set ev s = false) ->
  forallb quiet arrivals = true ->
  I s ->
  exists s', suspended ev arrivals false s = (Raise TimeoutError, s')
    /\ I s' /\ frame s' = frame s.
Proof.
  intros Hstep Hclear. revert s. induction arrivals as [ | cb rest IH]; intros s Hall HI.
  - exists s. auto.
  - cbn in Hall. apply andb_prop in Hall as [Hcb Hrest].
    pose proof (Hstep cb s Hcb HI) as HI'.
    destruct (IH (deliver cb s) Hrest HI') as (s' & Hw & HI'' & Hf).
    exists s'. cbn. rewrite (Hclear _ HI'). cbn. split; [exact Hw | ].
    split; [exact HI'' | ]. rewrite Hf. apply deliver_frame.
Qed.

Lemma wait_times_out (I : state -> Prop) (quiet : callback -> bool) (ev : event_ref)
    (arrivals : list callback) (s : state) :
  (forall cb s, quiet cb = true -> I s -> I (deliver cb s)) ->
  (forall s, I s -> is_set ev s = false) ->
  forallb quiet arrivals = true ->
  I s ->
  exists s', wait ev arrivals s = (Raise TimeoutError, s') /\ I s' /\ frame s' = frame s.
Proof.
  intros Hstep Hclear Hall HI. rewrite wait_clear by (apply Hclear; exact HI).
  apply (suspended_times_out I quiet); assumption.
Qed.

(** Without a subscribe acknowledgement the wait ends in [TimeoutError]. *)
Lemma wait_no_suback (n : nat) (arrivals : list callback) (s : state) :
  forallb (fun cb => negb (is_suback cb)) arrivals = true ->
  unshared n s ->
  events (world s) !! n = Some false ->
  exists s', wait (EvObj n) arrivals s = (Raise TimeoutError, s') /\ frame s' = frame s.
Proof.
  intros Hall Hun Hclear.
  destruct (wait_times_out
              (fun s => unshared n s /\ events (world s) !! n = Some false)
              (fun cb => negb (is_suback cb)) (EvObj n) arrivals s)
    as (s' & Hw & _ & Hf); [ | | exact Hall | auto | eauto].
  - intros cb s0 Hcb [Hun0 Hclear0]. apply negb_true_iff in Hcb. split.
    + eapply unshared_frame; [apply deliver_frame | exact Hun0].
    + rewrite deliver_keeps_event by assumption. exact Hclear0.
  - intros s0 [_ Hclear0]. cbn. rewrite Hclear0. reflexivity.
Qed.

(** With one, of whatever message identifier, the wait returns. *)
Lemma suspended_suback (topic : string) (n : nat) (arrivals : list callback) (woken : bool)
    (s : state) :
  woken || existsb is_suback arrivals = true ->
  topic ≠ "" -> registered topic n s ->
  (suspended (EvObj n) arrivals woken s).1 = Ret tt.
Proof.
  revert woken s. induction arrivals as [ | cb rest IH]; intros woken s Hex Hne Hreg.
  - cbn in *. rewrite orb_false_r in Hex. rewrite Hex. reflexivity.
  - cbn [suspended]. apply IH; [ | exact Hne | ].
    + destruct woken; [reflexivity | ]. cbn in Hex. cbn [orb].
      destruct (is_suback cb) eqn:Hcb; [ | cbn in Hex; rewrite Hex; apply orb_true_r].
      destruct cb; try discriminate. cbn.
      erewrite deliver_suback_sets by eassumption. reflexivity.
    + eapply registered_frame; [apply deliver_frame | exact Hreg].
Qed.

Lemma wait_suback (topic : string) (n : nat) (arrivals : list callback) (s : state) :
  existsb is_suback arrivals = true ->
  topic ≠ "" -> registered topic n s ->
  exists s', wait (EvObj n) arrivals s = (Ret tt, s') /\ frame s' = frame s.
Proof.
  intros Hex Hne Hreg. destruct (is_set (EvObj n) s) eqn:Hset.
  { exists s. rewrite wait_set by assumption. auto. }
  rewrite wait_clear by exact Hset.
  pose proof (suspended_suback topic n arrivals false s Hex Hne Hreg) as Hret.
  pose proof (suspended_frame (EvObj n) arrivals false s) as Hf.
  destruct (suspended (EvObj n) arrivals false s) as [r s']. cbn in Hret, Hf. subst r.
  eauto.
Qed.

(** ** Subscribing *)

Lemma alive_inv (s : state) :
  is_connection_alive s = true ->
  is_connected (self s) = true /\ exists c, client (self s) = Some c.
Proof.
  unfold is_connection_alive. intros H. apply andb_prop in H as [H1 H2].
  apply bool_decide_eq_true_1 in H2 as [c Hc]. eauto.
Qed.

(** The state in which an accepted subscribe suspends. *)
Lemma subscribe_issue_accepted (env : subscribe_env) (topic : string) (s : state) mid :
  is_connection_alive s = true ->
  se_subscribe env = Ret (MQTT_ERR_SUCCESS, mid) ->
  let n := length (events (world s)) in
  exists s1,
    subscribe_issue env topic s = (Ret (Pending n), s1)
    /\ _subscribe_events (self s1) = <[topic := n]> (_subscribe_events (self s))
    /\ _publish_events (self s1) = _publish_events (self s)
    /\ client (self s1) ≫= userdata = Some topic
    /\ events (world s1) = events (world s) ++ [false]
    /\ trace (world s1) = trace (world s) ++ [UserDataSet topic; Subscribe topic].
Proof.
  intros Halive Henv n. apply alive_inv in Halive as (Hon & c & Hc).
  unfold subscribe_issue, require_connected, new_event, user_data_set, the_client. run.
  rewrite Hon, Hc. cbn. rewrite Hc. cbn. rewrite Henv. cbn.
  rewrite bool_decide_eq_false_2 by (intros H; apply H; reflexivity).
  unfold getitem. cbn. rewrite lookup_insert_eq.
  eexists. split; [reflexivity | ]. cbn. rewrite <- app_assoc. auto 10.
Qed.
(** An acknowledgement delivered while the user data names the empty
    topic sets no event: [_on_subscribe] skips a topic that is empty. *)
Lemma wait_empty_topic (n : nat) (arrivals : list callback) (s : state) :
  client (self s) ≫= userdata = Some "" ->
  unshared n s ->
  events (world s) !! n = Some false ->
  exists s', wait (EvObj n) arrivals s = (Raise TimeoutError, s') /\ frame s' = frame s.
Proof.
  intros Hud Hun Hclear.
  destruct (wait_times_out
              (fun s => client (self s) ≫= userdata = Some ""
                        /\ unshared n s /\ events (world s) !! n = Some false)
              (fun _ => true) (EvObj n) arrivals s)
    as (s' & Hw & _ & Hf); [ | | | auto | eauto].
  - intros cb s0 _ (Hud0 & Hun0 & Hclear0).
    pose proof (deliver_frame cb s0) as Hf.
    split; [ | split].
    + unfold frame in Hf. injection Hf as _ _ -> _ _ _ _ _ _. exact Hud0.
    + eapply unshared_frame; [exact Hf | exact Hun0].
    + destruct (is_suback cb) eqn:Hcb.
      * destruct cb as [ | | | mid | ]; try discriminate.
        unfold deliver. cbn [handle]. unfold _on_subscribe. run. rewrite Hud0.
        rewrite bool_decide_eq_false_2 by (intros H; apply H; reflexivity).
        exact Hclear0.
      * rewrite deliver_keeps_event by assumption. exact Hclear0.
  - intros s0 (_ & _ & Hclear0). cbn. rewrite Hclear0. reflexivity.
  - clear. induction arrivals as [ | cb rest IH]; [reflexivity | exact IH].
Qed.

(** C6: a [subscribe] issued on a live connection. When the transport
    call raises, the exception reaches the caller and the completion event
    registered before the call stays registered. When it returns a nonzero
    result, [subscribe] gives [False] at once, without any wait, and the
    registration is removed. When it returns a zero result, [subscribe]
    waits at most 5.0 and gives [True] exactly when the topic is not empty
    and a subscribe acknowledgement, of whatever message identifier, is
    among the callbacks delivered during the wait; the registration is
    removed either way. *)
Theorem subscribe_outcomes (env : subscribe_env) (topic : string) (s : state) :
  is_connection_alive s = true ->
  wf s ->
  let n := length (events (world s)) in
  let issued := trace (world s) ++ [UserDataSet topic; Subscribe topic] in
  let waited := issued ++ [Await (EvObj n) 5] in
  (forall e, se_subscribe env = Raise e ->
     exists s', subscribe env topic s = (Raise e, s')
       /\ _subscribe_events (self s') !! topic = Some n
       /\ trace (world s') = issued)
  /\ (forall result mid, se_subscribe env = Ret (result, mid) ->
      result ≠ MQTT_ERR_SUCCESS ->
     exists s', subscribe env topic s = (Ret false, s')
       /\ _subscribe_events (self s') !! topic = None
       /\ trace (world s') = issued)
  /\ (forall mid, se_subscribe env = Ret (MQTT_ERR_SUCCESS, mid) ->
     exists s',
       subscribe env topic s
       = (Ret (existsb is_suback (se_arrivals env) && bool_decide (topic ≠ "")), s')
       /\ _subscribe_events (self s') !! topic = None
       /\ trace (world s') = waited).
Proof.
  intros Halive Hwf n issued waited. split; [ | split].
  - intros e Henv. apply alive_inv in Halive as (Hon & c & Hc).
    unfold subscribe, subscribe_issue, require_connected, new_event, user_data_set,
      the_client. run.
    rewrite Hon, Hc. cbn. rewrite Hc. cbn. rewrite Henv. cbn.
    eexists. split; [reflexivity | ]. cbn. split; [apply lookup_insert_eq | ].
    subst issued. rewrite <- app_assoc. reflexivity.
  - intros result mid Henv Hrc. apply alive_inv in Halive as (Hon & c & Hc).
    unfold subscribe, subscribe_issue, require_connected, new_event, user_data_set,
      the_client, del_subscribe_event. run.
    rewrite Hon, Hc. cbn. rewrite Hc. cbn. rewrite Henv. cbn.
    rewrite bool_decide_eq_true_2 by assumption. cbn.
    rewrite lookup_insert_eq. cbn.
    eexists. split; [reflexivity | ]. cbn. rewrite lookup_delete_eq.
    subst issued. rewrite <- app_assoc. auto.
  - intros mid Henv.
    destruct (subscribe_issue_accepted env topic s mid Halive Henv)
      as (s1 & Hissue & Hsubs & Hpubs & Hud & Hev & Htr).
    fold n in Hissue, Hsubs.
    set (s2 := on_world (fun w => set_trace (trace w ++ [Await (EvObj n) 5]) w) s1).
    assert (unshared n s2) as Hun.
    { intros m e He. cbn in He. rewrite Hpubs in He. apply Hwf in He. fold n in He. lia. }
    assert (events (world s2) !! n = Some false) as Hclear.
    { cbn. rewrite Hev. rewrite lookup_app_r by (subst n; lia).
      replace (n - length (events (world s))) with 0 by (subst n; lia). reflexivity. }
    assert (exists s3,
              wait (EvObj n) (se_arrivals env) s2
              = (if existsb is_suback (se_arrivals env) && bool_decide (topic ≠ "")
                 then Ret tt else Raise TimeoutError, s3)
              /\ frame s3 = frame s2) as (s3 & Hwait & Hframe).
    { destruct (existsb is_suback (se_arrivals env)) eqn:Hsome; cbn [andb].
      - destruct (bool_decide (topic ≠ "")) eqn:Hne.
        + apply bool_decide_eq_true_1 in Hne.
          apply (wait_suback topic n (se_arrivals env) s2 Hsome Hne).
          repeat split; cbn.
          * exact Hud.
          * rewrite Hsubs. apply lookup_insert_eq.
          * rewrite Hev, length_app. cbn. fold n. lia.
        + apply bool_decide_eq_false_1 in Hne.
          assert (topic = "") as -> by (destruct (decide (topic = "")); [assumption | contradiction]).
          apply wait_empty_topic; [exact Hud | exact Hun | exact Hclear].
      - apply wait_no_suback; [ | exact Hun | exact Hclear].
        clear -Hsome. induction (se_arrivals env) as [ | cb rest IH]; [reflexivity | ].
        cbn in *. apply orb_false_elim in Hsome as [-> Hrest]. cbn. auto. }
    unfold subscribe, subscribe_settle, wait_for, del_subscribe_event. run.
    rewrite Hissue. fold s2. rewrite Hwait.
    unfold frame in Hframe. injection Hframe as _ _ _ _ Hs3 _ _ Ht3 _.
    destruct (existsb is_suback (se_arrivals env) && bool_decide (topic ≠ "")); cbn;
      rewrite Hs3; cbn; rewrite Hsubs, lookup_insert_eq;
      (eexists; split; [reflexivity | ]; cbn; rewrite Hs3; cbn;
       rewrite Hsubs, lookup_delete_eq; split; [reflexivity | ];
       rewrite Ht3; cbn; rewrite Htr; reflexivity).
Qed.

(** ** Publishing *)

(** C5: on a live connection, when the payload serialises to [text], the
    transport takes the message and reports it already published,
    [publish] returns [True]; the only action is the publish request
    itself (no wait), and the client's attributes, the three tracking
    dictionaries among them, are as before; no event object is created. *)
Theorem publish_flushed (env : publish_env) (topic text : string) (p : payload)
    (mid : Z) (s : state) :
  is_connection_alive s = true ->
  serialise p s = (Ret text, s) ->
  pe_publish env = Ret mid ->
  pe_is_published env = Ret true ->
  exists s', publish env topic p s = (Ret true, s')
    /\ self s' = self s
    /\ events (world s') = events (world s)
    /\ trace (world s') = trace (world s) ++ [Publish topic text].
Proof.
  intros Halive Hser Hpub Hflushed. apply alive_inv in Halive as (Hon & c & Hc).
  unfold publish, require_connected, the_client. run.
  rewrite Hon, Hc. cbn. rewrite Hser, Hc. cbn. rewrite Hpub, Hflushed. cbn.
  eexists. split; [reflexivity | ]. cbn. destruct s; auto.
Qed.

(** ** Disconnecting *)

(** C7: [disconnect] on a client whose [is_connected] is false returns
    normally; it sends nothing to the transport and does not wait (the
    trace is as before), and the client's attributes are as before. *)
Theorem disconnect_not_connected (env : disconnect_env) (s : state) :
  is_connected (self s) = false ->
  exists s', disconnect env s = (Ret tt, s')
    /\ trace (world s') = trace (world s)
    /\ self s' = self s.
Proof.
  intros Hoff. unfold disconnect, close_transport, cleanup, rmtree. run. rewrite Hoff, andb_false_r.
  destruct (_temp_dir (self s)) as [dir | ]; [ | eauto].
  destruct (bool_decide (dir ≠ "")); [ | eauto].
  destruct (de_rmtree env) as [e | ]; [eauto | ].
  destruct (fs (world s) !! dir); eauto.
Qed.

Lemma suspended_raises (ev : event_ref) (arrivals : list callback) (woken : bool)
    (s s' : state) (e : exn) :
  suspended ev arrivals woken s = (Raise e, s') -> e = TimeoutError.
Proof.
  revert woken s. induction arrivals as [ | cb rest IH]; intros woken s; cbn.
  - destruct woken; congruence.
  - apply IH.
Qed.

Lemma wait_raises (ev : event_ref) (arrivals : list callback) (s s' : state) (e : exn) :
  wait ev arrivals s = (Raise e, s') -> e = TimeoutError.
Proof.
  unfold wait. destruct (is_set ev s); [discriminate | apply suspended_raises].
Qed.

(** A [disconnect] whose transport request does not raise leaves
    [is_connected] false, whether the acknowledgement came or the 5.0 wait
    ran out: a second [disconnect] in a row is in the case above. *)
Lemma disconnect_clears_is_connected (env : disconnect_env) (rc : Z) (c : Client)
    (s : state) :
  client (self s) = Some c ->
  de_disconnect env = Ret rc ->
  is_connected (self (disconnect env s).2) = false.
Proof.
  intros Hc Hrc. unfold disconnect, close_transport, cleanup, wait_for, rmtree. run. rewrite Hc.
  rewrite bool_decide_eq_true_2 by eauto. cbn.
  destruct (is_connected (self s)) eqn:Hon.
  - rewrite Hrc. cbn.
    match goal with
    | |- context [wait ?ev ?l ?st] => destruct (wait ev l st) as [[[] | e] s1] eqn:Hw
    end; cbn.
    2: apply wait_raises in Hw as ->; cbn.
    all: destruct (_temp_dir (self s1)) as [dir | ]; cbn; [ | reflexivity].
    all: destruct (bool_decide (dir ≠ "")); cbn; [ | reflexivity].
    all: destruct (de_rmtree env); cbn; [reflexivity | ].
    all: destruct (fs (world s1) !! dir); reflexivity.
  - destruct (_temp_dir (self s)) as [dir | ]; cbn; [ | exact Hon].
    destruct (bool_decide (dir ≠ "")); cbn; [ | exact Hon].
    destruct (de_rmtree env); cbn; [exact Hon | ].
    destruct (fs (world s) !! dir); exact Hon.
Qed.

(** ** Connecting *)

Ltac crunch :=
  repeat match goal with
         | |- context [match ?x with _ => _ end] => destruct x eqn:?; cbn
         end.

Lemma preserves_bind {X A B} (f : state -> X) (m : M A) (k : A -> M B) :
  preserves f m -> (forall a, preserves f (k a)) -> preserves f (bind m k).
Proof.
  intros Hm Hk s. unfold bind. specialize (Hm s).
  destruct (m s) as [[a | e] s1]; cbn in *; [ | exact Hm].
  rewrite Hk. exact Hm.
Qed.

Lemma preserves_try {X A} (f : state -> X) (body : M A) (h : exn -> option (M A)) :
  preserves f body -> (forall e m, h e = Some m -> preserves f m) ->
  preserves f (try_except body h).
Proof.
  intros Hb Hh s. unfold try_except. specialize (Hb s).
  destruct (body s) as [[a | e] s1]; cbn in *; [exact Hb | ].
  destruct (h e) as [m | ] eqn:He; [ | exact Hb].
  rewrite (Hh e m He). exact Hb.
Qed.

Lemma preserves_pure {X A} (f : state -> X) (m : M A) :
  (forall s, (m s).2 = s) -> preserves f m.
Proof. intros H s. rewrite H. reflexivity. Qed.

(** A wait runs callbacks only, so it keeps whatever is read off [frame]. *)
Lemma preserves_wait {X} (f : state -> X) (ev : event_ref) (arrivals : list callback) :
  (forall s s', frame s' = frame s -> f s' = f s) ->
  preserves f (wait ev arrivals).
Proof.
  intros Hf s. apply Hf. unfold wait.
  destruct (is_set ev s); [reflexivity | apply suspended_frame].
Qed.

(** Splits a method along its binds and branches; what is left are the
    primitive operations, decided by computation. *)
Ltac preserve :=
  repeat first
    [ apply preserves_bind; [ | intros ? ]
    | apply preserves_try; [ | intros ? ? ?; repeat case_match; simplify_eq ]
    | apply preserves_pure; intros ?; reflexivity
    | apply preserves_wait;
      let H := fresh in
      intros ? ? H; unfold frame in H; unfold tf, registry; injection H; intros; congruence
    | match goal with
      | |- preserves _ (match ?x with _ => _ end) => destruct x
      | |- preserves _ (let (_, _) := ?x in _) => destruct x
      end ];
  try (intros ?;
       unfold mkdtemp, write_file, rmtree, the_client, user_data_set, new_event,
         event_set, create_task, getitem, del_subscribe_event, del_publish_event,
         del_publish_result;
       run; crunch; reflexivity).

Lemma connect_setup_keeps (env : connect_env) :
  preserves untouched_by_setup (connect_setup env).
Proof. unfold connect_setup, materialise, open_transport. preserve. Qed.

Lemma deliver_keeps_disconnected (cb : callback) (s : state) :
  is_connack_success cb = false ->
  is_connected (self s) = false ->
  _connection_event (self s) = false ->
  is_connected (self (deliver cb s)) = false
  /\ _connection_event (self (deliver cb s)) = false.
Proof.
  intros Hcb Hon Hev. unfold deliver.
  destruct cb as [rc | rc | msg | mid | mid rc]; cbn [handle].
  - cbn in Hcb. unfold _on_connect. rewrite Hcb. auto.
  - cbn. auto.
  - assert (preserves (fun s => (is_connected (self s), _connection_event (self s)))
              (_on_message msg)) as H by (unfold _on_message; preserve).
    specialize (H s). injection H as -> ->. auto.
  - assert (preserves (fun s => (is_connected (self s), _connection_event (self s)))
              (handle (OnSubscribe mid))) as H
      by (unfold handle, _on_subscribe; preserve).
    specialize (H s). injection H as -> ->. auto.
  - assert (preserves (fun s => (is_connected (self s), _connection_event (self s)))
              (_on_publish mid rc)) as H by (unfold _on_publish; preserve).
    specialize (H s). injection H as -> ->. auto.
Qed.

(** What a callback does to the two attributes of the connection. *)
Lemma deliver_link (cb : callback) (s : state) :
  is_connected (self (deliver cb s)) = link_step (is_connected (self s)) cb
  /\ _connection_event (self (deliver cb s)) = link_step (_connection_event (self s)) cb.
Proof.
  unfold deliver. destruct cb as [rc | rc | msg | mid | mid rc]; cbn [handle link_step].
  - unfold _on_connect. destruct (rc =? 0)%Z; auto.
  - cbn. auto.
  - assert (preserves (fun s => (is_connected (self s), _connection_event (self s)))
              (_on_message msg)) as H by (unfold _on_message, create_task; preserve).
    specialize (H s). injection H as -> ->. auto.
  - assert (preserves (fun s => (is_connected (self s), _connection_event (self s)))
              (handle (OnSubscribe mid))) as H
      by (unfold handle, _on_subscribe; preserve).
    specialize (H s). injection H as -> ->. auto.
  - assert (preserves (fun s => (is_connected (self s), _connection_event (self s)))
              (_on_publish mid rc)) as H by (unfold _on_publish; preserve).
    specialize (H s). injection H as -> ->. auto.
Qed.

Lemma suspended_link (ev : event_ref) (arrivals : list callback) (woken : bool) (s : state) :
  is_connected (self (suspended ev arrivals woken s).2)
  = link_after arrivals (is_connected (self s))
  /\ _connection_event (self (suspended ev arrivals woken s).2)
     = link_after arrivals (_connection_event (self s)).
Proof.
  revert woken s. induction arrivals as [ | cb rest IH]; intros woken s; cbn.
  - destruct woken; auto.
  - destruct (deliver_link cb s) as [<- <-]. apply IH.
Qed.

(** A wait for the connection event that starts with the event clear
    returns exactly when a successful acknowledgement is among the
    callbacks; the attributes are then what the callbacks made of them. *)
Lemma suspended_connection (arrivals : list callback) (woken : bool) (s : state) :
  (_connection_event (self s) = true -> woken = true) ->
  (suspended EvConnection arrivals woken s).1
  = if woken || existsb is_connack_success arrivals then Ret tt else Raise TimeoutError.
Proof.
  revert woken s. induction arrivals as [ | cb rest IH]; intros woken s Hinv.
  - cbn. rewrite orb_false_r. destruct woken; reflexivity.
  - cbn [suspended existsb]. destruct (deliver_link cb s) as [_ Hev].
    rewrite IH.
    + cbn [is_set]. rewrite Hev.
      destruct woken; [reflexivity | ]. cbn [orb].
      destruct (_connection_event (self s)); [discriminate (Hinv eq_refl) | ].
      destruct cb as [rc | rc | msg | mid | mid rc]; cbn; try reflexivity.
      destruct (rc =? 0)%Z; reflexivity.
    + cbn [is_set]. intros H. destruct woken; [reflexivity | ]. exact H.
Qed.

Lemma wait_connection (arrivals : list callback) (s : state) :
  _connection_event (self s) = false ->
  (wait EvConnection arrivals s).1
  = (if existsb is_connack_success arrivals then Ret tt else Raise TimeoutError)
  /\ is_connected (self (wait EvConnection arrivals s).2)
     = link_after arrivals (is_connected (self s))
  /\ _connection_event (self (wait EvConnection arrivals s).2) = link_after arrivals false
  /\ frame (wait EvConnection arrivals s).2 = frame s.
Proof.
  intros Hev. rewrite wait_clear by exact Hev.
  destruct (suspended_link EvConnection arrivals false s) as [Hon Hev'].
  rewrite Hev in Hev'. split; [ | split; [exact Hon | split; [exact Hev' | ] ] ].
  - apply suspended_connection. congruence.
  - apply suspended_frame.
Qed.

Lemma link_after_quiet (arrivals : list callback) :
  forallb (fun cb => negb (is_connack_success cb)) arrivals = true ->
  link_after arrivals false = false.
Proof.
  induction arrivals as [ | cb rest IH]; [reflexivity | ].
  cbn. intros H. apply andb_prop in H as [Hcb Hrest]. apply negb_true_iff in Hcb.
  replace (link_step false cb) with false; [exact (IH Hrest) | ].
  destruct cb; cbn in *; try reflexivity. rewrite Hcb. reflexivity.
Qed.

Lemma existsb_quiet {X} (p : X -> bool) (xs : list X) :
  forallb (fun x => negb (p x)) xs = true -> existsb p xs = false.
Proof.
  induction xs as [ | x rest IH]; [reflexivity | ].
  cbn. intros H. apply andb_prop in H as [Hx Hrest]. apply negb_true_iff in Hx.
  rewrite Hx. exact (IH Hrest).
Qed.

(** Without a successful connect acknowledgement the wait of [connect]
    runs out. *)
Lemma wait_no_connack (arrivals : list callback) (s : state) :
  forallb (fun cb => negb (is_connack_success cb)) arrivals = true ->
  is_connected (self s) = false ->
  _connection_event (self s) = false ->
  exists s', wait EvConnection arrivals s = (Raise TimeoutError, s')
    /\ is_connected (self s') = false
    /\ _connection_event (self s') = false
    /\ frame s' = frame s.
Proof.
  intros Hall Hon Hev. destruct (wait_connection arrivals s Hev) as (Hr & Hon' & Hev' & Hf).
  rewrite (existsb_quiet _ _ Hall) in Hr. rewrite Hon in Hon'.
  rewrite (link_after_quiet _ Hall) in Hon', Hev'.
  destruct (wait EvConnection arrivals s) as [r s']. cbn in *. subst r. eauto.
Qed.

(** C9: a connect acknowledgement with a nonzero reason code changes no
    attribute of the client. So when the set-up of [connect] went through
    on a client that is not connected, and the callbacks delivered during
    the wait, the refusal [OnConnect rc] among them, include no successful
    acknowledgement, the 10.0 wait ends in [TimeoutError] and only then
    does [connect] return [False], with [is_connected] false and the
    connection event clear. *)
Theorem connect_refused_waits_out (env : connect_env) (rc : Z) (s s1 : state) :
  rc ≠ 0%Z ->
  In (OnConnect rc) (ce_arrivals env) ->
  forallb (fun cb => negb (is_connack_success cb)) (ce_arrivals env) = true ->
  is_connected (self s) = false ->
  _connection_event (self s) = false ->
  connect_setup env s = (Ret tt, s1) ->
  (forall s0, self (deliver (OnConnect rc) s0) = self s0)
  /\ exists s2 s',
      wait_for EvConnection 10 (ce_arrivals env) s1 = (Raise TimeoutError, s2)
      /\ connect env s = (Ret false, s')
      /\ is_connected (self s') = false
      /\ _connection_event (self s') = false
      /\ trace (world s') = trace (world s1) ++ [Await EvConnection 10].
Proof.
  intros Hrc _ Hall Hon Hev Hsetup. split.
  - intros s0. unfold deliver. cbn [handle]. unfold _on_connect.
    destruct (Z.eqb_spec rc 0); [contradiction | reflexivity].
  - pose proof (connect_setup_keeps env s) as Hkeep. rewrite Hsetup in Hkeep.
    unfold untouched_by_setup in Hkeep. cbn in Hkeep.
    injection Hkeep as Hon1 Hev1 _ _ _ _ _.
    set (s1' := on_world (fun w => set_trace (trace w ++ [Await EvConnection 10]) w) s1).
    destruct (wait_no_connack (ce_arrivals env) s1' Hall) as (s2 & Hw & Hon2 & Hev2 & Hf).
    { cbn. congruence. }
    { cbn. congruence. }
    exists s2. eexists. unfold connect, wait_for. run. rewrite Hsetup. fold s1'.
    rewrite Hw. cbn. split; [reflexivity | ]. split; [reflexivity | ]. cbn.
    unfold frame in Hf. injection Hf as _ _ _ _ _ _ _ Ht _. auto.
Qed.

(** [connect] turns every exception into [False]. *)
Lemma connect_returns (env : connect_env) (s : state) :
  exists b s', connect env s = (Ret b, s').
Proof.
  unfold connect. unfold try_except at 1.
  match goal with |- context [match ?body s with _ => _ end] => destruct (body s) as [[b | e] s1] end.
  - eauto.
  - run. eauto.
Qed.

(** A wait for the connection event that runs out on a client that was
    not connected leaves it not connected. *)
Lemma wait_connection_times_out (arrivals : list callback) (s s' : state) (e : exn) :
  is_connected (self s) = false ->
  wait EvConnection arrivals s = (Raise e, s') ->
  is_connected (self s') = false.
Proof.
  intros Hon Hw. destruct (_connection_event (self s)) eqn:Hev.
  { rewrite wait_set in Hw by exact Hev. discriminate. }
  destruct (wait_connection arrivals s Hev) as (Hr & Hon' & _). rewrite Hw in Hr, Hon'.
  cbn in Hr, Hon'. rewrite Hon'. rewrite Hon.
  destruct (existsb is_connack_success arrivals) eqn:Hex; [discriminate | ].
  apply link_after_quiet. clear -Hex.
  induction arrivals as [ | cb rest IH]; [reflexivity | ].
  cbn in *. apply orb_false_elim in Hex as [-> Hrest]. cbn. auto.
Qed.

(** ** The temporary directory *)

Lemma maintains_bind_val {A B} (P : state -> Prop) (R : A -> Prop) (m : M A) (k : A -> M B) :
  maintains P m ->
  (forall s a s', P s -> m s = (Ret a, s') -> R a) ->
  (forall a, R a -> maintains P (k a)) ->
  maintains P (bind m k).
Proof.
  intros Hm HR Hk s HP. unfold bind. specialize (Hm s HP). specialize (HR s).
  destruct (m s) as [[a | e] s1]; cbn in *; [ | exact Hm].
  apply Hk; [ | exact Hm]. eapply HR; eauto.
Qed.

Lemma maintains_bind {A B} (P : state -> Prop) (m : M A) (k : A -> M B) :
  maintains P m -> (forall a, maintains P (k a)) -> maintains P (bind m k).
Proof.
  intros Hm Hk. apply (maintains_bind_val P (fun _ => True)); auto.
Qed.

Lemma maintains_try {A} (P : state -> Prop) (body : M A) (h : exn -> option (M A)) :
  maintains P body -> (forall e m, h e = Some m -> maintains P m) ->
  maintains P (try_except body h).
Proof.
  intros Hb Hh s HP. unfold try_except. specialize (Hb s HP).
  destruct (body s) as [[a | e] s1]; cbn in *; [exact Hb | ].
  destruct (h e) as [m | ] eqn:He; [ | exact Hb].
  apply (Hh e m He). exact Hb.
Qed.

Lemma maintains_preserves {X A} (f : state -> X) (P : state -> Prop) (m : M A) :
  (forall s s', f s' = f s -> P s -> P s') -> preserves f m -> maintains P m.
Proof. intros HP Hm s Hs. apply (HP s); [apply Hm | exact Hs]. Qed.

Lemma open_transport_tf env a b c : preserves tf (open_transport env a b c).
Proof. unfold open_transport. preserve. Qed.

Lemma wait_for_tf ev timeout arrivals : preserves tf (wait_for ev timeout arrivals).
Proof. unfold wait_for. preserve. Qed.

Lemma close_transport_tf env : preserves tf (close_transport env).
Proof. unfold close_transport, wait_for. preserve. Qed.

Lemma subscribe_tf env topic : preserves tf (subscribe env topic).
Proof.
  unfold subscribe, subscribe_issue, subscribe_settle, require_connected, wait_for.
  preserve.
Qed.

Lemma publish_tf env topic p : preserves tf (publish env topic p).
Proof. unfold publish, require_connected, serialise, wait_for. preserve. Qed.

Lemma deliver_tf cb s : tf (deliver cb s) = tf s.
Proof.
  pose proof (deliver_frame cb s) as H. unfold frame in H. unfold tf.
  injection H; intros; congruence.
Qed.

Lemma maintains_pure {A} (P : state -> Prop) (m : M A) :
  (forall s, (m s).2 = s) -> maintains P m.
Proof. intros H s HP. rewrite H. exact HP. Qed.

Lemma write_file_holds d f p text : maintains (holds_dir d) (write_file f p text).
Proof.
  intros s [Ht Hd]. unfold write_file.
  destruct f; [split; assumption | ].
  destruct (fs (world s) !! p.1) eqn:Hp; [ | split; assumption].
  split; [exact Ht | ]. cbn. rewrite lookup_insert. case_decide; eauto.
Qed.

Lemma materialise_holds env d d' : maintains (holds_dir d) (materialise env d').
Proof.
  unfold materialise.
  apply maintains_bind; [apply maintains_pure; reflexivity | intros cert].
  repeat (apply maintains_bind; [apply write_file_holds | intros _]).
  apply maintains_pure; reflexivity.
Qed.

Lemma holds_dir_tf d s s' : tf s' = tf s -> holds_dir d s -> holds_dir d s'.
Proof. unfold tf, holds_dir. intros [= -> ->]. auto. Qed.

(** Nothing in it removes a directory the handle names, or moves the
    handle. *)
Lemma connect_rest_holds env d d' : maintains (holds_dir d) (connect_in env d').
Proof.
  unfold connect_in. apply maintains_try.
  - apply maintains_bind.
    + apply maintains_bind; [apply materialise_holds | intros [[a b] c]].
      apply (maintains_preserves tf); [apply holds_dir_tf | apply open_transport_tf].
    + intros _. apply maintains_bind; [ | intros _; apply maintains_pure; reflexivity].
      apply (maintains_preserves tf); [apply holds_dir_tf | apply wait_for_tf].
  - intros e m [= <-].
    apply (maintains_preserves tf); [apply holds_dir_tf | preserve].
Qed.

Lemma connect_from_dir (env : connect_env) (d : string) (s : state) :
  ce_mkdtemp env = Ret d ->
  fs (world s) !! d = None ->
  connect env s =
    connect_in env d
      (on_self (set_temp_dir (Some d))
         (on_world (fun w => set_fs (<[d := ∅]> (fs w)) w) s)).
Proof.
  intros Hd Hfresh. unfold connect_in, connect, connect_setup, mkdtemp.
  unfold try_except, bind, modify. rewrite Hd, Hfresh. reflexivity.
Qed.

Lemma connect_holds_dir (env : connect_env) (d : string) (s : state) :
  ce_mkdtemp env = Ret d ->
  fs (world s) !! d = None ->
  holds_dir d (connect env s).2.
Proof.
  intros Hd Hfresh. rewrite (connect_from_dir env d s Hd Hfresh).
  apply connect_rest_holds. split; cbn; [reflexivity | ].
  rewrite lookup_insert_eq. eauto.
Qed.

Lemma close_transport_returns (env : disconnect_env) (s : state) :
  (close_transport env s).1 = Ret tt.
Proof.
  unfold close_transport. unfold bind at 1 2, gets. 
  destruct (bool_decide (is_Some (client (self s))) && is_connected (self s));
    [ | reflexivity].
  unfold try_except.
  match goal with |- context [match ?body s with _ => _ end] =>
    destruct (body s) as [[[] | e] s1] end; [reflexivity | ].
  destruct (is_TimeoutError e); reflexivity.
Qed.

(** [disconnect] removes the directory its handle names. *)
Lemma disconnect_removes_temp_dir (env : disconnect_env) (d : string) (s : state) :
  _temp_dir (self s) = Some d ->
  d ≠ "" ->
  de_rmtree env = None ->
  fs (world (disconnect env s).2) !! d = None.
Proof.
  intros Ht Hne Hrm. unfold disconnect. unfold bind at 1.
  pose proof (close_transport_tf env s) as Hkeep.
  pose proof (close_transport_returns env s) as Hret.
  destruct (close_transport env s) as [[[] | e] s1]; cbn in Hkeep, Hret; [ | discriminate].
  unfold tf in Hkeep. injection Hkeep as Ht1 Hfs1.
  unfold cleanup, rmtree. run. rewrite Ht1, Ht.
  rewrite bool_decide_eq_true_2 by assumption. rewrite Hrm.
  destruct (fs (world s1) !! d) eqn:Hd; cbn; [apply lookup_delete_eq | exact Hd].
Qed.

(** How [connect] comes to its result. *)
Lemma connect_cases (env : connect_env) (s : state) :
  let failed e s1 :=
    on_world (fun w => set_log
      (log w ++ [(ERROR, "Failed to connect to MQTT broker: ", [ArgExn e])]) w) s1 in
  match connect_setup env s with
  | (Raise e, s1) => connect env s = (Ret false, failed e s1)
  | (Ret _, s1) =>
      match wait EvConnection (ce_arrivals env)
              (on_world (fun w => set_trace (trace w ++ [Await EvConnection 10]) w) s1) with
      | (Ret _, s2) => connect env s = (Ret true, s2)
      | (Raise e, s2) => connect env s = (Ret false, failed e s2)
      end
  end.
Proof.
  unfold connect, wait_for. run.
  destruct (connect_setup env s) as [[[] | e] s1]; [ | reflexivity].
  match goal with |- context [wait ?ev ?l ?st] => destruct (wait ev l st) as [[[] | e] s2] end;
    reflexivity.
Qed.

(** After the files are written nothing in [connect] touches the disk. *)
Lemma connect_in_fs (env : connect_env) (d : string) (s : state) :
  fs (world (connect_in env d s).2) = fs (world (materialise env d s).2).
Proof.
  unfold connect_in, try_except. unfold bind at 1 2.
  destruct (materialise env d s) as [[[[a b] c] | e] s1]; cbn [snd].
  - pose proof (open_transport_tf env a b c s1) as H1.
    destruct (open_transport env a b c s1) as [[[] | e] s2]; cbn [snd] in *.
    + pose proof (wait_for_tf EvConnection 10 (ce_arrivals env) s2) as H2.
      unfold bind.
      destruct (wait_for EvConnection 10 (ce_arrivals env) s2) as [[[] | e] s3];
        cbn in *; unfold tf in *; congruence.
    + cbn. unfold tf in *. congruence.
  - reflexivity.
Qed.

Lemma materialise_written (env : connect_env) (d : string) (s : state) :
  fs (world s) !! d = Some ∅ ->
  fs (world (materialise env d s).2) !! d = Some (written env (iot_cert (self s))).
Proof.
  intros Hd. unfold materialise, write_file, os_path_join, written, credentials. run.
  destruct (ce_write env "ca.crt"); cbn; [exact Hd | ]. rewrite Hd. cbn.
  destruct (ce_write env "cert.pem"); cbn; [apply lookup_insert_eq | ].
  rewrite lookup_insert_eq. cbn.
  destruct (ce_write env "private.key"); cbn; [apply lookup_insert_eq | ].
  rewrite lookup_insert_eq. cbn. apply lookup_insert_eq.
Qed.

(** The directory [connect] made holds what was written, whatever came
    after. *)
Lemma connect_written (env : connect_env) (d : string) (s : state) :
  ce_mkdtemp env = Ret d ->
  fs (world s) !! d = None ->
  fs (world (connect env s).2) !! d = Some (written env (iot_cert (self s))).
Proof.
  intros Hd Hfresh. rewrite (connect_from_dir env d s Hd Hfresh), connect_in_fs.
  rewrite materialise_written; [reflexivity | ]. cbn. apply lookup_insert_eq.
Qed.

(** C1, as the code has it: [connect] never raises, it returns [True] or
    [False]. A call that returns [False] leaves [is_connected] false when
    it was false before, and removes nothing: when [mkdtemp] created the
    directory [d], the handle still names [d] and [d] is still on disk
    with the files written so far, until a [disconnect] removes it. A call
    that returns [True], made with the connection event clear, has seen a
    connect acknowledgement with reason code 0 among the callbacks of the
    wait; [is_connected] is afterwards what the last such acknowledgement
    or disconnect among them made it, false when a disconnect came
    last. *)
Theorem connect_outcome (env : connect_env) (s : state) :
  exists b s', connect env s = (Ret b, s')
    /\ (b = false -> is_connected (self s) = false -> is_connected (self s') = false)
    /\ (b = false -> forall d, ce_mkdtemp env = Ret d -> fs (world s) !! d = None ->
          holds_dir d s'
          /\ fs (world s') !! d = Some (written env (iot_cert (self s)))
          /\ forall env', d ≠ "" -> de_rmtree env' = None ->
               fs (world (disconnect env' s').2) !! d = None)
    /\ (b = true -> _connection_event (self s) = false ->
          existsb is_connack_success (ce_arrivals env) = true
          /\ is_connected (self s')
             = link_after (ce_arrivals env) (is_connected (self s))).
Proof.
  destruct (connect_returns env s) as (b & s' & Hc). exists b, s'.
  split; [exact Hc | ].
  pose proof (connect_cases env s) as Hcases. cbn zeta in Hcases.
  pose proof (connect_setup_keeps env s) as Hkeep.
  assert (forall d, ce_mkdtemp env = Ret d -> fs (world s) !! d = None ->
            holds_dir d s'
            /\ fs (world s') !! d = Some (written env (iot_cert (self s)))
            /\ forall env', d ≠ "" -> de_rmtree env' = None ->
                 fs (world (disconnect env' s').2) !! d = None) as Hdir.
  { intros d Hd Hfresh.
    pose proof (connect_holds_dir env d s Hd Hfresh) as Hholds.
    pose proof (connect_written env d s Hd Hfresh) as Hfiles.
    rewrite Hc in Hholds, Hfiles. cbn [snd] in Hholds, Hfiles.
    split; [exact Hholds | ]. split; [exact Hfiles | ].
    intros env' Hne Hrm. apply disconnect_removes_temp_dir; [apply Hholds | | ]; assumption. }
  destruct (connect_setup env s) as [[[] | e] s1]; unfold untouched_by_setup in Hkeep;
    cbn in Hkeep; injection Hkeep as Hon1 Hev1 _ _ _ _ _.
  - match type of Hcases with context [wait ?ev ?l ?st] =>
      pose proof (wait_connection l st) as Hwait;
      destruct (wait ev l st) as [[[] | e] s2] eqn:Hw end;
      rewrite Hcases in Hc; injection Hc as <- <-.
    + split; [discriminate | ]. split; [discriminate | ]. intros _ Hev.
      destruct Hwait as (Hr & Hon2 & _); [cbn; congruence | ]. cbn in Hr, Hon2.
      split; [ | rewrite Hon2, Hon1; reflexivity].
      destruct (existsb is_connack_success (ce_arrivals env)); [reflexivity | discriminate].
    + split; [ | split; [ | discriminate]].
      * intros _ Hon. cbn. eapply wait_connection_times_out; [ | exact Hw]. cbn. congruence.
      * intros _. exact Hdir.
  - rewrite Hcases in Hc. injection Hc as <- <-.
    split; [ | split; [ | discriminate]].
    + intros _ Hon. cbn. congruence.
    + intros _. exact Hdir.
Qed.

(** ** A directory the handle no longer names *)

Lemma orphaned_tf d files s s' : tf s' = tf s -> orphaned d files s -> orphaned d files s'.
Proof. unfold tf, orphaned. intros [= -> ->]. auto. Qed.

Lemma write_file_orphaned d files f p text :
  p.1 ≠ d -> maintains (orphaned d files) (write_file f p text).
Proof.
  intros Hp s [Hd Ht]. unfold write_file.
  destruct f; [split; assumption | ].
  destruct (fs (world s) !! p.1) eqn:Hq; [ | split; assumption].
  split; [ | exact Ht]. cbn. rewrite lookup_insert_ne by exact Hp. exact Hd.
Qed.

Lemma materialise_orphaned d files env d' :
  d' ≠ d -> maintains (orphaned d files) (materialise env d').
Proof.
  intros Hne. unfold materialise.
  apply maintains_bind; [apply maintains_pure; reflexivity | intros cert].
  repeat (apply maintains_bind; [apply write_file_orphaned; exact Hne | intros _]).
  apply maintains_pure; reflexivity.
Qed.

Lemma connect_orphaned d files env : maintains (orphaned d files) (connect env).
Proof.
  unfold connect. apply maintains_try.
  - apply maintains_bind.
    + unfold connect_setup. apply (maintains_bind_val _ (fun d' => d' ≠ d)).
      * intros s [Hd Ht]. unfold mkdtemp.
        destruct (ce_mkdtemp env) as [d' | e]; [ | split; assumption].
        destruct (fs (world s) !! d') eqn:Hd'; [split; assumption | ].
        split; [ | exact Ht]. cbn. rewrite lookup_insert_ne by congruence. exact Hd.
      * intros s d' s' [Hd Ht]. unfold mkdtemp.
        destruct (ce_mkdtemp env) as [d0 | e]; [ | discriminate].
        destruct (fs (world s) !! d0) eqn:Hd0; [discriminate | ].
        intros [= <- _]. congruence.
      * intros d' Hne. apply maintains_bind.
        { intros s [Hd Ht]. split; [exact Hd | ]. cbn. congruence. }
        intros _. apply maintains_bind; [apply materialise_orphaned; exact Hne | ].
        intros [[a b] c].
        apply (maintains_preserves tf); [apply orphaned_tf | apply open_transport_tf].
    + intros _. apply maintains_bind; [ | intros _; apply maintains_pure; reflexivity].
      apply (maintains_preserves tf); [apply orphaned_tf | apply wait_for_tf].
  - intros e m [= <-].
    apply (maintains_preserves tf); [apply orphaned_tf | preserve].
Qed.

Lemma disconnect_orphaned d files env : maintains (orphaned d files) (disconnect env).
Proof.
  unfold disconnect. apply maintains_bind.
  - apply (maintains_preserves tf); [apply orphaned_tf | apply close_transport_tf].
  - intros _ s [Hd Ht]. unfold cleanup, rmtree. run.
    destruct (_temp_dir (self s)) as [dir | ] eqn:Hdir; [ | split; cbn; congruence].
    destruct (bool_decide (dir ≠ "")); [ | split; cbn; congruence].
    destruct (de_rmtree env); [split; cbn; congruence | ].
    destruct (fs (world s) !! dir) eqn:Hq; cbn; [ | split; cbn; congruence].
    split; [ | cbn; congruence]. cbn. rewrite lookup_delete_ne by congruence. exact Hd.
Qed.

Lemma step_orphaned d files o s : orphaned d files s -> orphaned d files (step o s).
Proof.
  destruct o; cbn [step].
  - apply connect_orphaned.
  - apply disconnect_orphaned.
  - apply (maintains_preserves tf); [apply orphaned_tf | apply subscribe_tf].
  - apply (maintains_preserves tf); [apply orphaned_tf | apply publish_tf].
  - apply orphaned_tf, deliver_tf.
Qed.

Lemma run_ops_orphaned d files ops s :
  orphaned d files s -> orphaned d files (run_ops ops s).
Proof.
  revert s. induction ops as [ | o rest IH]; intros s H; [exact H | ].
  cbn. apply IH, step_orphaned, H.
Qed.

Lemma connect_in_orphaned d files env d' :
  d' ≠ d -> maintains (orphaned d files) (connect_in env d').
Proof.
  intros Hne. unfold connect_in. apply maintains_try.
  - apply maintains_bind.
    + apply maintains_bind; [apply materialise_orphaned; exact Hne | intros [[a b] c]].
      apply (maintains_preserves tf); [apply orphaned_tf | apply open_transport_tf].
    + intros _. apply maintains_bind; [ | intros _; apply maintains_pure; reflexivity].
      apply (maintains_preserves tf); [apply orphaned_tf | apply wait_for_tf].
  - intros e m [= <-].
    apply (maintains_preserves tf); [apply orphaned_tf | preserve].
Qed.

Lemma materialise_writes (env : connect_env) (d : string) (s : state) :
  (forall name, ce_write env name = None) ->
  fs (world s) !! d = Some ∅ ->
  fs (world (materialise env d s).2) !! d = Some (credentials (iot_cert (self s))).
Proof.
  intros Hok Hd. unfold materialise, write_file, os_path_join. run.
  rewrite !Hok. cbn. rewrite Hd. cbn. rewrite lookup_insert_eq. cbn.
  rewrite lookup_insert_eq. cbn. rewrite lookup_insert_eq.
  reflexivity.
Qed.

(** C10: when a first [connect] created directory [d1] and a second one,
    with no [disconnect] in between, created [d2], the handle names [d2]
    after the second call; a [disconnect] then removes [d2] and leaves
    [d1] with the files the first call wrote, and so does every later
    sequence of operations on the client. *)
Theorem second_connect_orphans_first (env1 env2 : connect_env) (d1 d2 : string)
    (s : state) :
  ce_mkdtemp env1 = Ret d1 ->
  fs (world s) !! d1 = None ->
  let s1 := (connect env1 s).2 in
  ce_mkdtemp env2 = Ret d2 ->
  fs (world s1) !! d2 = None ->
  let s2 := (connect env2 s1).2 in
  exists files,
    fs (world s1) !! d1 = Some files
    /\ ((forall name, ce_write env1 name = None) ->
        files = credentials (iot_cert (self s)))
    /\ _temp_dir (self s1) = Some d1
    /\ _temp_dir (self s2) = Some d2
    /\ d2 ≠ d1
    /\ (forall env3, fs (world (disconnect env3 s2).2) !! d1 = Some files)
    /\ (forall env3, d2 ≠ "" -> de_rmtree env3 = None ->
          fs (world (disconnect env3 s2).2) !! d2 = None)
    /\ (forall ops, fs (world (run_ops ops s2)) !! d1 = Some files).
Proof.
  intros Hd1 Hfresh1 s1 Hd2 Hfresh2 s2.
  destruct (connect_holds_dir env1 d1 s Hd1 Hfresh1) as [Ht1 [files Hfiles]].
  fold s1 in Ht1, Hfiles.
  destruct (connect_holds_dir env2 d2 s1 Hd2 Hfresh2) as [Ht2 _]. fold s2 in Ht2.
  assert (d2 ≠ d1) as Hne by congruence.
  assert (orphaned d1 files s2) as Horph.
  { subst s2. rewrite (connect_from_dir env2 d2 s1 Hd2 Hfresh2).
    apply connect_in_orphaned; [exact Hne | ].
    split; cbn; [ | congruence]. rewrite lookup_insert_ne by exact Hne. exact Hfiles. }
  exists files. split; [exact Hfiles | ]. split; [ | split; [exact Ht1 | ]].
  { intros Hok. subst s1. revert Hfiles.
    rewrite (connect_from_dir env1 d1 s Hd1 Hfresh1), connect_in_fs.
    rewrite (materialise_writes env1 d1) by (try exact Hok; cbn; apply lookup_insert_eq).
    cbn. congruence. }
  split; [exact Ht2 | ]. split; [exact Hne | ]. split; [ | split].
  - intros env3. apply (disconnect_orphaned d1 files env3 s2 Horph).
  - intros env3 Hnonempty Hrm. apply disconnect_removes_temp_dir; assumption.
  - intros ops. apply (run_ops_orphaned d1 files ops s2 Horph).
Qed.

(** ** A second subscribe for a topic in flight *)

(** C2, as the code has it: the registrations are a dictionary, so a topic
    has at most one; a [subscribe] for a topic that has an unresolved
    registration [old] is not refused: when the transport accepts the
    request, it suspends on a new event, which has replaced [old] in the
    dictionary, and [old] stays as it was. *)
Theorem subscribe_replaces_registration (env : subscribe_env) (topic : string)
    (old : nat) (mid : option Z) (s : state) :
  is_connection_alive s = true ->
  wf s ->
  _subscribe_events (self s) !! topic = Some old ->
  se_subscribe env = Ret (MQTT_ERR_SUCCESS, mid) ->
  let new := length (events (world s)) in
  exists s1,
    subscribe_issue env topic s = (Ret (Pending new), s1)
    /\ _subscribe_events (self s1) !! topic = Some new
    /\ new ≠ old
    /\ events (world s1) !! old = events (world s) !! old.
Proof.
  intros Halive [Hsubs _] Hold Henv new.
  destruct (subscribe_issue_accepted env topic s mid Halive Henv)
    as (s1 & Hissue & Hs1 & _ & _ & Hev & _).
  exists s1. split; [exact Hissue | ]. apply Hsubs in Hold. fold new in Hold.
  split; [rewrite Hs1; apply lookup_insert_eq | ].
  split; [lia | ]. rewrite Hev. apply lookup_app_l. exact Hold.
Qed.

(** ** Inbound messages *)

(** A payload that is text is decoded, as a document when it parses and
    as text when [json.loads] raises [JSONDecodeError]; the handler then
    calls [create_task] on the transport's thread, which raises: nothing
    is queued for the consumer. *)
Lemma on_message_structured (msg : MQTTMessage) (f : nat) (text : string) (j : json)
    (s : state) :
  message_callback (self s) = Some f ->
  bytes_decode (msg_payload msg) = Ret text ->
  json_loads text = Ret j ->
  _on_message msg s = (Raise (RuntimeError "no running event loop"), s).
Proof.
  intros Hf Htext Hj. unfold _on_message, create_task. run.
  rewrite Hf, Htext. cbn. rewrite Hj. reflexivity.
Qed.

Lemma on_message_text (msg : MQTTMessage) (f : nat) (text : string) (s : state) :
  message_callback (self s) = Some f ->
  bytes_decode (msg_payload msg) = Ret text ->
  json_loads text = Raise JSONDecodeError ->
  _on_message msg s = (Raise (RuntimeError "no running event loop"), s).
Proof.
  intros Hf Htext Hj. unfold _on_message, create_task. run.
  rewrite Hf, Htext. cbn. rewrite Hj. reflexivity.
Qed.

(** Without a consumer the message is dropped. *)
Lemma on_message_dropped (msg : MQTTMessage) (s : state) :
  message_callback (self s) = None ->
  _on_message msg s = (Ret tt, s).
Proof. intros Hf. unfold _on_message. run. rewrite Hf. reflexivity. Qed.

(** A payload that is not UTF-8 makes the handler raise: the
    [except json.JSONDecodeError] clause does not match, and nothing is
    handed to the consumer. *)
Lemma on_message_undecodable (msg : MQTTMessage) (f : nat) (s : state) :
  message_callback (self s) = Some f ->
  utf8_valid (msg_payload msg) = false ->
  _on_message msg s = (Raise UnicodeDecodeError, s).
Proof.
  intros Hf Hbad. unfold _on_message, bytes_decode. run.
  rewrite Hf, Hbad. reflexivity.
Qed.

(** ** A publish that times out *)

Lemma owned_by_frame mid n s s' : frame s' = frame s -> owned_by mid n s -> owned_by mid n s'.
Proof.
  unfold frame, owned_by. intros Hf H.
  injection Hf as _ _ _ _ -> -> _ _ _. exact H.
Qed.

Lemma deliver_keeps_publish_event (cb : callback) (mid : Z) (n : nat) (s : state) :
  is_puback mid cb = false -> owned_by mid n s ->
  events (world (deliver cb s)) !! n = events (world s) !! n.
Proof.
  intros Hcb [Hsub Hpub]. unfold deliver.
  destruct cb as [rc | rc | msg | m | m rc]; cbn [handle].
  - unfold _on_connect. destruct (rc =? 0)%Z; reflexivity.
  - reflexivity.
  - assert (preserves (fun s => events (world s)) (_on_message msg)) as H
      by (unfold _on_message; preserve).
    rewrite H. reflexivity.
  - unfold _on_subscribe, getitem, event_set. run.
    destruct (client (self s) ≫= userdata) as [t | ]; [ | reflexivity].
    destruct (bool_decide (t ≠ "")); cbn; [ | reflexivity].
    destruct (_subscribe_events (self s) !! t) as [e | ] eqn:He.
    + rewrite bool_decide_eq_true_2 by eauto. cbn.
      apply list_lookup_insert_ne. eauto.
    + rewrite bool_decide_eq_false_2 by (intros [? ?]; discriminate). reflexivity.
  - cbn in Hcb. apply bool_decide_eq_false_1 in Hcb.
    unfold _on_publish, getitem, event_set. run.
    destruct (_publish_events (self s) !! m) as [e | ] eqn:He.
    + rewrite bool_decide_eq_true_2 by eauto. cbn.
      apply list_lookup_insert_ne. eauto.
    + rewrite bool_decide_eq_false_2 by (intros [? ?]; discriminate). reflexivity.
Qed.

Lemma wait_no_puback (mid : Z) (n : nat) (arrivals : list callback) (s : state) :
  forallb (fun cb => negb (is_puback mid cb)) arrivals = true ->
  owned_by mid n s ->
  events (world s) !! n = Some false ->
  exists s', wait (EvObj n) arrivals s = (Raise TimeoutError, s')
    /\ frame s' = frame s.
Proof.
  intros Hall Hown Hclear.
  destruct (wait_times_out
              (fun s => owned_by mid n s /\ events (world s) !! n = Some false)
              (fun cb => negb (is_puback mid cb)) (EvObj n) arrivals s)
    as (s' & Hw & _ & Hf); [ | | exact Hall | auto | eauto].
  - intros cb s0 Hcb [Hown0 Hclear0]. apply negb_true_iff in Hcb. split.
    + eapply owned_by_frame; [apply deliver_frame | exact Hown0].
    + rewrite (deliver_keeps_publish_event cb mid) by assumption. exact Hclear0.
  - intros s0 [_ Hclear0]. cbn. rewrite Hclear0. reflexivity.
Qed.

(** A publish whose acknowledgement does not come within the 5.0 wait
    returns [False] and leaves nothing registered for its message
    identifier; the acknowledgement, when it comes later, changes
    nothing. *)
Lemma publish_times_out (env : publish_env) (topic text : string) (p : payload)
    (mid : Z) (s : state) :
  is_connection_alive s = true ->
  wf s ->
  serialise p s = (Ret text, s) ->
  pe_publish env = Ret mid ->
  pe_is_published env = Ret false ->
  forallb (fun cb => negb (is_puback mid cb)) (pe_arrivals env) = true ->
  exists s', publish env topic p s = (Ret false, s')
    /\ _publish_events (self s') !! mid = None
    /\ _publish_results (self s') !! mid = None
    /\ forall reason_code, _on_publish mid reason_code s' = (Ret tt, s').
Proof.
  intros Halive [Hsub Hpub] Hser Hmid Hflushed Hall.
  apply alive_inv in Halive as (Hon & c & Hc).
  set (n := length (events (world s))).
  set (s1 := on_self (fun m => set_publish_events (<[mid := n]> (_publish_events m)) m)
               (on_world (fun w => set_events (events w ++ [false]) w)
                  (on_world (fun w => set_trace (trace w ++ [Publish topic text]) w) s))).
  set (s2 := on_world (fun w => set_trace (trace w ++ [Await (EvObj n) 5]) w) s1).
  destruct (wait_no_puback mid n (pe_arrivals env) s2 Hall) as (s3 & Hw & Hf).
  { split; cbn.
    - intros t e He. apply Hsub in He. fold n in He. lia.
    - intros m e Hm He. rewrite lookup_insert_ne in He by congruence.
      apply Hpub in He. fold n in He. lia. }
  { cbn. rewrite lookup_app_r by (subst n; lia).
    replace (n - length (events (world s))) with 0 by (subst n; lia). reflexivity. }
  unfold frame in Hf. injection Hf as _ _ _ _ _ Hp3 _ _ _. cbn in Hp3.
  unfold publish, require_connected, the_client, new_event, wait_for, getitem,
    del_publish_event, del_publish_result. run.
  rewrite Hon, Hc. cbn. rewrite Hser, Hc. cbn. rewrite Hmid, Hflushed. cbn.
  rewrite lookup_insert_eq. cbn. fold n. fold s1. fold s2. rewrite Hw. cbn.
  rewrite Hp3, lookup_insert_eq. rewrite bool_decide_eq_true_2 by eauto. cbn.
  rewrite Hp3, lookup_insert_eq. cbn.
  destruct (_publish_results (self s3) !! mid) as [b | ] eqn:Hres.
  - rewrite bool_decide_eq_true_2 by eauto. cbn. rewrite Hres. cbn.
    eexists. split; [reflexivity | ].
    split; [cbn; rewrite Hp3; apply lookup_delete_eq | ].
    split; [cbn; apply lookup_delete_eq | ].
    intros rc. apply on_publish_noop. cbn. rewrite Hp3. apply lookup_delete_eq.
  - rewrite bool_decide_eq_false_2 by (intros [? ?]; discriminate). cbn.
    eexists. split; [reflexivity | ].
    split; [cbn; rewrite Hp3; apply lookup_delete_eq | ].
    split; [cbn; exact Hres | ].
    intros rc. apply on_publish_noop. cbn. rewrite Hp3. apply lookup_delete_eq.
Qed.

(** ** Well-formedness is an invariant *)

Lemma wf_registry s s' : registry s' = registry s -> wf s -> wf s'.
Proof. unfold registry, wf. intros [= -> -> ->]. auto. Qed.

Lemma connect_wf env : maintains wf (connect env).
Proof.
  apply (maintains_preserves registry); [apply wf_registry | ].
  unfold connect, connect_setup, materialise, open_transport, wait_for. preserve.
Qed.

Lemma disconnect_wf env : maintains wf (disconnect env).
Proof.
  apply (maintains_preserves registry); [apply wf_registry | ].
  unfold disconnect, close_transport, cleanup, wait_for. preserve.
Qed.

Lemma deliver_wf cb s : wf s -> wf (deliver cb s).
Proof.
  apply wf_registry. pose proof (deliver_frame cb s) as H.
  unfold frame in H. unfold registry. injection H; intros; congruence.
Qed.

Lemma del_subscribe_event_wf topic : maintains wf (del_subscribe_event topic).
Proof.
  intros s [Hs Hp]. unfold del_subscribe_event.
  destruct (_subscribe_events (self s) !! topic); [ | split; assumption].
  split; cbn; [ | exact Hp]. intros t e He.
  apply lookup_delete_Some in He as [_ He]. eauto.
Qed.

Lemma del_publish_event_wf mid : maintains wf (del_publish_event mid).
Proof.
  intros s [Hs Hp]. unfold del_publish_event.
  destruct (_publish_events (self s) !! mid); [ | split; assumption].
  split; cbn; [exact Hs | ]. intros m e He.
  apply lookup_delete_Some in He as [_ He]. eauto.
Qed.

(** Registering a new event keeps the dictionaries within the heap. *)
Lemma register_subscribe_wf {A} (topic : string) (k : M A) :
  maintains wf k ->
  maintains wf
    (let! e := new_event in
     modify (on_self (fun m => set_subscribe_events (<[topic := e]> (_subscribe_events m)) m)) ;;
     k).
Proof.
  intros Hk s [Hs Hp]. unfold new_event. run. apply Hk.
  split; cbn; rewrite length_app; cbn.
  - intros t e He. apply lookup_insert_Some in He as [[_ <-] | [_ He]]; [lia | ].
    apply Hs in He. lia.
  - intros m e He. apply Hp in He. lia.
Qed.

Lemma register_publish_wf {A} (mid : Z) (k : M A) :
  maintains wf k ->
  maintains wf
    (let! e := new_event in
     modify (on_self (fun m => set_publish_events (<[mid := e]> (_publish_events m)) m)) ;;
     k).
Proof.
  intros Hk s [Hs Hp]. unfold new_event. run. apply Hk.
  split; cbn; rewrite length_app; cbn.
  - intros t e He. apply Hs in He. lia.
  - intros m e He. apply lookup_insert_Some in He as [[_ <-] | [_ He]]; [lia | ].
    apply Hp in He. lia.
Qed.

Ltac keeps_registry :=
  apply (maintains_preserves registry); [apply wf_registry | preserve].

Lemma subscribe_wf env topic : maintains wf (subscribe env topic).
Proof.
  unfold subscribe, subscribe_issue.
  apply maintains_bind; [ | intros [result | ev]].
  - apply maintains_bind; [unfold require_connected; keeps_registry | intros _].
    apply register_subscribe_wf.
    apply maintains_bind; [keeps_registry | intros _].
    apply maintains_bind; [keeps_registry | intros _].
    apply maintains_bind; [keeps_registry | intros [result mid]].
    destruct (bool_decide (result ≠ MQTT_ERR_SUCCESS)); [ | keeps_registry].
    apply maintains_bind; [apply del_subscribe_event_wf | intros _]. keeps_registry.
  - keeps_registry.
  - unfold subscribe_settle. apply maintains_try.
    + apply maintains_bind; [unfold wait_for; keeps_registry | intros _].
      apply maintains_bind; [apply del_subscribe_event_wf | intros _]. keeps_registry.
    + intros e m He. destruct (is_TimeoutError e); [ | discriminate].
      injection He as <-.
      apply maintains_bind; [apply del_subscribe_event_wf | intros _]. keeps_registry.
Qed.

Lemma optional_del_publish_result_wf (mid : Z) (present : bool) :
  maintains wf (if present then del_publish_result mid else ret tt).
Proof. destruct present; keeps_registry. Qed.

Lemma publish_wf env topic p : maintains wf (publish env topic p).
Proof.
  unfold publish.
  apply maintains_bind; [unfold require_connected; keeps_registry | intros _].
  apply maintains_bind; [unfold serialise; keeps_registry | intros text].
  apply maintains_bind; [keeps_registry | intros _].
  apply maintains_bind; [keeps_registry | intros mid].
  apply maintains_bind; [keeps_registry | intros published].
  destruct published; cbn [negb]; [keeps_registry | ].
  apply register_publish_wf. apply maintains_try.
  - apply maintains_bind; [keeps_registry | intros evs].
    apply maintains_bind; [keeps_registry | intros ev].
    apply maintains_bind; [unfold wait_for; keeps_registry | intros _].
    apply maintains_bind; [keeps_registry | intros results].
    apply maintains_bind; [apply del_publish_event_wf | intros _].
    apply maintains_bind; [keeps_registry | intros results'].
    apply maintains_bind; [apply optional_del_publish_result_wf | intros _].
    keeps_registry.
  - intros e m He. destruct (is_TimeoutError e); [ | discriminate].
    injection He as <-.
    apply maintains_bind; [keeps_registry | intros evs].
    apply maintains_bind.
    { destruct (bool_decide (is_Some (evs !! mid)));
        [apply del_publish_event_wf | keeps_registry]. }
    intros _. apply maintains_bind; [keeps_registry | intros results].
    apply maintains_bind; [apply optional_del_publish_result_wf | intros _].
    keeps_registry.
Qed.

Lemma step_wf o s : wf s -> wf (step o s).
Proof.
  destruct o; cbn [step].
  - apply connect_wf.
  - apply disconnect_wf.
  - apply subscribe_wf.
  - apply publish_wf.
  - apply deliver_wf.
Qed.

(** Every state reached from a newly constructed client is well formed. *)
Lemma reachable_wf (cert : IoTCertResponse) (consumer : option nat) (ops : list op) :
  wf (run_ops ops {| self := init cert consumer; world := empty_world |}).
Proof.
  assert (forall s, wf s -> wf (run_ops ops s)) as Hrun.
  { induction ops as [ | o rest IH]; intros s H; [exact H | ].
    cbn. apply IH, step_wf, H. }
  apply Hrun. split; intros k e H; cbn in H; rewrite lookup_empty in H; discriminate.
Qed.

(** * Further properties of [MQTTClient] *)

(** ** Connecting *)

(** X1: when the set-up of [connect] goes through on a client whose
    connection event is clear and the transport delivers a connect
    acknowledgement with reason code 0 during the wait, [connect] returns
    [True]. The caller resumes after every callback of the wait has run, so
    [is_connected] and the connection event are then what the last
    successful acknowledgement or disconnect among them made them: true
    when no disconnect followed the last successful acknowledgement, false
    when one did. *)
Theorem connect_acknowledged (env : connect_env) (s s1 : state) :
  connect_setup env s = (Ret tt, s1) ->
  _connection_event (self s) = false ->
  existsb is_connack_success (ce_arrivals env) = true ->
  exists s', connect env s = (Ret true, s')
    /\ is_connected (self s') = link_after (ce_arrivals env) (is_connected (self s))
    /\ _connection_event (self s') = link_after (ce_arrivals env) false.
Proof.
  intros Hsetup Hclear Hack.
  pose proof (connect_cases env s) as Hcases. cbn zeta in Hcases.
  pose proof (connect_setup_keeps env s) as Hkeep.
  rewrite Hsetup in Hcases, Hkeep. unfold untouched_by_setup in Hkeep. cbn in Hkeep.
  injection Hkeep as Hon1 Hev1 _ _ _ _ _.
  match type of Hcases with context [wait ?ev ?l ?st] =>
    destruct (wait_connection l st) as (Hr & Hon2 & Hev2 & _); [cbn; congruence | ];
    destruct (wait ev l st) as [r s2] end.
  cbn in Hr, Hon2, Hev2. rewrite Hack in Hr. subst r.
  exists s2. split; [exact Hcases | ]. split; [ | exact Hev2].
  rewrite Hon2, Hon1. reflexivity.
Qed.

(** ** Disconnecting *)

Lemma cleanup_returns (env : disconnect_env) (s : state) : (cleanup env s).1 = Ret tt.
Proof.
  unfold cleanup, rmtree. run.
  destruct (_temp_dir (self s)) as [dir | ]; [ | reflexivity].
  destruct (bool_decide (dir ≠ "")); [ | reflexivity].
  destruct (de_rmtree env); [reflexivity | ].
  destruct (fs (world s) !! dir); reflexivity.
Qed.

(** X2: [disconnect] never raises: whatever the transport call, the wait
    or the removal of the directory do, it returns normally. *)
Theorem disconnect_never_raises (env : disconnect_env) (s : state) :
  exists s', disconnect env s = (Ret tt, s').
Proof.
  unfold disconnect. unfold bind at 1.
  pose proof (close_transport_returns env s) as H1.
  destruct (close_transport env s) as [[[] | e] s1]; cbn in H1; [ | discriminate].
  pose proof (cleanup_returns env s1) as H2.
  destruct (cleanup env s1) as [[[] | e] s2]; cbn in H2; [eauto | discriminate].
Qed.

Lemma wait_trace (ev : event_ref) (arrivals : list callback) (s : state) :
  trace (world (wait ev arrivals s).2) = trace (world s).
Proof.
  apply (preserves_wait (fun s => trace (world s))).
  intros s1 s2 H. unfold frame in H. injection H; intros; congruence.
Qed.

Lemma cleanup_keeps (env : disconnect_env) :
  preserves (fun s => (self s, trace (world s))) (cleanup env).
Proof. unfold cleanup. preserve. Qed.

(** X3: on a live connection, when the transport takes the disconnect
    request, [disconnect] sends it, waits at most 5.0 for the
    acknowledgement and stops the network loop whether the acknowledgement
    came or not; [is_connected] is false afterwards. *)
Theorem disconnect_live (env : disconnect_env) (rc : Z) (s : state) :
  is_connection_alive s = true ->
  de_disconnect env = Ret rc ->
  exists s', disconnect env s = (Ret tt, s')
    /\ is_connected (self s') = false
    /\ trace (world s') = trace (world s) ++ [Disconnect; Await EvDisconnect 5; LoopStop].
Proof.
  intros Halive Hrc. apply alive_inv in Halive as (Hon & c & Hc).
  destruct (disconnect_never_raises env s) as (s' & Hd). exists s'.
  split; [exact Hd | ].
  assert (s' = (disconnect env s).2) as -> by (rewrite Hd; reflexivity). clear Hd.
  pose proof (close_transport_returns env s) as Hret.
  destruct (close_transport env s) as [[[] | e] s1] eqn:Hclose; cbn in Hret; [ | discriminate].
  assert ((disconnect env s).2 = (cleanup env s1).2) as ->
    by (unfold disconnect, bind; rewrite Hclose; reflexivity).
  pose proof (cleanup_keeps env s1) as Hkeep. cbn beta in Hkeep.
  injection Hkeep as -> ->.
  revert Hclose. unfold close_transport, wait_for. run. rewrite Hon, Hc.
  rewrite bool_decide_eq_true_2 by eauto. cbn. rewrite Hrc. cbn.
  match goal with
  | |- context [wait ?ev ?l ?st] =>
      pose proof (wait_trace ev l st) as Htr;
      destruct (wait ev l st) as [[[] | e] s2] eqn:Hw
  end; cbn in Htr |- *.
  - intros [= <-]. cbn. rewrite Htr, <- !app_assoc. auto.
  - apply wait_raises in Hw as ->. cbn. intros [= <-]. cbn.
    rewrite Htr, <- !app_assoc. auto.
Qed.

(** X4: on a live connection, when the transport's disconnect call raises
    an exception other than a timeout, [disconnect] logs it and goes on:
    it neither waits nor stops the network loop, [is_connected] stays
    true, and the directory of the TLS identity is removed all the same. *)
Theorem disconnect_transport_error (env : disconnect_env) (e : exn) (d : string)
    (s : state) :
  is_connection_alive s = true ->
  de_disconnect env = Raise e ->
  is_TimeoutError e = false ->
  _temp_dir (self s) = Some d ->
  d ≠ "" ->
  de_rmtree env = None ->
  exists s', disconnect env s = (Ret tt, s')
    /\ is_connected (self s') = true
    /\ trace (world s') = trace (world s) ++ [Disconnect]
    /\ fs (world s') !! d = None.
Proof.
  intros Halive Hraise Hkind Hd Hne Hrm. apply alive_inv in Halive as (Hon & c & Hc).
  unfold disconnect, close_transport, cleanup, rmtree. run.
  rewrite Hon, Hc. rewrite bool_decide_eq_true_2 by eauto. cbn.
  rewrite Hraise. cbn. rewrite Hkind. cbn. rewrite Hd.
  rewrite bool_decide_eq_true_2 by assumption. rewrite Hrm. cbn.
  destruct (fs (world s) !! d) eqn:Hfs; cbn.
  - eexists. split; [reflexivity | ]. cbn. rewrite lookup_delete_eq. auto.
  - eexists. split; [reflexivity | ]. cbn. auto.
Qed.

(** ** Publishing *)

Lemma deliver_puback (mid : Z) (rc : option Z) (n : nat) (s : state) :
  _publish_events (self s) !! mid = Some n ->
  n < length (events (world s)) ->
  let s' := deliver (OnPublish mid rc) s in
  events (world s') !! n = Some true
  /\ _publish_results (self s') !! mid = Some (bool_decide (rc = Some MQTT_ERR_SUCCESS)).
Proof.
  intros Hreg Hn. unfold deliver. cbn [handle]. unfold _on_publish, getitem, event_set. run.
  rewrite Hreg. rewrite bool_decide_eq_true_2 by eauto. cbn. split.
  - apply list_lookup_insert_eq. exact Hn.
  - apply lookup_insert_eq.
Qed.

Lemma frame_publish_events (s s' : state) :
  frame s' = frame s ->
  _publish_events (self s') = _publish_events (self s)
  /\ length (events (world s')) = length (events (world s)).
Proof. unfold frame. intros H. injection H; intros; split; congruence. Qed.

(** What a callback does to the result recorded for a registered message
    identifier. *)
Lemma deliver_result (cb : callback) (mid : Z) (n : nat) (s : state) :
  _publish_events (self s) !! mid = Some n ->
  n < length (events (world s)) ->
  _publish_results (self (deliver cb s)) !! mid
  = match cb with
    | OnPublish m rc =>
        if bool_decide (m = mid) then Some (bool_decide (rc = Some MQTT_ERR_SUCCESS))
        else _publish_results (self s) !! mid
    | _ => _publish_results (self s) !! mid
    end.
Proof.
  intros Hreg Hn. destruct cb as [rc | rc | msg | m | m rc].
  - unfold deliver. cbn [handle]. unfold _on_connect. destruct (rc =? 0)%Z; reflexivity.
  - reflexivity.
  - assert (preserves (fun s => _publish_results (self s)) (_on_message msg)) as H
      by (unfold _on_message, create_task; preserve).
    unfold deliver. cbn [handle]. rewrite H. reflexivity.
  - assert (preserves (fun s => _publish_results (self s)) (handle (OnSubscribe m))) as H
      by (unfold handle, _on_subscribe; preserve).
    unfold deliver. rewrite H. reflexivity.
  - destruct (bool_decide (m = mid)) eqn:Hm.
    + apply bool_decide_eq_true_1 in Hm as ->. apply (deliver_puback mid rc n s Hreg Hn).
    + apply bool_decide_eq_false_1 in Hm.
      unfold deliver. cbn [handle]. unfold _on_publish, getitem, event_set. run.
      destruct (_publish_events (self s) !! m) as [e | ] eqn:He.
      * rewrite bool_decide_eq_true_2 by eauto. cbn.
        apply lookup_insert_ne. exact Hm.
      * rewrite bool_decide_eq_false_2 by (intros [? ?]; discriminate). reflexivity.
Qed.

(** The callbacks delivered before the caller runs again leave, for a
    registered message identifier, the result of its last acknowledgement. *)
Lemma suspended_final_ack (mid : Z) (n : nat) (later : list callback) (rc : option Z)
    (woken : bool) (s : state) :
  _publish_events (self s) !! mid = Some n ->
  n < length (events (world s)) ->
  _publish_results (self s) !! mid = Some (bool_decide (rc = Some MQTT_ERR_SUCCESS)) ->
  _publish_results (self (suspended (EvObj n) later woken s).2) !! mid
  = Some (bool_decide (final_ack mid rc later = Some MQTT_ERR_SUCCESS)).
Proof.
  revert rc woken s. induction later as [ | cb rest IH]; intros rc woken s Hreg Hn Hres.
  - cbn. destruct woken; exact Hres.
  - cbn [suspended]. unfold final_ack. cbn [fold_left].
    destruct (frame_publish_events s (deliver cb s) (deliver_frame cb s)) as [Hp Hl].
    apply IH; [rewrite Hp; exact Hreg | rewrite Hl; exact Hn | ].
    rewrite (deliver_result cb mid n s Hreg Hn).
    destruct cb as [ | | | | m rc']; try exact Hres.
    destruct (bool_decide (m = mid)); [reflexivity | exact Hres].
Qed.

Lemma suspended_app (ev : event_ref) (before rest : list callback) (woken : bool)
    (s : state) :
  exists woken', suspended ev (before ++ rest) woken s
                 = suspended ev rest woken' (suspended ev before woken s).2.
Proof.
  revert woken s. induction before as [ | cb more IH]; intros woken s.
  - exists woken. cbn. destruct woken; reflexivity.
  - cbn. apply IH.
Qed.

Lemma wait_puback (mid : Z) (rc : option Z) (n : nat) (before after : list callback)
    (s : state) :
  _publish_events (self s) !! mid = Some n ->
  events (world s) !! n = Some false ->
  exists s2,
    wait (EvObj n) (before ++ OnPublish mid rc :: after) s = (Ret tt, s2)
    /\ frame s2 = frame s
    /\ _publish_results (self s2) !! mid
       = Some (bool_decide (final_ack mid rc after = Some MQTT_ERR_SUCCESS)).
Proof.
  intros Hreg Hclear.
  rewrite wait_clear by (cbn; rewrite Hclear; reflexivity).
  destruct (suspended_app (EvObj n) before (OnPublish mid rc :: after) false s)
    as (woken & ->).
  pose proof (suspended_frame (EvObj n) before false s) as Hf1.
  set (s1 := (suspended (EvObj n) before false s).2) in *.
  destruct (frame_publish_events s s1 Hf1) as [Hp1 Hl1].
  assert (_publish_events (self s1) !! mid = Some n) as Hreg1 by (rewrite Hp1; exact Hreg).
  assert (n < length (events (world s1))) as Hn1
    by (rewrite Hl1; apply lookup_lt_Some in Hclear; exact Hclear).
  destruct (deliver_puback mid rc n s1 Hreg1 Hn1) as [Hset Hres].
  cbn [suspended]. cbn [is_set]. rewrite Hset. cbn [default]. rewrite orb_true_r.
  set (s2 := deliver (OnPublish mid rc) s1) in *.
  assert (frame s2 = frame s) as Hf2 by (unfold s2; rewrite deliver_frame; exact Hf1).
  destruct (frame_publish_events s s2 Hf2) as [Hp2 Hl2].
  pose proof (suspended_woken (EvObj n) after s2) as Hret.
  pose proof (suspended_frame (EvObj n) after true s2) as Hf3.
  pose proof (suspended_final_ack mid n after rc true s2) as Hres3.
  destruct (suspended (EvObj n) after true s2) as [r s3]. cbn in Hret, Hf3, Hres3.
  subst r. exists s3. split; [reflexivity | ]. split; [congruence | ].
  apply Hres3; [rewrite Hp2; exact Hreg | rewrite Hl2; rewrite <- Hl1; exact Hn1 | exact Hres].
Qed.

(** X5: on a live connection, when the transport queues the message
    (not yet published) and a publish acknowledgement for its message
    identifier arrives during the 5.0 wait, [publish] returns whether the
    last acknowledgement for the identifier delivered during the wait has
    reason code [MQTT_ERR_SUCCESS]: [final_ack mid rc after] is the reason
    code of the last one, and is [rc] when none follows in [after].
    Afterwards neither a completion event nor a result is registered for
    the identifier. *)
Theorem publish_acknowledged (env : publish_env) (topic text : string) (p : payload)
    (mid : Z) (rc : option Z) (before after : list callback) (s : state) :
  is_connection_alive s = true ->
  wf s ->
  serialise p s = (Ret text, s) ->
  pe_publish env = Ret mid ->
  pe_is_published env = Ret false ->
  pe_arrivals env = before ++ OnPublish mid rc :: after ->
  exists s',
    publish env topic p s
    = (Ret (bool_decide (final_ack mid rc after = Some MQTT_ERR_SUCCESS)), s')
    /\ (forallb (fun cb => negb (is_puback mid cb)) after = true ->
        final_ack mid rc after = rc)
    /\ _publish_events (self s') !! mid = None
    /\ _publish_results (self s') !! mid = None
    /\ trace (world s')
       = trace (world s) ++ [Publish topic text; Await (EvObj (length (events (world s)))) 5].
Proof.
  intros Halive [Hsub Hpub] Hser Hmid Hflushed Harr.
  apply alive_inv in Halive as (Hon & c & Hc).
  set (n := length (events (world s))).
  set (s1 := on_self (fun m => set_publish_events (<[mid := n]> (_publish_events m)) m)
               (on_world (fun w => set_events (events w ++ [false]) w)
                  (on_world (fun w => set_trace (trace w ++ [Publish topic text]) w) s))).
  set (s2 := on_world (fun w => set_trace (trace w ++ [Await (EvObj n) 5]) w) s1).
  destruct (wait_puback mid rc n before after s2) as (s3 & Hw & Hf & Hres).
  { cbn. apply lookup_insert_eq. }
  { cbn. rewrite lookup_app_r by (subst n; lia).
    replace (n - length (events (world s))) with 0 by (subst n; lia). reflexivity. }
  unfold frame in Hf. injection Hf as _ _ _ _ _ Hp3 _ Ht3 _. cbn in Hp3, Ht3.
  unfold publish, require_connected, the_client, new_event, wait_for, getitem,
    del_publish_event, del_publish_result. run.
  rewrite Hon, Hc. cbn. rewrite Hser, Hc. cbn. rewrite Hmid, Hflushed. cbn.
  rewrite lookup_insert_eq. cbn. fold n. fold s1. fold s2. rewrite Harr, Hw. cbn.
  rewrite Hres, Hp3, lookup_insert_eq. cbn. rewrite Hres.
  rewrite bool_decide_eq_true_2 by eauto. cbn. rewrite Hres. cbn.
  assert (forallb (fun cb => negb (is_puback mid cb)) after = true ->
          final_ack mid rc after = rc) as Hlast.
  { clear. unfold final_ack. induction after as [ | cb rest IH]; [reflexivity | ].
    cbn. intros H. apply andb_prop in H as [Hcb Hrest]. apply negb_true_iff in Hcb.
    destruct cb as [ | | | | m rc']; try exact (IH Hrest).
    cbn in Hcb. rewrite Hcb. exact (IH Hrest). }
  destruct (bool_decide (final_ack mid rc after = Some MQTT_ERR_SUCCESS)); cbn;
    (eexists; split; [reflexivity | ]; split; [exact Hlast | ];
     cbn; rewrite Hp3, Ht3, !lookup_delete_eq;
     rewrite <- app_assoc; auto).
Qed.

(** X6: [subscribe] and [publish] on a client that is not connected, or
    that has no transport client, raise
    [RuntimeError("MQTT client not connected")] and leave the state as it
    was: nothing is serialised, sent or registered. *)
Theorem not_alive_refused (topic : string) (p : payload) (senv : subscribe_env)
    (penv : publish_env) (s : state) :
  is_connection_alive s = false ->
  subscribe senv topic s = (Raise (RuntimeError "MQTT client not connected"), s)
  /\ publish penv topic p s = (Raise (RuntimeError "MQTT client not connected"), s).
Proof.
  intros Hdead. unfold is_connection_alive in Hdead.
  unfold subscribe, subscribe_issue, publish, require_connected. run.
  destruct (is_connected (self s)); cbn in *; [ | auto].
  rewrite Hdead. auto.
Qed.

(** ** A broker address that does not split in two *)

Lemma unpack2_length (xs : list string) :
  length xs ≠ 2 -> exists e, unpack2 xs = Raise e.
Proof.
  destruct xs as [ | a [ | b [ | c rest]]]; cbn; intros H; eauto. contradiction.
Qed.

Lemma materialise_before_transport env d : preserves before_transport (materialise env d).
Proof. unfold materialise, before_transport. preserve. Qed.

Lemma mkdtemp_before_transport result : preserves before_transport (mkdtemp result).
Proof. unfold before_transport. preserve. Qed.

Lemma connect_setup_malformed (env : connect_env) (s : state) :
  length (str_split ":"%char (mqtt_broker (iot_cert (self s)))) ≠ 2 ->
  exists e s1, connect_setup env s = (Raise e, s1)
    /\ before_transport s1 = before_transport s.
Proof.
  intros Hlen. unfold connect_setup. unfold bind at 1.
  pose proof (mkdtemp_before_transport (ce_mkdtemp env) s) as H0.
  destruct (mkdtemp (ce_mkdtemp env) s) as [[d | e] s0]; cbn [snd] in H0; [ | eauto].
  unfold bind at 1. cbn [modify]. unfold modify. unfold bind at 1.
  match goal with |- context [materialise env d ?st] =>
    pose proof (materialise_before_transport env d st) as H1;
    destruct (materialise env d st) as [[[[a b] c] | e] s1] end; cbn [snd] in H1.
  - assert (before_transport s1 = before_transport s) as H2 by (rewrite H1; exact H0).
    assert (iot_cert (self s1) = iot_cert (self s)) as Hcert
      by (unfold before_transport in H2; congruence).
    destruct (unpack2_length _ Hlen) as (e & He).
    exists e, s1. split; [ | exact H2].
    unfold open_transport. run. rewrite Hcert, He. reflexivity.
  - exists e, s1. split; [reflexivity | ]. rewrite H1. exact H0.
Qed.

(** X7: when the broker address of the certificate response does not
    consist of exactly two parts separated by one colon, [connect] returns
    [False] without creating a transport client and without sending
    anything to the transport. *)
Theorem connect_malformed_broker (env : connect_env) (s : state) :
  length (str_split ":"%char (mqtt_broker (iot_cert (self s)))) ≠ 2 ->
  exists s', connect env s = (Ret false, s')
    /\ client (self s') = client (self s)
    /\ trace (world s') = trace (world s).
Proof.
  intros Hlen. destruct (connect_setup_malformed env s Hlen) as (e & s1 & Hsetup & Hkeep).
  pose proof (connect_cases env s) as Hcases. cbn zeta in Hcases. rewrite Hsetup in Hcases.
  eexists. split; [exact Hcases | ]. cbn.
  unfold before_transport in Hkeep. injection Hkeep as _ -> ->. auto.
Qed.

(** ** [is_connected] and the connection event *)

Lemma consistent_flags s s' : flags s' = flags s -> connection_consistent s -> connection_consistent s'.
Proof. unfold flags, connection_consistent. intros [= -> ->]. auto. Qed.

Lemma deliver_consistent cb s : connection_consistent s -> connection_consistent (deliver cb s).
Proof.
  intros H. unfold deliver. destruct cb as [rc | rc | msg | mid | mid rc]; cbn [handle].
  - unfold _on_connect. destruct (rc =? 0)%Z; [intros _; reflexivity | exact H].
  - intros Hon. discriminate Hon.
  - apply (consistent_flags s); [ | exact H].
    assert (preserves flags (_on_message msg)) as Hp
      by (unfold _on_message, flags; preserve).
    apply Hp.
  - apply (consistent_flags s); [ | exact H].
    assert (preserves flags (handle (OnSubscribe mid))) as Hp
      by (unfold handle, _on_subscribe, flags; preserve).
    apply Hp.
  - apply (consistent_flags s); [ | exact H].
    assert (preserves flags (_on_publish mid rc)) as Hp
      by (unfold _on_publish, flags; preserve).
    apply Hp.
Qed.

Lemma suspended_consistent ev arrivals woken :
  maintains connection_consistent (suspended ev arrivals woken).
Proof.
  revert woken. induction arrivals as [ | cb rest IH]; intros woken s H; cbn.
  - destruct woken; exact H.
  - apply IH, deliver_consistent, H.
Qed.

Lemma wait_consistent ev arrivals : maintains connection_consistent (wait ev arrivals).
Proof.
  intros s H. unfold wait. destruct (is_set ev s); [exact H | ].
  apply suspended_consistent, H.
Qed.

Lemma set_disconnected_consistent :
  maintains connection_consistent (modify (on_self (set_is_connected false))).
Proof. intros s _ Hon. discriminate Hon. Qed.

Ltac consistent :=
  repeat first
    [ apply maintains_bind; [ | intros ? ]
    | apply maintains_try; [ | intros ? ? ?; repeat case_match; simplify_eq ]
    | apply wait_consistent
    | apply set_disconnected_consistent
    | match goal with
      | |- maintains _ (match ?x with _ => _ end) => destruct x
      | |- maintains _ (let (_, _) := ?x in _) => destruct x
      end
    | solve [apply (maintains_preserves flags);
             [apply consistent_flags | unfold flags; preserve]] ].

Lemma connect_consistent env : maintains connection_consistent (connect env).
Proof.
  unfold connect, connect_setup, materialise, open_transport, wait_for, call, record, logger.
  consistent.
Qed.

Lemma disconnect_consistent env : maintains connection_consistent (disconnect env).
Proof.
  unfold disconnect, close_transport, cleanup, wait_for, call, record, logger.
  consistent.
Qed.

Lemma subscribe_consistent env topic : maintains connection_consistent (subscribe env topic).
Proof.
  unfold subscribe, subscribe_issue, subscribe_settle, require_connected, wait_for,
    call, record, logger, user_data_set.
  consistent.
Qed.

Lemma publish_consistent env topic p : maintains connection_consistent (publish env topic p).
Proof.
  unfold publish, require_connected, serialise, wait_for, call, record, logger.
  consistent.
Qed.

(** X8: in every state a newly constructed client reaches by calls of its
    methods and deliveries of transport callbacks, in any order and
    whatever the environment does, [is_connected] true implies that the
    connection event is set. *)
Theorem connected_has_event_set (cert : IoTCertResponse) (consumer : option nat)
    (ops : list op) :
  connection_consistent (run_ops ops {| self := init cert consumer; world := empty_world |}).
Proof.
  assert (forall s, connection_consistent s -> connection_consistent (run_ops ops s)) as Hrun.
  { induction ops as [ | o rest IH]; intros s H; [exact H | ].
    cbn. apply IH. destruct o; cbn [step].
    - apply connect_consistent, H.
    - apply disconnect_consistent, H.
    - apply subscribe_consistent, H.
    - apply publish_consistent, H.
    - apply deliver_consistent, H. }
  apply Hrun. intros Hon. discriminate Hon.
Qed.

(** ** Two subscribes in flight *)

Lemma subscribe_issue_connected env topic :
  preserves (fun s => is_connected (self s)) (subscribe_issue env topic).
Proof. unfold subscribe_issue, require_connected. preserve. Qed.

(** X9: acknowledgements are matched to the topic of the latest
    [subscribe]. With a subscribe for [t1] suspended and a subscribe for
    another topic [t2] issued after it, any subscribe acknowledgement the
    transport delivers, the one answering the first request included,
    sets the completion event of [t2] and leaves that of [t1] clear. *)
Theorem suback_completes_latest_subscribe (env1 env2 : subscribe_env) (t1 t2 : string)
    (m1 m2 : option Z) (mid : Z) (s : state) :
  is_connection_alive s = true ->
  t1 ≠ t2 ->
  t2 ≠ "" ->
  se_subscribe env1 = Ret (MQTT_ERR_SUCCESS, m1) ->
  se_subscribe env2 = Ret (MQTT_ERR_SUCCESS, m2) ->
  let n := length (events (world s)) in
  let s1 := (subscribe_issue env1 t1 s).2 in
  let s2 := (subscribe_issue env2 t2 s1).2 in
  let s3 := deliver (OnSubscribe mid) s2 in
  _subscribe_events (self s2) !! t1 = Some n
  /\ _subscribe_events (self s2) !! t2 = Some (S n)
  /\ events (world s3) !! n = Some false
  /\ events (world s3) !! S n = Some true.
Proof.
  intros Halive Hne Hnonempty Henv1 Henv2 n s1 s2 s3.
  destruct (subscribe_issue_accepted env1 t1 s m1 Halive Henv1)
    as (s1' & Hissue1 & Hsubs1 & _ & Hud1 & Hev1 & _).
  assert (s1 = s1') as Hs1 by (subst s1; rewrite Hissue1; reflexivity).
  assert (is_connection_alive s1 = true) as Halive1.
  { pose proof (subscribe_issue_connected env1 t1 s) as Hon. fold s1 in Hon. cbn beta in Hon.
    apply alive_inv in Halive as (Hon0 & _). unfold is_connection_alive.
    rewrite Hon, Hon0. cbn. apply bool_decide_eq_true_2. rewrite Hs1.
    destruct (client (self s1')); [eauto | discriminate]. }
  destruct (subscribe_issue_accepted env2 t2 s1 m2 Halive1 Henv2)
    as (s2' & Hissue2 & Hsubs2 & _ & Hud2 & Hev2 & _).
  assert (s2 = s2') as Hs2 by (subst s2; rewrite Hissue2; reflexivity).
  assert (length (events (world s1)) = S n) as Hlen1
    by (rewrite Hs1, Hev1, length_app; cbn; subst n; lia).
  rewrite Hlen1 in Hsubs2, Hissue2.
  assert (events (world s2) = (events (world s) ++ [false]) ++ [false]) as Hevents
    by (rewrite Hs2, Hev2, Hs1, Hev1; reflexivity).
  assert (_subscribe_events (self s2) !! t2 = Some (S n)) as Ht2
    by (rewrite Hs2, Hsubs2; apply lookup_insert_eq).
  split; [ | split; [exact Ht2 | ]].
  { rewrite Hs2, Hsubs2, lookup_insert_ne by congruence.
    rewrite Hs1, Hsubs1. apply lookup_insert_eq. }
  assert (client (self s2) ≫= userdata = Some t2) as Hud by (rewrite Hs2; exact Hud2).
  subst s3. unfold deliver. cbn [handle]. unfold _on_subscribe, getitem, event_set. run.
  rewrite Hud. rewrite bool_decide_eq_true_2 by assumption. cbn.
  rewrite Ht2. rewrite bool_decide_eq_true_2 by eauto. cbn. rewrite Hevents. split.
  - rewrite list_lookup_insert_ne by lia.
    rewrite lookup_app_l by (rewrite length_app; cbn; lia).
    rewrite lookup_app_r by (subst n; lia).
    replace (n - length (events (world s))) with 0 by (subst n; lia). reflexivity.
  - apply list_lookup_insert_eq. rewrite !length_app. cbn. subst n. lia.
Qed.

(** ** Inbound messages *)


(** ** The connection event across a disconnect *)

(** X11: a [connect] made while the connection event is already set does
    not wait for the broker: once its set-up has gone through it returns
    [True] without any callback being delivered, and [is_connected] is
    what it was before the call. *)
Theorem connect_with_event_set (env : connect_env) (s s1 : state) :
  _connection_event (self s) = true ->
  connect_setup env s = (Ret tt, s1) ->
  connect env s
    = (Ret true, on_world (fun w => set_trace (trace w ++ [Await EvConnection 10]) w) s1)
  /\ is_connected (self s1) = is_connected (self s).
Proof.
  intros Hset Hsetup.
  pose proof (connect_setup_keeps env s) as Hkeep. rewrite Hsetup in Hkeep.
  unfold untouched_by_setup in Hkeep. cbn in Hkeep. injection Hkeep as Hon Hev _ _ _ _ _.
  split; [ | exact Hon].
  pose proof (connect_cases env s) as Hcases. cbn zeta in Hcases. rewrite Hsetup in Hcases.
  rewrite wait_set in Hcases by (cbn; congruence). exact Hcases.
Qed.

Lemma deliver_not_disconnect (cb : callback) (s : state) :
  is_disconnect_ack cb = false ->
  _disconnect_event (self (deliver cb s)) = _disconnect_event (self s)
  /\ (_connection_event (self s) = true -> _connection_event (self (deliver cb s)) = true).
Proof.
  intros Hcb. unfold deliver.
  destruct cb as [rc | rc | msg | mid | mid rc]; cbn [handle]; try discriminate.
  - unfold _on_connect. destruct (rc =? 0)%Z; cbn; auto.
  - assert (preserves (fun s => (_disconnect_event (self s), _connection_event (self s)))
              (_on_message msg)) as H by (unfold _on_message; preserve).
    specialize (H s). injection H as -> ->. auto.
  - assert (preserves (fun s => (_disconnect_event (self s), _connection_event (self s)))
              (handle (OnSubscribe mid))) as H
      by (unfold handle, _on_subscribe; preserve).
    specialize (H s). cbn [handle] in H. injection H as -> ->. auto.
  - assert (preserves (fun s => (_disconnect_event (self s), _connection_event (self s)))
              (_on_publish mid rc)) as H by (unfold _on_publish; preserve).
    specialize (H s). injection H as -> ->. auto.
Qed.

Lemma wait_no_disconnect_ack (arrivals : list callback) (s : state) :
  forallb (fun cb => negb (is_disconnect_ack cb)) arrivals = true ->
  _disconnect_event (self s) = false ->
  _connection_event (self s) = true ->
  exists s', wait EvDisconnect arrivals s = (Raise TimeoutError, s')
    /\ _connection_event (self s') = true.
Proof.
  intros Hall Hclear Hset.
  destruct (wait_times_out
              (fun s => _disconnect_event (self s) = false
                        /\ _connection_event (self s) = true)
              (fun cb => negb (is_disconnect_ack cb)) EvDisconnect arrivals s)
    as (s' & Hw & [_ Hev] & _); [ | | exact Hall | auto | eauto].
  - intros cb s0 Hcb [Hclear0 Hset0]. apply negb_true_iff in Hcb.
    destruct (deliver_not_disconnect cb s0 Hcb) as [Hd Hc].
    split; [congruence | auto].
  - intros s0 [Hclear0 _]. exact Hclear0.
Qed.

(** X12: on a live connection whose connection event is set, when the
    transport takes the disconnect request but delivers no disconnect
    acknowledgement within the 5.0 wait, [disconnect] leaves
    [is_connected] false and the connection event still set. *)
Theorem disconnect_timeout_keeps_event (env : disconnect_env) (rc : Z) (s : state) :
  is_connection_alive s = true ->
  _connection_event (self s) = true ->
  de_disconnect env = Ret rc ->
  forallb (fun cb => negb (is_disconnect_ack cb)) (de_arrivals env) = true ->
  let s' := (disconnect env s).2 in
  is_connected (self s') = false /\ _connection_event (self s') = true.
Proof.
  intros Halive Hset Hrc Hnone s'. apply alive_inv in Halive as (Hon & c & Hc).
  subst s'.
  assert (exists s1, close_transport env s = (Ret tt, s1)
            /\ is_connected (self s1) = false /\ _connection_event (self s1) = true)
    as (s1 & Hclose & Hoff & Hev).
  { unfold close_transport, wait_for. run. rewrite Hon, Hc.
    rewrite bool_decide_eq_true_2 by eauto. cbn. rewrite Hrc. cbn.
    match goal with |- context [wait EvDisconnect ?l ?st] =>
      destruct (wait_no_disconnect_ack l st Hnone) as (s2 & Hw & Hev2);
        [reflexivity | exact Hset | ] end.
    rewrite Hw. cbn. eauto. }
  assert ((disconnect env s).2 = (cleanup env s1).2) as ->
    by (unfold disconnect, bind; rewrite Hclose; reflexivity).
  pose proof (cleanup_keeps env s1) as Hkeep. cbn beta in Hkeep.
  injection Hkeep as -> _. auto.
Qed.

(** ** What [connect] and [disconnect] leave alone *)

Lemma open_transport_client (env : connect_env) a b c (s s1 : state) :
  open_transport env a b c s = (Ret tt, s1) -> is_Some (client (self s1)).
Proof.
  unfold open_transport, call, record, fault.
  unfold bind, ret, raise, lift, gets, modify. cbn.
  intros H. repeat (case_match; simplify_eq; cbn in * ); eauto.
Qed.

Lemma bind_returns {A B} (m : M A) (k : A -> M B) (s s' : state) (b : B) :
  bind m k s = (Ret b, s') -> exists a s1, m s = (Ret a, s1) /\ k a s1 = (Ret b, s').
Proof.
  unfold bind. destruct (m s) as [[a | e] s1]; [eauto | discriminate].
Qed.

Lemma connect_setup_client (env : connect_env) (s s1 : state) :
  connect_setup env s = (Ret tt, s1) -> is_Some (client (self s1)).
Proof.
  unfold connect_setup. intros H.
  apply bind_returns in H as (d & s2 & _ & H).
  apply bind_returns in H as (? & s3 & _ & H).
  apply bind_returns in H as ([[ca_file cert_file] key_file] & s4 & _ & H).
  exact (open_transport_client _ _ _ _ _ _ H).
Qed.

(** A client that is not connected and whose connection event is clear
    is alive after [connect] when [connect] returned [True] and no
    disconnect followed the last successful acknowledgement of the wait;
    [connect] returns [True] only when such an acknowledgement came. *)
Lemma connect_alive (env : connect_env) (s : state) :
  is_connected (self s) = false ->
  _connection_event (self s) = false ->
  exists b, (connect env s).1 = Ret b
    /\ is_connection_alive (connect env s).2 = b && link_after (ce_arrivals env) false
    /\ (b = true -> existsb is_connack_success (ce_arrivals env) = true).
Proof.
  intros Hon Hev.
  pose proof (connect_cases env s) as Hcases. cbn zeta in Hcases.
  pose proof (connect_setup_keeps env s) as Hkeep.
  destruct (connect_setup env s) as [[[] | e] s1] eqn:Hsetup; unfold untouched_by_setup in Hkeep;
    cbn in Hkeep; injection Hkeep as Hon1 Hev1 _ _ _ _ _.
  - match type of Hcases with context [wait ?ev ?l ?st] =>
      pose proof (preserves_wait (fun s => client (self s)) ev l
                    ltac:(intros ? ? Hf; unfold frame in Hf; injection Hf; intros; congruence)
                    st) as Hclient;
      destruct (wait_connection l st) as (Hr & Hon2 & _); [cbn; congruence | ];
      destruct (wait ev l st) as [[[] | e] s2] eqn:Hw end;
      rewrite Hcases; cbn in Hr, Hon2, Hclient; cbn [fst snd].
    + exists true. split; [reflexivity | ]. split.
      * unfold is_connection_alive. rewrite Hon2, Hon1, Hon.
        rewrite Hclient, bool_decide_eq_true_2 by exact (connect_setup_client _ _ _ Hsetup).
        apply andb_true_r.
      * intros _. destruct (existsb is_connack_success (ce_arrivals env));
          [reflexivity | discriminate].
    + exists false. split; [reflexivity | ]. split; [ | discriminate].
      unfold is_connection_alive. cbn.
      assert (is_connected (self s2) = false) as ->
        by (eapply wait_connection_times_out; [ | exact Hw]; cbn; congruence).
      reflexivity.
  - rewrite Hcases. exists false. split; [reflexivity | ]. split; [ | discriminate].
    unfold is_connection_alive. cbn. rewrite Hon1, Hon. reflexivity.
Qed.

Lemma disconnect_returns (env : disconnect_env) (s : state) :
  (disconnect env s).1 = Ret tt.
Proof.
  unfold disconnect. unfold bind at 1.
  pose proof (close_transport_returns env s) as H1.
  destruct (close_transport env s) as [[[] | e] s1]; cbn in H1; [ | discriminate].
  apply cleanup_returns.
Qed.

End Properties.

(** * The properties at the scenarios *)

#[local] Existing Instance scenario_lib.

(** When the broker never answers, [connect] returns [False] and the
    directory with the three files stays on disk. *)
Lemma connect_timeout_leaves_credentials : ~ connect_as_specified unanswered fresh.
Proof.
  intros (b & s' & Hc & _ & Hfail). vm_compute in Hc. injection Hc as <- <-.
  destruct (Hfail eq_refl) as [_ Hgone].
  specialize (Hgone "/tmp/tmpa1" eq_refl). vm_compute in Hgone. discriminate.
Qed.

(** A second subscribe for the topic of a suspended one is accepted, and
    the dictionary then names the second event. *)
Lemma duplicate_subscribe_accepted :
  ~ duplicate_subscribe_refused late_ack status_topic in_flight.
Proof.
  intros H. destruct (H 0) as (r & s' & Hr & Hrefused & _); [reflexivity | reflexivity | ].
  vm_compute in Hr. injection Hr as <- _.
  destruct Hrefused as [? | [e ?]]; discriminate.
Qed.

(** The acknowledgement of another request completes the subscribe: the
    request got message identifier 2, the acknowledgement delivered during
    the wait carries 1, and [subscribe] returns [True]. *)
Lemma subscribe_stray_acknowledgement :
  ~ subscribe_as_specified stray_ack status_topic connected.
Proof.
  intros (b & s' & Hs & _ & Hb). vm_compute in Hs. injection Hs as <- _.
  vm_compute in Hb. discriminate.
Qed.

(** A transport that refuses by raising makes [subscribe] raise, and the
    registration stays. *)
Example subscribe_invalid_topic :
  let '(r, s') := subscribe invalid_topic status_topic connected in
  r = Raise (ValueError "Invalid subscription filter.")
  /\ _subscribe_events (self s') !! status_topic = Some (length (events (world connected))).
Proof. vm_compute. auto. Qed.

(** C8: with a consumer registered, the message whose payload is the single
    byte 0xFF makes [_on_message] raise [UnicodeDecodeError]; no task is
    created for the consumer, the state is as before. *)
Theorem on_message_binary_payload :
  message_callback (self connected) = Some 0
  /\ _on_message binary_message connected = (Raise UnicodeDecodeError, connected)
  /\ tasks (world (deliver (OnMessage binary_message) connected)) = tasks (world connected).
Proof.
  split; [reflexivity | ]. split.
  - apply (on_message_undecodable binary_message 0); reflexivity.
  - unfold deliver. cbn [handle].
    rewrite (on_message_undecodable binary_message 0) by reflexivity. reflexivity.
Qed.

(** The two payloads of the scenario, on the scenario's library: the
    handler decodes them and raises where it schedules the consumer. *)
Example on_message_battery :
  _on_message {| msg_topic := status_topic;
                 msg_payload := String.list_byte_of_string battery_text |} connected
  = (Raise (RuntimeError "no running event loop"), connected).
Proof. vm_compute. reflexivity. Qed.

Example on_message_not_json :
  _on_message {| msg_topic := status_topic;
                 msg_payload := String.list_byte_of_string "not-json" |} connected
  = (Raise (RuntimeError "no running event loop"), connected).
Proof. vm_compute. reflexivity. Qed.

(** A [connect] after a [disconnect] that timed out finds the connection
    event still set: it returns [True] at once, with [is_connected]
    false. *)
Example connect_after_forced_stop :
  let stopped := (disconnect silent connected).2 in
  let '(r, s') := connect unanswered stopped in
  is_connected (self stopped) = false
  /\ _connection_event (self stopped) = true
  /\ r = Ret true
  /\ is_connected (self s') = false.
Proof. vm_compute. auto. Qed.

(** ** The theorems at the scenarios *)

Lemma on_publish_unregistered_witness :
  _publish_events (self connected) !! 7%Z = None
  /\ _on_publish 7 (Some 0%Z) connected = (Ret tt, connected)
  /\ deliver (OnPublish 7 (Some 0%Z)) connected = connected.
Proof.
  split; [reflexivity | apply on_publish_unregistered; reflexivity].
Defined.

Lemma subscribe_not_connected_witness :
  is_connected (self fresh) = false
  /\ subscribe prompt_ack status_topic fresh
     = (Raise (RuntimeError "MQTT client not connected"), fresh).
Proof.
  split; [reflexivity | apply subscribe_not_connected; reflexivity].
Defined.

Lemma wf_connected : wf connected.
Proof. split; intros k e H; vm_compute in H; discriminate. Qed.

Lemma publish_flushed_witness :
  is_connection_alive connected = true
  /\ serialise (PDict lock_members) connected = (Ret lock_text, connected)
  /\ pe_publish flushed = Ret 7%Z
  /\ pe_is_published flushed = Ret true
  /\ exists s', publish flushed command_topic (PDict lock_members) connected = (Ret true, s')
       /\ self s' = self connected
       /\ events (world s') = events (world connected)
       /\ trace (world s') = (trace (world connected) ++ [Publish command_topic lock_text])%list.
Proof.
  split; [reflexivity | ]. split; [reflexivity | ]. split; [reflexivity | ].
  split; [reflexivity | ].
  apply (publish_flushed flushed command_topic lock_text (PDict lock_members) 7 connected);
    reflexivity.
Defined.

Lemma subscribe_outcomes_witness :
  is_connection_alive connected = true
  /\ wf connected
  /\ exists s', subscribe stray_ack status_topic connected = (Ret true, s')
       /\ _subscribe_events (self s') !! status_topic = None
       /\ trace (world s')
          = ((trace (world connected) ++ [UserDataSet status_topic; Subscribe status_topic])
             ++ [Await (EvObj (length (events (world connected)))) 5])%list.
Proof.
  split; [reflexivity | ]. split; [exact wf_connected | ].
  exact (proj2 (proj2 (subscribe_outcomes stray_ack status_topic connected
                         eq_refl wf_connected)) (Some 2%Z) eq_refl).
Defined.

Lemma disconnect_not_connected_witness :
  is_connected (self (disconnect silent connected).2) = false
  /\ exists s', disconnect silent (disconnect silent connected).2 = (Ret tt, s')
       /\ trace (world s') = trace (world (disconnect silent connected).2)
       /\ self s' = self (disconnect silent connected).2.
Proof.
  split; [reflexivity | apply disconnect_not_connected; reflexivity].
Defined.

Lemma connect_refused_waits_out_witness :
  5%Z ≠ 0%Z
  /\ In (OnConnect 5) (ce_arrivals refusing)
  /\ forallb (fun cb => negb (is_connack_success cb)) (ce_arrivals refusing) = true
  /\ is_connected (self fresh) = false
  /\ _connection_event (self fresh) = false
  /\ connect_setup refusing fresh = (Ret tt, (connect_setup refusing fresh).2)
  /\ exists s2 s',
       wait_for EvConnection 10 (ce_arrivals refusing) (connect_setup refusing fresh).2
         = (Raise TimeoutError, s2)
       /\ connect refusing fresh = (Ret false, s')
       /\ is_connected (self s') = false
       /\ _connection_event (self s') = false
       /\ trace (world s')
          = (trace (world (connect_setup refusing fresh).2) ++ [Await EvConnection 10])%list.
Proof.
  assert (5%Z ≠ 0%Z) as Hrc by discriminate.
  assert (In (OnConnect 5) (ce_arrivals refusing)) as Hin by (left; reflexivity).
  assert (connect_setup refusing fresh = (Ret tt, (connect_setup refusing fresh).2)) as Hsetup
    by (vm_compute; reflexivity).
  repeat (split; [first [exact Hrc | exact Hin | exact Hsetup | reflexivity] | ]).
  exact (proj2 (connect_refused_waits_out refusing 5 fresh _ Hrc Hin eq_refl eq_refl eq_refl
                  Hsetup)).
Defined.

Lemma subscribe_replaces_registration_witness :
  is_connection_alive in_flight = true
  /\ _subscribe_events (self in_flight) !! status_topic = Some 0
  /\ se_subscribe prompt_ack = Ret (MQTT_ERR_SUCCESS, Some 1%Z)
  /\ exists s1,
       subscribe_issue prompt_ack status_topic in_flight = (Ret (Pending 1), s1)
       /\ _subscribe_events (self s1) !! status_topic = Some 1
       /\ 1 ≠ 0
       /\ events (world s1) !! 0 = events (world in_flight) !! 0.
Proof.
  assert (wf in_flight) as Hwf.
  { split; intros k e H.
    - destruct (decide (k = status_topic)) as [-> | Hk].
      + vm_compute in H. injection H as <-. vm_compute. lia.
      + unfold in_flight in H.
        destruct (subscribe_issue_accepted late_ack status_topic connected (Some 1%Z)
                    eq_refl eq_refl) as (s1 & Hissue & Hs1 & _).
        rewrite Hissue in H. cbn [snd] in H. rewrite Hs1, lookup_insert_ne in H by congruence.
        vm_compute in H. discriminate.
    - vm_compute in H. discriminate. }
  split; [reflexivity | ]. split; [reflexivity | ]. split; [reflexivity | ].
  exact (subscribe_replaces_registration prompt_ack status_topic 0 (Some 1%Z) in_flight
           eq_refl Hwf eq_refl eq_refl).
Defined.

Lemma second_connect_orphans_first_witness :
  ce_mkdtemp acknowledged = Ret "/tmp/tmpa1"
  /\ fs (world fresh) !! "/tmp/tmpa1" = None
  /\ ce_mkdtemp acknowledged_again = Ret "/tmp/tmpb2"
  /\ fs (world connected) !! "/tmp/tmpb2" = None
  /\ exists files,
       fs (world connected) !! "/tmp/tmpa1" = Some files
       /\ ((forall name, ce_write acknowledged name = None) ->
           files = credentials (iot_cert (self fresh)))
       /\ _temp_dir (self connected) = Some "/tmp/tmpa1"
       /\ _temp_dir (self (connect acknowledged_again connected).2) = Some "/tmp/tmpb2"
       /\ "/tmp/tmpb2" ≠ "/tmp/tmpa1"
       /\ (forall env3,
             fs (world (disconnect env3 (connect acknowledged_again connected).2).2)
               !! "/tmp/tmpa1" = Some files)
       /\ (forall env3, "/tmp/tmpb2" ≠ "" -> de_rmtree env3 = None ->
             fs (world (disconnect env3 (connect acknowledged_again connected).2).2)
               !! "/tmp/tmpb2" = None)
       /\ (forall ops,
             fs (world (run_ops ops (connect acknowledged_again connected).2))
               !! "/tmp/tmpa1" = Some files).
Proof.
  split; [reflexivity | ]. split; [reflexivity | ]. split; [reflexivity | ].
  split; [reflexivity | ].
  exact (second_connect_orphans_first acknowledged acknowledged_again
           "/tmp/tmpa1" "/tmp/tmpb2" fresh eq_refl eq_refl eq_refl eq_refl).
Defined.

(** * The Bluetooth scanner *)

Section BleProperties.
Context `{R : PyRepr}.
Local Open Scope list_scope.

Lemma scan_loop_spec uuids found acc known :
  Ble.scan_loop uuids found acc known =
    (acc ++ Ble.advertisers uuids found,
     fold_left (fun m b => <[Ble.address b := b]> m) (Ble.advertisers uuids found) known).
Proof.
  unfold Ble.advertisers.
  revert acc known. induction found as [ | [d a] rest IH]; intros acc known; cbn.
  - rewrite app_nil_r. reflexivity.
  - destruct (Ble.advertises uuids a) eqn:Hadv.
    + cbn. rewrite IH. cbn. rewrite <- app_assoc. reflexivity.
    + apply IH.
Qed.

Lemma scan_unfold (env : Ble.scan_env) (self : Ble.BLEDeviceScanner) found :
  Ble.bleak_installed env = true ->
  Ble.discover env = Ret found ->
  Ble.scan_for_devices env self =
    (Ble.advertisers (Ble.service_uuids self) found,
     {| Ble.service_uuids := Ble.service_uuids self;
        Ble.discovered_devices :=
          fold_left (fun m b => <[Ble.address b := b]> m)
            (Ble.advertisers (Ble.service_uuids self) found) (Ble.discovered_devices self) |}).
Proof.
  intros Hinst Hfound. unfold Ble.scan_for_devices. rewrite Hinst, Hfound.
  rewrite scan_loop_spec. reflexivity.
Qed.

(** [needle in hay] holds exactly when [hay] has [needle] between some
    prefix and some suffix. *)
Lemma str_contains_spec (needle hay : string) :
  str_contains needle hay = true <-> exists pre post, hay = pre +:+ needle +:+ post.
Proof.
  assert (forall a b, String.prefix a b = true <-> exists post, b = a +:+ post) as Hprefix.
  { intros a. induction a as [ | c a IH]; intros b; cbn.
    - destruct b; split; eauto.
    - destruct b as [ | c' b]; cbn.
      + split; [discriminate | intros [post H]; discriminate].
      + destruct (Ascii.ascii_dec c c') as [-> | Hc].
        * rewrite IH. split; intros [post H]; exists post; [rewrite H; reflexivity | ].
          injection H as ->. reflexivity.
        * split; [discriminate | intros [post H]]. injection H as -> _. contradiction. }
  induction hay as [ | c hay IH]; cbn [str_contains].
  - rewrite orb_false_r, Hprefix. split.
    + intros [post H]. exists EmptyString, post. exact H.
    + intros (pre & post & H). destruct pre; cbn in H; [eauto | discriminate].
  - rewrite orb_true_iff, Hprefix, IH. split.
    + intros [[post H] | (pre & post & H)].
      * exists EmptyString, post. exact H.
      * exists (String c pre), post. cbn. rewrite H. reflexivity.
    + intros (pre & post & H). destruct pre as [ | c' pre]; cbn in H.
      * left. eauto.
      * right. injection H as _ ->. eauto.
Qed.

Lemma fold_insert_other (reported : list Ble.BLEDevice) (known : gmap string Ble.BLEDevice) a :
  (forall b, In b reported -> Ble.address b ≠ a) ->
  fold_left (fun m b => <[Ble.address b := b]> m) reported known !! a = known !! a.
Proof.
  revert known. induction reported as [ | b rest IH]; intros known H; cbn; [reflexivity | ].
  rewrite IH by (intros b' Hb'; apply H; right; exact Hb').
  apply lookup_insert_ne. apply H. left. reflexivity.
Qed.

Lemma fold_insert_some (reported : list Ble.BLEDevice) (known : gmap string Ble.BLEDevice) b :
  In b reported ->
  exists b', fold_left (fun m b => <[Ble.address b := b]> m) reported known
               !! Ble.address b = Some b'
    /\ In b' reported /\ Ble.address b' = Ble.address b.
Proof.
  revert known. induction reported as [ | x rest IH] using rev_ind; intros known Hin;
    [contradiction | ].
  rewrite fold_left_app. cbn.
  destruct (decide (Ble.address x = Ble.address b)) as [Heq | Hne].
  - exists x. rewrite Heq, lookup_insert_eq. rewrite in_app_iff. cbn. auto.
  - rewrite lookup_insert_ne by exact Hne.
    apply in_app_iff in Hin as [Hin | [-> | []]]; [ | contradiction].
    destruct (IH known Hin) as (b' & Hl & Hb' & Ha). exists b'.
    rewrite in_app_iff. auto.
Qed.

Lemma fold_insert_nodup (reported : list Ble.BLEDevice) (known : gmap string Ble.BLEDevice) b :
  NoDup (List.map Ble.address reported) ->
  In b reported ->
  fold_left (fun m b => <[Ble.address b := b]> m) reported known !! Ble.address b = Some b.
Proof.
  revert known. induction reported as [ | x rest IH]; intros known Hnd Hin; [contradiction | ].
  cbn in *. apply NoDup_cons in Hnd as [Hx Hnd]. destruct Hin as [-> | Hin].
  - rewrite fold_insert_other; [apply lookup_insert_eq | ].
    intros b' Hb' Heq. apply Hx. rewrite <- Heq. apply list_elem_of_In, in_map, Hb'.
  - apply IH; assumption.
Qed.

(** X13: a scan that goes through returns, in the order of discovery,
    the devices whose advertised service list, as text, contains one of
    the scanner's service identifiers, and no other device. *)
Theorem scan_reports_advertisers (env : Ble.scan_env) (self : Ble.BLEDeviceScanner)
    (found : list (Ble.Device * Ble.AdvertisementData)) :
  Ble.bleak_installed env = true ->
  Ble.discover env = Ret found ->
  (Ble.scan_for_devices env self).1 = Ble.advertisers (Ble.service_uuids self) found
  /\ forall b, In b (Ble.scan_for_devices env self).1 <->
       exists d a, In (d, a) found /\ b = Ble.ble_device d a
         /\ exists uuid pre post, In uuid (Ble.service_uuids self)
              /\ str_of_list (Ble.adv_service_uuids a) = pre +:+ uuid +:+ post.
Proof.
  intros Hinst Hfound. rewrite (scan_unfold env self found Hinst Hfound). cbn [fst].
  split; [reflexivity | ]. intros b. unfold Ble.advertisers.
  rewrite in_map_iff. split.
  - intros ([d a] & <- & Hin). apply filter_In in Hin as [Hin Hadv]. cbn in Hadv.
    unfold Ble.advertises in Hadv. apply existsb_exists in Hadv as (uuid & Hu & Hc).
    apply str_contains_spec in Hc as (pre & post & Hc).
    exists d, a. split; [exact Hin | ]. split; [reflexivity | ]. eauto 6.
  - intros (d & a & Hin & -> & uuid & pre & post & Hu & Hc).
    exists (d, a). split; [reflexivity | ]. apply filter_In. split; [exact Hin | ].
    cbn. unfold Ble.advertises. apply existsb_exists. exists uuid. split; [exact Hu | ].
    apply str_contains_spec. eauto.
Qed.

(** X14: after a scan that goes through, looking up the address of a
    reported device gives a reported device with that address (the device
    itself when the reported addresses are distinct), and every other
    address gives what it gave before the scan; a scan with [bleak]
    missing or a failing discovery reports nothing and changes no
    lookup. *)
Theorem scan_then_lookup (env : Ble.scan_env) (self : Ble.BLEDeviceScanner) :
  let reported := (Ble.scan_for_devices env self).1 in
  let self' := (Ble.scan_for_devices env self).2 in
  (forall b, In b reported ->
     exists b', Ble.get_device_by_address self' (Ble.address b) = Some b'
       /\ In b' reported /\ Ble.address b' = Ble.address b)
  /\ (NoDup (List.map Ble.address reported) ->
      forall b, In b reported -> Ble.get_device_by_address self' (Ble.address b) = Some b)
  /\ (forall a, (forall b, In b reported -> Ble.address b ≠ a) ->
       Ble.get_device_by_address self' a = Ble.get_device_by_address self a)
  /\ (Ble.bleak_installed env = false \/ (exists e, Ble.discover env = Raise e) ->
      reported = [] /\ self' = self).
Proof.
  intros reported self'. subst reported self'. unfold Ble.get_device_by_address.
  destruct (Ble.bleak_installed env) eqn:Hinst.
  - destruct (Ble.discover env) as [found | e] eqn:Hfound.
    + rewrite (scan_unfold env self found Hinst Hfound). cbn [fst snd Ble.discovered_devices].
      split; [intros b Hb; apply fold_insert_some; exact Hb | ].
      split; [intros Hnd b Hb; apply fold_insert_nodup; assumption | ].
      split; [intros a Ha; apply fold_insert_other; exact Ha | ].
      intros [H | [e H]]; discriminate.
    + unfold Ble.scan_for_devices. rewrite Hinst, Hfound. cbn.
      split; [intros b [] | ]. split; [intros _ b [] | ]. auto.
  - unfold Ble.scan_for_devices. rewrite Hinst. cbn.
    split; [intros b [] | ]. split; [intros _ b [] | ]. auto.
Qed.

(** X15: the service identifiers decide by text containment, so a scanner
    with the empty string among its identifiers reports every discovered
    device, and a scanner without identifiers reports none. *)
Theorem scan_edge_identifiers (env : Ble.scan_env) (self : Ble.BLEDeviceScanner)
    (found : list (Ble.Device * Ble.AdvertisementData)) :
  Ble.bleak_installed env = true ->
  Ble.discover env = Ret found ->
  (In EmptyString (Ble.service_uuids self) ->
     (Ble.scan_for_devices env self).1 = List.map (fun p => Ble.ble_device p.1 p.2) found)
  /\ (Ble.service_uuids self = [] ->
      (Ble.scan_for_devices env self).1 = []
      /\ (Ble.scan_for_devices env self).2 = self).
Proof.
  intros Hinst Hfound. rewrite (scan_unfold env self found Hinst Hfound). cbn [fst snd].
  unfold Ble.advertisers. split.
  - intros Hempty. f_equal. clear Hfound.
    induction found as [ | [d a] rest IH]; [reflexivity | ]. cbn.
    replace (Ble.advertises (Ble.service_uuids self) a) with true; [f_equal; exact IH | ].
    symmetry. unfold Ble.advertises. apply existsb_exists. exists EmptyString.
    split; [exact Hempty | ]. apply str_contains_spec.
    exists EmptyString, (str_of_list (Ble.adv_service_uuids a)). reflexivity.
  - intros Hnone. rewrite Hnone.
    assert (List.filter (fun p : Ble.Device * Ble.AdvertisementData => Ble.advertises [] p.2)
              found = []) as ->.
    { clear Hfound. induction found as [ | p rest IH]; [reflexivity | exact IH]. }
    cbn. split; [reflexivity | ]. destruct self; cbn in *. rewrite Hnone. reflexivity.
Qed.

End BleProperties.

(** * The REST client *)

Section ApiProperties.
Import Api.
Context `{A : ApiLib} `{P : Models}.
Variable e : env.
Local Open Scope list_scope.

Ltac st_run :=
  unfold st_bind, st_ret, st_raise, st_gets, st_modify, st_lift, st_try, st_finally.

Lemma make_request_no_session method endpoint body include_auth (s : state) :
  session (self s) = None ->
  _make_request e method endpoint body include_auth s
  = (Throw (Builtin (RuntimeError "Session not initialized")), s).
Proof. intros H. unfold _make_request. st_run. rewrite H. reflexivity. Qed.

Lemma make_request_session method endpoint body include_auth (s : state) id :
  session (self s) = Some id ->
  _make_request e method endpoint body include_auth s
  = (respond e (length (requests (net s))),
     on_net (add_request (request_for (self s) id method endpoint body include_auth)) s).
Proof. intros H. unfold _make_request. st_run. rewrite H. reflexivity. Qed.

Lemma login_no_session (s : state) :
  session (self s) = None ->
  login e s = (Throw (Builtin (RuntimeError "Session not initialized")), s).
Proof.
  intros H. unfold login. unfold st_bind at 1 2. unfold st_gets at 1.
  rewrite make_request_no_session by exact H. reflexivity.
Qed.

Lemma refresh_no_session (s : state) :
  session (self s) = None ->
  refresh_access_token e s = (Return false, s).
Proof.
  intros H. unfold refresh_access_token. unfold st_bind at 1. unfold st_gets at 1.
  destruct (refresh_token (self s)) as [[ | c text] | ]; try reflexivity.
  unfold st_try, st_bind at 1. rewrite make_request_no_session by exact H. reflexivity.
Qed.

Lemma ensure_no_session (s : state) :
  session (self s) = None ->
  ((ensure_authenticated e s).1 = Throw (Builtin (RuntimeError "Session not initialized"))
   \/ (ensure_authenticated e s).1 = Return true)
  /\ self (ensure_authenticated e s).2 = self s
  /\ requests (net (ensure_authenticated e s).2) = requests (net s).
Proof.
  intros H. unfold ensure_authenticated, refresh_access_token, login, _make_request,
    datetime_now. st_run. cbn. try rewrite H.
  destruct (truthy (access_token (self s))); cbn; try rewrite H; cbn; auto.
  destruct (token_expires_at (self s)) as [expires | ]; cbn; auto.
  destruct (expires <=? now e (clock_reads (net s)))%Z; cbn; auto.
  destruct (refresh_token (self s)) as [[ | c text] | ]; cbn; rewrite ?H; cbn; rewrite ?H; auto.
Qed.

Lemma after_ensure_no_session {C} (k : ApiResponse -> St state C) method endpoint body
    include_auth (s : state) :
  session (self s) = None ->
  refused (st_bind (ensure_authenticated e)
             (fun _ => st_bind (_make_request e method endpoint body include_auth) k)) s.
Proof.
  intros H. destruct (ensure_no_session s H) as ([Hr | Hr] & Hself & Hreq);
    unfold refused, st_bind; destruct (ensure_authenticated e s) as [r s'];
    cbn in Hr, Hself, Hreq; subst r.
  - cbn. auto.
  - rewrite make_request_no_session by (rewrite Hself; exact H). cbn. auto.
Qed.

(** X16: outside [async with], a client that was given no session sends
    nothing: every method that makes a request raises [RuntimeError]
    and leaves the client's attributes as they were, except
    [refresh_access_token], which catches the error and gives [False]. *)
Theorem no_session_no_request (s : state) :
  session (self s) = None ->
  refused (get_server_host e) s
  /\ refused (login e) s
  /\ refused (get_iot_certificates e) s
  /\ refused (get_devices e) s
  /\ refused (is_user_authorized e) s
  /\ (forall endpoint device_id, refused (device_command e endpoint device_id) s)
  /\ (forall endpoint failure device_id, refused (device_query e endpoint failure device_id) s)
  /\ refresh_access_token e s = (Return false, s).
Proof.
  intros H. repeat split.
  all: try (rewrite login_no_session by exact H; reflexivity).
  all: try (unfold get_server_host, st_bind; rewrite make_request_no_session by exact H; reflexivity).
  all: try (apply after_ensure_no_session; exact H).
  all: try (intros; apply after_ensure_no_session; exact H).
  apply refresh_no_session; exact H.
Qed.

(** ** Sessions *)

Lemma keeps_bind {B C} (m : St state B) (k : B -> St state C) :
  keeps_session m -> (forall b, keeps_session (k b)) -> keeps_session (st_bind m k).
Proof.
  intros Hm Hk s. unfold st_bind. specialize (Hm s).
  destruct (m s) as [[b | x] s1]; cbn in Hm; [ | exact Hm].
  specialize (Hk b s1). destruct Hm as (<- & <- & <- & <-). exact Hk.
Qed.

Lemma keeps_try {B} (m : St state B) (h : raised -> St state B) :
  keeps_session m -> (forall x, keeps_session (h x)) -> keeps_session (st_try m h).
Proof.
  intros Hm Hh s. unfold st_try. specialize (Hm s).
  destruct (m s) as [[b | x] s1]; cbn in Hm; [exact Hm | ].
  specialize (Hh x s1). destruct Hm as (<- & <- & <- & <-). exact Hh.
Qed.

Lemma keeps_pure {B} (m : St state B) :
  (forall s, (m s).2 = s) -> keeps_session m.
Proof. intros H s. rewrite H. auto. Qed.

Lemma keeps_modify (f : AirseekersAPI -> AirseekersAPI) :
  (forall a, session (f a) = session a) ->
  (forall a, _should_close_session (f a) = _should_close_session a) ->
  keeps_session (st_modify (on_self f)).
Proof. intros H1 H2 s. cbn. auto. Qed.

Lemma keeps_make_request method endpoint body include_auth :
  keeps_session (_make_request e method endpoint body include_auth).
Proof.
  intros s. unfold _make_request. st_run. destruct (session (self s)) eqn:E; cbn; rewrite ?E; auto.
Qed.

Lemma keeps_datetime_now : keeps_session (datetime_now e).
Proof. intros s. cbn. auto. Qed.

Lemma keeps_construct {B} (model : list (string * json) -> result B) v :
  keeps_session (construct model v).
Proof.
  apply keeps_pure. intros s. unfold construct, st_lift, st_raise.
  destruct v as [[] | ]; reflexivity.
Qed.

Ltac keeps :=
  repeat first
    [ apply keeps_make_request
    | apply keeps_datetime_now
    | apply keeps_construct
    | apply keeps_bind; [ | intros ? ]
    | apply keeps_try; [ | intros ? ]
    | apply keeps_modify; [intros []; reflexivity | intros []; reflexivity]
    | apply keeps_pure; intros ?; reflexivity
    | match goal with |- keeps_session (if ?b then _ else _) => destruct b end
    | match goal with |- keeps_session (match ?b with _ => _ end) => destruct b end ].

Lemma keeps_login : keeps_session (login e).
Proof. unfold login. keeps. Qed.

Lemma keeps_get_server_host : keeps_session (get_server_host e).
Proof. unfold get_server_host. keeps. Qed.

Lemma keeps_refresh : keeps_session (refresh_access_token e).
Proof. unfold refresh_access_token, data_get. keeps. Qed.

Lemma keeps_ensure : keeps_session (ensure_authenticated e).
Proof.
  unfold ensure_authenticated.
  repeat first
    [ apply keeps_login | apply keeps_refresh
    | apply keeps_bind; [ | intros ? ]
    | apply keeps_datetime_now
    | apply keeps_pure; intros ?; reflexivity
    | match goal with |- keeps_session (if ?b then _ else _) => destruct b end
    | match goal with |- keeps_session (match ?b with _ => _ end) => destruct b end ].
Qed.

Ltac keeps_method :=
  repeat first
    [ apply keeps_ensure
    | apply keeps_make_request
    | apply keeps_construct
    | apply keeps_bind; [ | intros ? ]
    | apply keeps_pure; intros ?; reflexivity
    | match goal with |- keeps_session (if ?b then _ else _) => destruct b end
    | match goal with |- keeps_session (match ?b with _ => _ end) => destruct b end ].

Lemma keeps_get_devices : keeps_session (get_devices e).
Proof. unfold get_devices. keeps_method. Qed.

Lemma keeps_get_iot_certificates : keeps_session (get_iot_certificates e).
Proof. unfold get_iot_certificates. keeps_method. Qed.

Lemma keeps_device_command endpoint device_id :
  keeps_session (device_command e endpoint device_id).
Proof. unfold device_command. keeps_method. Qed.

Lemma keeps_device_query endpoint failure device_id :
  keeps_session (device_query e endpoint failure device_id).
Proof. unfold device_query. keeps_method. Qed.

Lemma async_with_own_session {B} (body : St state B) (s : state) :
  session (self s) = None ->
  _should_close_session (self s) = true ->
  keeps_session body ->
  let s0 := on_self (set_session (Some (created (net s)))) (on_net add_session s) in
  async_with body s = ((body s0).1, on_net (add_closed (created (net s))) (body s0).2).
Proof.
  intros Hs Hc Hk s0. unfold async_with, __aenter__, __aexit__, new_session, close_session.
  st_run. rewrite Hs. cbn. fold s0. specialize (Hk s0).
  destruct (body s0) as [r s1]. cbn in *. destruct Hk as (-> & -> & _). rewrite Hc.
  reflexivity.
Qed.

(** X17: a client that made its own session closes it when [async with]
    ends and keeps it: the next [async with] makes no session, and its
    requests go to the closed one. *)
Theorem session_reused_after_close {B} (body : St state B) (s : state) :
  session (self s) = None ->
  _should_close_session (self s) = true ->
  keeps_session body ->
  let s1 := (async_with body s).2 in
  session (self s1) = Some (created (net s))
  /\ In (created (net s)) (closed (net s1))
  /\ forall method endpoint data include_auth,
       let s2 := (async_with (_make_request e method endpoint data include_auth) s1).2 in
       created (net s2) = created (net s1)
       /\ requests (net s2)
          = requests (net s1)
            ++ [request_for (self s1) (created (net s)) method endpoint data include_auth].
Proof.
  intros Hs Hc Hk s1. subst s1. rewrite (async_with_own_session body s Hs Hc Hk).
  cbn zeta. cbn [snd].
  set (s0 := on_self (set_session (Some (created (net s)))) (on_net add_session s)).
  destruct (Hk s0) as (Hsess & Hflag & Hclosed & Hcreated).
  set (s1 := on_net (add_closed (created (net s))) (body s0).2).
  assert (session (self s1) = Some (created (net s))) as H1 by (cbn; rewrite Hsess; reflexivity).
  split; [exact H1 | ]. split.
  - cbn. apply in_or_app. right. left. reflexivity.
  - intros method endpoint data0 include_auth.
    unfold async_with, __aenter__, __aexit__, close_session. st_run. rewrite H1.
    rewrite (make_request_session _ _ _ _ s1 _ H1). cbn. rewrite Hsess.
    destruct (_should_close_session (self (body s0).2)); cbn; auto.
Qed.

(** ** Authentication *)

Lemma ensure_valid (s : state) :
  token_valid e s ->
  (ensure_authenticated e s).1 = Return true
  /\ self (ensure_authenticated e s).2 = self s
  /\ requests (net (ensure_authenticated e s).2) = requests (net s).
Proof.
  intros [Htoken Hexp]. unfold ensure_authenticated, datetime_now. st_run. rewrite Htoken. cbn.
  destruct (token_expires_at (self s)) as [expires | ]; cbn; auto.
  destruct (Z.leb_spec expires (now e (clock_reads (net s)))); [lia | cbn; auto].
Qed.

Lemma command_valid (endpoint device_id : string) (id : nat) (s : state) :
  session (self s) = Some id ->
  token_valid e s ->
  (device_command e endpoint device_id s).1
  = match respond e (length (requests (net s))) with
    | Return r => Return (code r =? 0)%Z
    | Throw x => Throw x
    end
  /\ self (device_command e endpoint device_id s).2 = self s
  /\ requests (net (device_command e endpoint device_id s).2)
     = requests (net s)
       ++ [request_for (self s) id "POST" endpoint
             (Some [("device_id", JString device_id)]) true].
Proof.
  intros Hs Hvalid.
  destruct (ensure_valid s Hvalid) as (Hr & Hself & Hreq).
  unfold device_command, st_bind. destruct (ensure_authenticated e s) as [r s1].
  cbn in Hr, Hself, Hreq. subst r.
  rewrite (make_request_session _ _ _ _ s1 id) by (rewrite Hself; exact Hs).
  rewrite Hreq, Hself.
  destruct (respond e (length (requests (net s)))); cbn; rewrite ?Hreq; auto.
Qed.

Lemma make_request_effect method endpoint body include_auth (s : state) :
  self (_make_request e method endpoint body include_auth s).2 = self s
  /\ (length (requests (net (_make_request e method endpoint body include_auth s).2))
      <= S (length (requests (net s))))%nat.
Proof.
  unfold _make_request. st_run. destruct (session (self s)); cbn; [ | auto].
  split; [reflexivity | ]. rewrite length_app. cbn. lia.
Qed.

(** X18: refreshing the token never raises; when it returns [False] the
    client's attributes are as before, and without a refresh token
    nothing is sent. *)
Theorem refresh_never_raises (s : state) :
  let out := refresh_access_token e s in
  (exists b, out.1 = Return b)
  /\ (out.1 = Return false -> self out.2 = self s)
  /\ (refresh_token (self s) = None \/ refresh_token (self s) = Some EmptyString ->
      out = (Return false, s))
  /\ (length (requests (net out.2)) <= S (length (requests (net s))))%nat.
Proof.
  intros out. subst out. unfold refresh_access_token, data_get, datetime_now. st_run.
  destruct (refresh_token (self s)) as [[ | c text] | ].
  1, 3: cbn; repeat split; eauto.
  pose proof (make_request_effect "POST" "/api/web/user/refresh-token"
                (Some [("refresh_token", JString (String c text))]) true s) as [Hself Hlen].
  destruct (_make_request e "POST" "/api/web/user/refresh-token"
              (Some [("refresh_token", JString (String c text))]) true s) as [[r | x] s1];
    cbn in Hself, Hlen.
  - destruct (succeeded r); [destruct (data r) as [[] | ] | ]; cbn;
      (split; [eauto | ]); (split; [try discriminate; auto | ]);
      (split; [intros [? | ?]; discriminate | exact Hlen]).
  - cbn. split; [eauto | ]. split; [auto | ].
    split; [intros [? | ?]; discriminate | exact Hlen].
Qed.

(** X19: with an expired token and a refresh that the server accepts,
    [ensure_authenticated] sends the refresh request only and takes as
    the token whatever the response holds under [access_token]: when the
    field is missing the token is [None], and the next call logs in. *)
Theorem expired_token_refreshed (s : state) (id : nat) (expires : Z) (text : string)
    (r : ApiResponse) (members : list (string * json)) :
  session (self s) = Some id ->
  truthy (access_token (self s)) = true ->
  token_expires_at (self s) = Some expires ->
  (expires <= now e (clock_reads (net s)))%Z ->
  refresh_token (self s) = Some text ->
  text <> EmptyString ->
  respond e (length (requests (net s))) = Return r ->
  code r = 0%Z ->
  data r = Some (JObject members) ->
  members <> [] ->
  let out := ensure_authenticated e s in
  out.1 = Return true
  /\ access_token (self out.2) = default JNull (dict_get "access_token" members)
  /\ token_expires_at (self out.2)
     = Some (now e (S (clock_reads (net s))) + hours_23)%Z
  /\ requests (net out.2)
     = requests (net s)
       ++ [request_for (self s) id "POST" "/api/web/user/refresh-token"
             (Some [("refresh_token", JString text)]) true]
  /\ (dict_get "access_token" members = None ->
      requests (net (ensure_authenticated e out.2).2)
      = requests (net out.2)
        ++ [request_for (self out.2) id "POST" "/user/login"
              (Some [("email", JString (email (self s)));
                     ("password", JString (password (self s)))]) false]).
Proof.
  intros Hs Htoken Hexp Hle Hrt Htext Hresp Hcode Hdata Hmem out. subst out.
  set (s1 := on_net add_clock_read s).
  set (s2 := on_net (add_request (request_for (self s) id "POST" "/api/web/user/refresh-token"
                                    (Some [("refresh_token", JString text)]) true)) s1).
  set (s3 := on_self (set_access_token (default JNull (dict_get "access_token" members))) s2).
  set (s4 := on_self (set_token_expires_at
                        (Some (now e (S (clock_reads (net s))) + hours_23)%Z))
               (on_net add_clock_read s3)).
  assert (ensure_authenticated e s = (Return true, s4)) as Hens.
  { subst s1 s2 s3 s4.
    unfold ensure_authenticated, refresh_access_token, data_get, datetime_now. st_run.
    rewrite Htoken. cbn. rewrite Hexp. cbn.
    destruct (Z.leb_spec expires (now e (clock_reads (net s)))); [ | lia].
    cbn. rewrite Hrt. destruct text as [ | c text]; [congruence | ].
    unfold _make_request. st_run. cbn. rewrite Hs. cbn. rewrite Hresp.
    unfold succeeded. rewrite Hcode, Hdata. cbn.
    destruct members as [ | m members]; [congruence | ]. reflexivity. }
  rewrite Hens. cbn [fst snd]. split; [reflexivity | ]. subst s1 s2 s3 s4. cbn.
  do 3 (split; [reflexivity | ]).
  intros Hnone. rewrite Hnone. cbn.
  unfold ensure_authenticated, login, _make_request. st_run. cbn. rewrite Hs. cbn.
  match goal with |- context [match respond e ?n with _ => _ end] =>
    destruct (respond e n) as [r' | x]; [ | reflexivity] end.
  destruct (succeeded r'); [ | reflexivity].
  unfold construct, st_lift, st_raise. destruct (data r') as [[] | ]; try reflexivity.
  match goal with |- context [LoginResponse_of ?m] =>
    destruct (LoginResponse_of m); reflexivity end.
Qed.

Lemma login_effect (s : state) (id : nat) :
  session (self s) = Some id ->
  requests (net (login e s).2)
  = requests (net s)
    ++ [request_for (self s) id "POST" "/user/login"
          (Some [("email", JString (email (self s)));
                 ("password", JString (password (self s)))]) false]
  /\ (forall response, (login e s).1 = Return response ->
       self (login e s).2
       = set_token_expires_at (Some (now e (clock_reads (net s)) + hours_23)%Z)
           (set_base_url (login_host response)
              (set_refresh_token (Some (login_refresh_token response))
                 (set_access_token (JString (login_access_token response)) (self s)))))
  /\ (forall x, (login e s).1 = Throw x -> self (login e s).2 = self s).
Proof.
  intros Hs. unfold login, _make_request. st_run. cbn. rewrite Hs. cbn.
  destruct (respond e (length (requests (net s)))) as [r | x];
    [ | split; [reflexivity | split; [discriminate | reflexivity] ] ].
  destruct (succeeded r); [ | split; [reflexivity | split; [discriminate | reflexivity] ] ].
  unfold construct, st_lift, st_raise.
  destruct (data r) as [[] | ];
    try (split; [reflexivity | split; [discriminate | reflexivity] ]).
  match goal with |- context [LoginResponse_of ?m] =>
    destruct (LoginResponse_of m) as [lr | x] end; cbn.
  - split; [reflexivity | ]. split; [ | discriminate]. intros response [= <-]. reflexivity.
  - split; [reflexivity | ]. split; [discriminate | reflexivity].
Qed.

Lemma get_server_host_effect (s : state) (id : nat) :
  session (self s) = Some id ->
  requests (net (get_server_host e s).2)
  = requests (net s)
    ++ [request_for (self s) id "GET" "/api/web/server-host" None false]
  /\ (forall host, (get_server_host e s).1 = Return host ->
       self (get_server_host e s).2 = set_base_url host (self s))
  /\ (forall x, (get_server_host e s).1 = Throw x -> self (get_server_host e s).2 = self s).
Proof.
  intros Hs. unfold get_server_host, _make_request. st_run. cbn. rewrite Hs. cbn.
  destruct (respond e (length (requests (net s)))) as [r | x];
    [ | split; [reflexivity | split; [discriminate | reflexivity] ] ].
  destruct (succeeded r); [ | split; [reflexivity | split; [discriminate | reflexivity] ] ].
  unfold construct, st_lift, st_raise.
  destruct (data r) as [[] | ];
    try (split; [reflexivity | split; [discriminate | reflexivity] ]).
  match goal with |- context [ServerHostResponse ?m] =>
    destruct (ServerHostResponse m) as [host | x] end; cbn.
  - split; [reflexivity | ]. split; [ | discriminate]. intros ? [= <-]. reflexivity.
  - split; [reflexivity | ]. split; [discriminate | reflexivity].
Qed.

(** X20: [login] sends the credentials without an authorization header;
    when it returns, the client holds the tokens and the host of the
    response and an expiry 23 hours after the clock reading; when it
    raises, the client's attributes are as before. *)
Theorem login_outcome (s : state) (id : nat) :
  session (self s) = Some id ->
  let rq := request_for (self s) id "POST" "/user/login"
              (Some [("email", JString (email (self s)));
                     ("password", JString (password (self s)))]) false in
  let out := login e s in
  requests (net out.2) = requests (net s) ++ [rq]
  /\ rq_json rq = Some [("email", JString (email (self s)));
                        ("password", JString (password (self s)))]
  /\ (forall v, ~ In ("authorization", v) (rq_headers rq))
  /\ (forall response, out.1 = Return response ->
       access_token (self out.2) = JString (login_access_token response)
       /\ refresh_token (self out.2) = Some (login_refresh_token response)
       /\ base_url (self out.2) = login_host response
       /\ token_expires_at (self out.2)
          = Some (now e (clock_reads (net s)) + hours_23)%Z)
  /\ (forall x, out.1 = Throw x -> self out.2 = self s).
Proof.
  intros Hs rq out. subst out. destruct (login_effect s id Hs) as (Hreq & Hret & Hraise).
  split; [exact Hreq | ]. split; [reflexivity | ]. split; [ | split; [ | exact Hraise] ].
  - intros v. subst rq. unfold request_for, _get_headers. cbn.
    intros [H | [H | [H | [H | [H | []]]]]]; discriminate.
  - intros response Hr. rewrite (Hret response Hr). cbn. auto.
Qed.

(** X21: a device query whose response has code 0 and no data, or an empty
    list or dictionary, returns the empty dictionary; with another code it
    raises with the response's message. *)
Theorem device_query_no_data (endpoint failure device_id : string) (id : nat) (s : state)
    (r : ApiResponse) :
  session (self s) = Some id ->
  token_valid e s ->
  respond e (length (requests (net s))) = Return r ->
  (code r = 0%Z ->
   data r = None \/ data r = Some (JArray []) \/ data r = Some (JObject []) ->
   (device_query e endpoint failure device_id s).1 = Return (JObject []))
  /\ (code r <> 0%Z ->
      (device_query e endpoint failure device_id s).1
      = Throw (PlainException (failure +:+ msg r))).
Proof.
  intros Hs Hvalid Hresp.
  destruct (ensure_valid s Hvalid) as (Hr & Hself & Hreq).
  unfold device_query, st_bind. destruct (ensure_authenticated e s) as [b s1].
  cbn in Hr, Hself, Hreq. subst b.
  rewrite (make_request_session _ _ _ _ s1 id) by (rewrite Hself; exact Hs).
  rewrite Hreq, Hresp. split.
  - intros -> [-> | [-> | ->]]; reflexivity.
  - intros Hc. destruct (Z.eqb_spec (code r) 0); [contradiction | reflexivity].
Qed.

End ApiProperties.

(** * The wrapper *)

Section MainProperties.
Context `{L : PyLib} `{A : ApiLib} `{P : Api.Models} `{R : PyRepr}.
Local Open Scope list_scope.

Ltac st_run :=
  unfold st_bind, st_ret, st_raise, st_gets, st_modify, st_lift, st_try, st_finally.

Ltac proj :=
  cbn [fst snd Main.this Main.the_net Main.the_world Main.api Main.set_api
       Main.mqtt_client Main.ble_scanner Main.message_callback Api.self Api.net].

Lemma enter_returns (s : Main.app) : Main.in_api Api.__aenter__ s = (Return tt, entered s).
Proof.
  unfold entered, Main.in_api, Api.__aenter__, Api.new_session. st_run. cbn.
  destruct (Api.session (Main.api (Main.this s))); reflexivity.
Qed.

Lemma exit_returns (s : Main.app) : Main.in_api Api.__aexit__ s = (Return tt, exited s).
Proof.
  unfold exited, Main.in_api, Api.__aexit__, Api.close_session. st_run. cbn.
  destruct (Api.session (Main.api (Main.this s))); [ | reflexivity].
  destruct (Api._should_close_session (Main.api (Main.this s))); reflexivity.
Qed.

Lemma async_with_api_eq {B} (body : St Main.app B) (s : Main.app) :
  Main.async_with_api id body s = ((body (entered s)).1, exited (body (entered s)).2).
Proof.
  unfold Main.async_with_api, id. unfold st_bind. rewrite enter_returns.
  unfold st_finally. destruct (body (entered s)) as [r s1]. rewrite exit_returns. reflexivity.
Qed.

Lemma entered_session (s : Main.app) :
  exists id, Api.session (Main.api (Main.this (entered s))) = Some id.
Proof.
  unfold entered, Main.in_api, Api.__aenter__, Api.new_session. st_run. cbn.
  destruct (Api.session (Main.api (Main.this s))) eqn:E; cbn; eauto.
Qed.

Lemma entered_rest (s : Main.app) :
  Main.mqtt_client (Main.this (entered s)) = Main.mqtt_client (Main.this s)
  /\ Main.ble_scanner (Main.this (entered s)) = Main.ble_scanner (Main.this s)
  /\ Main.message_callback (Main.this (entered s)) = Main.message_callback (Main.this s)
  /\ Main.the_world (entered s) = Main.the_world s
  /\ Api.requests (Main.the_net (entered s)) = Api.requests (Main.the_net s).
Proof.
  unfold entered, Main.in_api, Api.__aenter__, Api.new_session. st_run. cbn.
  destruct (Api.session (Main.api (Main.this s))); cbn; auto.
Qed.

Lemma exited_rest (s : Main.app) :
  Main.mqtt_client (Main.this (exited s)) = Main.mqtt_client (Main.this s)
  /\ Main.ble_scanner (Main.this (exited s)) = Main.ble_scanner (Main.this s)
  /\ Main.message_callback (Main.this (exited s)) = Main.message_callback (Main.this s)
  /\ Main.the_world (exited s) = Main.the_world s
  /\ Api.requests (Main.the_net (exited s)) = Api.requests (Main.the_net s)
  /\ Main.api (Main.this (exited s)) = Main.api (Main.this s).
Proof.
  unfold exited, Main.in_api, Api.__aexit__, Api.close_session. st_run. cbn.
  destruct (Api.session (Main.api (Main.this s))); cbn; [ | auto 10].
  destruct (Api._should_close_session (Main.api (Main.this s))); cbn; auto 10.
Qed.

(** What a coroutine of the REST client leaves alone in the wrapper. *)
Lemma in_api_rest {B} (m : St Api.state B) (s : Main.app) :
  Main.mqtt_client (Main.this (Main.in_api m s).2) = Main.mqtt_client (Main.this s)
  /\ Main.ble_scanner (Main.this (Main.in_api m s).2) = Main.ble_scanner (Main.this s)
  /\ Main.message_callback (Main.this (Main.in_api m s).2)
     = Main.message_callback (Main.this s)
  /\ Main.the_world (Main.in_api m s).2 = Main.the_world s.
Proof.
  unfold Main.in_api. destruct (m _) as [r t]. cbn. auto.
Qed.

Lemma in_api_eq {B} (m : St Api.state B) (s : Main.app) :
  (Main.in_api m s).1 = (m (api_state s)).1
  /\ api_state (Main.in_api m s).2 = (m (api_state s)).2.
Proof.
  unfold Main.in_api, api_state. destruct (m _) as [r [a n]]. cbn. auto.
Qed.

Lemma entered_api (s : Main.app) :
  Main.api (Main.this (entered s))
  = Api.set_session (Api.session (Main.api (Main.this (entered s)))) (Main.api (Main.this s)).
Proof.
  unfold entered, Main.in_api, Api.__aenter__, Api.new_session. st_run. cbn.
  destruct (Main.api (Main.this s)) as [? ? [id | ] ? ? ? ? ? ? ?]; reflexivity.
Qed.

Lemma entered_token (e : Api.env) (s : Main.app) :
  token_valid e (api_state s) -> token_valid e (api_state (entered s)).
Proof.
  unfold token_valid, entered, Main.in_api, Api.__aenter__, Api.new_session. st_run. cbn.
  destruct (Api.session (Main.api (Main.this s))); cbn; auto.
Qed.

Lemma in_api_run {B} (m : St Api.state B) (s : Main.app) :
  Main.in_api m s
  = ((m (api_state s)).1,
     {| Main.this := Main.set_api (Api.self (m (api_state s)).2) (Main.this s);
        Main.the_net := Api.net (m (api_state s)).2;
        Main.the_world := Main.the_world s |}).
Proof. unfold Main.in_api, api_state. destruct (m _) as [r t]. reflexivity. Qed.

Lemma try_false (body : St Main.app bool) (s : Main.app) :
  st_try body (fun _ => st_ret false) s
  = (Return (match (body s).1 with Return b => b | Throw _ => false end), (body s).2).
Proof. unfold st_try, st_ret. destruct (body s) as [[b | x] s1]; reflexivity. Qed.

(** X25: [control_device] never raises. An action other than the four it
    knows sends nothing and gives [False]. With a token that has not
    expired, a known action sends one request, to the endpoint of that
    name with the device identifier, and gives whether the response's
    code is 0, [False] when the request raised. *)
Theorem control_device_outcome (e : Api.env) (device_id action : string) (s : Main.app) :
  let out := Main.control_device e device_id action s in
  (exists b, out.1 = Return b)
  /\ (~ known_action action ->
      out.1 = Return false
      /\ Api.requests (Main.the_net out.2) = Api.requests (Main.the_net s))
  /\ (known_action action -> token_valid e (api_state s) ->
      exists id, Api.session (Main.api (Main.this (entered s))) = Some id
        /\ Api.requests (Main.the_net out.2)
           = Api.requests (Main.the_net s)
             ++ [Api.request_for (Main.api (Main.this s)) id "POST"
                   ("/api/web/device/" +:+ action)
                   (Some [("device_id", JString device_id)]) true]
        /\ out.1 = Return (match Api.respond e (length (Api.requests (Main.the_net s))) with
                           | Return r => (Api.code r =? 0)%Z
                           | Throw _ => false
                           end))
  /\ Main.mqtt_client (Main.this out.2) = Main.mqtt_client (Main.this s)
  /\ Main.the_world out.2 = Main.the_world s.
Proof.
  intros out. subst out. unfold Main.control_device. rewrite try_false.
  rewrite async_with_api_eq. cbn [fst snd].
  split; [eauto | ].
  destruct (entered_rest s) as (Hm & _ & _ & Hw & Hreq).
  split; [ | split].
  - intros Hunknown.
    destruct (String.eqb_spec action "lock") as [-> | _];
      [exfalso; apply Hunknown; unfold known_action; auto | ].
    destruct (String.eqb_spec action "unlock") as [-> | _];
      [exfalso; apply Hunknown; unfold known_action; auto | ].
    destruct (String.eqb_spec action "bind") as [-> | _];
      [exfalso; apply Hunknown; unfold known_action; auto | ].
    destruct (String.eqb_spec action "unbind") as [-> | _];
      [exfalso; apply Hunknown; unfold known_action; auto 6 | ].
    cbn. split; [reflexivity | ].
    destruct (exited_rest (entered s)) as (_ & _ & _ & _ & -> & _). exact Hreq.
  - intros Hknown Hvalid. destruct (entered_session s) as (id & Hid). exists id.
    split; [exact Hid | ].
    assert (exists endpoint,
              endpoint = "/api/web/device/" +:+ action
              /\ (if String.eqb action "lock" then Main.in_api (Api.lock_device e device_id)
                  else if String.eqb action "unlock"
                       then Main.in_api (Api.unlock_device e device_id)
                       else if String.eqb action "bind"
                            then Main.in_api (Api.bind_device e device_id)
                            else if String.eqb action "unbind"
                                 then Main.in_api (Api.unbind_device e device_id)
                                 else st_ret false)
                 = Main.in_api (Api.device_command e endpoint device_id))
      as (endpoint & Hendpoint & ->).
    { destruct Hknown as [-> | [-> | [-> | ->]]]; eexists; split; reflexivity. }
    rewrite in_api_run. cbn [fst snd].
    pose proof (command_valid e endpoint device_id id (api_state (entered s)) Hid
                  (entered_token e s Hvalid)) as (Hout & Hself & Hrq).
    destruct (exited_rest
                {| Main.this := Main.set_api
                     (Api.self (Api.device_command e endpoint device_id
                                  (api_state (entered s))).2) (Main.this (entered s));
                   Main.the_net := Api.net (Api.device_command e endpoint device_id
                                              (api_state (entered s))).2;
                   Main.the_world := Main.the_world (entered s) |})
      as (_ & _ & _ & _ & -> & _).
    cbn [Main.the_net]. rewrite Hrq, Hout. cbn [api_state Api.net Api.self].
    rewrite Hreq. subst endpoint. split.
    + f_equal. f_equal. unfold Api.request_for, Api._get_headers.
      assert (Main.api (Main.this (entered s))
              = Api.set_session (Some id) (Main.api (Main.this s))) as ->.
      { rewrite <- Hid. apply entered_api. }
      reflexivity.
    + destruct (Api.respond e (length (Api.requests (Main.the_net s)))); reflexivity.
  -     destruct (exited_rest ((if String.eqb action "lock"
                            then Main.in_api (Api.lock_device e device_id)
                            else if String.eqb action "unlock"
                                 then Main.in_api (Api.unlock_device e device_id)
                                 else if String.eqb action "bind"
                                      then Main.in_api (Api.bind_device e device_id)
                                      else if String.eqb action "unbind"
                                           then Main.in_api (Api.unbind_device e device_id)
                                           else st_ret false) (entered s)).2)
      as (-> & _ & _ & -> & _).
    rewrite <- Hm, <- Hw.
    destruct (String.eqb action "lock"); [destruct (in_api_rest (Api.lock_device e device_id) (entered s)) as (? & _ & _ & ?); auto | ].
    destruct (String.eqb action "unlock"); [destruct (in_api_rest (Api.unlock_device e device_id) (entered s)) as (? & _ & _ & ?); auto | ].
    destruct (String.eqb action "bind"); [destruct (in_api_rest (Api.bind_device e device_id) (entered s)) as (? & _ & _ & ?); auto | ].
    destruct (String.eqb action "unbind"); [destruct (in_api_rest (Api.unbind_device e device_id) (entered s)) as (? & _ & _ & ?); auto | ].
    cbn. auto.
Qed.

(** X28: without a messaging client, or with one that is not connected,
    subscribing to a device's updates and sending it a command raise
    [RuntimeError] and change nothing; [is_mqtt_connected] is then
    [False]. *)
Theorem mqtt_required (senv : subscribe_env) (penv : publish_env) (device_id : string)
    (command : list (string * json)) (s : Main.app) :
  (forall c, Main.mqtt_client (Main.this s) = Some c -> is_connected c = false) ->
  Main.subscribe_to_device_updates senv device_id s
  = (Throw (Builtin (RuntimeError "MQTT client not connected. Call setup_mqtt() first.")), s)
  /\ Main.send_device_command penv device_id command s
     = (Throw (Builtin (RuntimeError "MQTT client not connected. Call setup_mqtt() first.")),
        s)
  /\ Main.is_mqtt_connected s = false.
Proof.
  intros H. unfold Main.subscribe_to_device_updates, Main.send_device_command,
    Main.require_mqtt, Main.is_mqtt_connected, is_connection_alive. st_run.
  destruct (Main.mqtt_client (Main.this s)) as [c | ]; [ | auto].
  cbn. rewrite !(H c eq_refl). cbn. auto.
Qed.

(** X29: [disconnect_mqtt] does nothing without a messaging client. With
    one, it never raises and keeps the client object; when the transport
    request does not raise, the wrapper is not connected afterwards. *)
Theorem disconnect_mqtt_outcome (env : disconnect_env) (s : Main.app) :
  let out := Main.disconnect_mqtt env s in
  out.1 = Return tt
  /\ (Main.mqtt_client (Main.this s) = None -> out.2 = s)
  /\ (forall c, Main.mqtt_client (Main.this s) = Some c ->
       Main.mqtt_client (Main.this out.2) = Some (self (disconnect env (mqtt_state c s)).2)
       /\ Main.the_world out.2 = world (disconnect env (mqtt_state c s)).2
       /\ forall t rc, client c = Some t -> de_disconnect env = Ret rc ->
            Main.is_mqtt_connected out.2 = false).
Proof.
  intros out. subst out. unfold Main.disconnect_mqtt, Main.in_mqtt. st_run.
  destruct (Main.mqtt_client (Main.this s)) as [c | ] eqn:Hc; cbn;
    [ | split; [ | split]; auto; discriminate].
  rewrite Hc. fold (mqtt_state c s).
  pose proof (disconnect_returns env (mqtt_state c s)) as Hret.
  pose proof (disconnect_clears_is_connected env) as Hclear.
  destruct (disconnect env (mqtt_state c s)) as [o s1] eqn:Hd. cbn in Hret. subst o. cbn.
  split; [reflexivity | ]. split; [discriminate | ].
  intros c' [= <-]. rewrite Hd. split; [reflexivity | ]. split; [reflexivity | ].
  intros t rc Ht Hrc. unfold Main.is_mqtt_connected, is_connection_alive. cbn.
  specialize (Hclear rc t (mqtt_state c s) Ht Hrc). rewrite Hd in Hclear. cbn in Hclear.
  rewrite Hclear. reflexivity.
Qed.

(** How [setup_mqtt] comes to its result: the certificates are fetched
    in the entered state; with them a new client object is connected in
    the world as it is. *)
Lemma setup_mqtt_cases (e : Api.env) (env : connect_env) (s : Main.app) :
  let fetched := Api.get_iot_certificates e (api_state (entered s)) in
  let s1 := {| Main.this := Main.set_api (Api.self fetched.2) (Main.this (entered s));
               Main.the_net := Api.net fetched.2;
               Main.the_world := Main.the_world s |} in
  match fetched.1 with
  | Throw _ => Main.setup_mqtt e env s = (Return false, exited s1)
  | Return cert =>
      let connected :=
        connect env (mqtt_state (init cert (Main.message_callback (Main.this s))) s) in
      Main.setup_mqtt e env s
      = (Return (match connected.1 with Ret b => b | Raise _ => false end),
         exited {| Main.this := Main.set_mqtt_client (Some (self connected.2)) (Main.this s1);
                   Main.the_net := Main.the_net s1;
                   Main.the_world := world connected.2 |})
  end.
Proof.
  intros fetched s1. unfold Main.setup_mqtt. rewrite try_false, async_with_api_eq.
  cbn [fst snd]. unfold st_bind. rewrite in_api_run.
  destruct (entered_rest s) as (Hm & Hb & Hcb & Hw & Hreq).
  fold fetched. subst s1. rewrite <- Hw.
  destruct (fetched.1) as [cert | x]; [ | reflexivity].
  unfold st_gets, st_modify, Main.in_mqtt. cbn. rewrite Hcb.
  unfold mqtt_state. rewrite Hw.
  destruct (connect env _) as [[b | x] t]; reflexivity.
Qed.

(** X26: [setup_mqtt] never raises. It gives [True] only when a connect
    acknowledgement with reason code 0 was delivered during the wait of
    [connect]; the wrapper is then connected unless a disconnect followed
    the last such acknowledgement before [connect] returned. When it gives
    [False], either the wrapper is not connected or the certificates could
    not be fetched and the client is the one from before the call. *)
Theorem setup_mqtt_outcome (e : Api.env) (env : connect_env) (s : Main.app) :
  let out := Main.setup_mqtt e env s in
  (exists b, out.1 = Return b)
  /\ (out.1 = Return true ->
      existsb is_connack_success (ce_arrivals env) = true
      /\ Main.is_mqtt_connected out.2 = link_after (ce_arrivals env) false)
  /\ (out.1 = Return false ->
      Main.is_mqtt_connected out.2 = false
      \/ ((exists x, (Api.get_iot_certificates e (api_state (entered s))).1 = Throw x)
          /\ Main.mqtt_client (Main.this out.2) = Main.mqtt_client (Main.this s)
          /\ Main.the_world out.2 = Main.the_world s)).
Proof.
  intros out. subst out. pose proof (setup_mqtt_cases e env s) as H. cbn zeta in H.
  destruct (entered_rest s) as (Hm & Hb & Hcb & Hw & Hreq).
  destruct ((Api.get_iot_certificates e (api_state (entered s))).1) as [cert | x] eqn:Hf;
    rewrite H; cbn [fst snd].
  - pose proof (connect_alive env
                  (mqtt_state (init cert (Main.message_callback (Main.this s))) s)
                  eq_refl eq_refl) as (b & Hb1 & Hb2 & Hb3).
    rewrite Hb1.
    match goal with |- context [exited ?t] =>
      destruct (exited_rest t) as (Hm' & _ & _ & Hw' & _) end.
    unfold Main.is_mqtt_connected. rewrite Hm', Hw'. cbn.
    replace {| self := self (connect env (mqtt_state (init cert (Main.message_callback (Main.this s))) s)).2;
               world := world (connect env (mqtt_state (init cert (Main.message_callback (Main.this s))) s)).2 |}
      with (connect env (mqtt_state (init cert (Main.message_callback (Main.this s))) s)).2
      by (destruct (connect env _) as [? []]; reflexivity).
    rewrite Hb2. split; [eauto | ]. split.
    + intros [= ->]. split; [exact (Hb3 eq_refl) | reflexivity].
    + intros [= ->]. left. reflexivity.
  - split; [eauto | ]. split; [discriminate | ]. intros _. right.
    split; [eauto | ].
    match goal with |- context [exited ?t] =>
      destruct (exited_rest t) as (Hm' & _ & _ & Hw' & _) end.
    rewrite Hm', Hw'. cbn. auto.
Qed.

(** X23: [discover_devices] never raises. When the cloud's device list
    cannot be fetched, both lists of the result are empty and no
    Bluetooth scan is made, whatever [scan_ble] says; otherwise the
    result holds the cloud's list and, with [scan_ble], what the scan
    reports. *)
Theorem discover_devices_outcome (e : Api.env) (scan : Ble.scan_env) (scan_ble : bool)
    (s : Main.app) :
  let fetched := Api.get_devices e (api_state (entered s)) in
  let scanned := Ble.scan_for_devices scan (Main.ble_scanner (Main.this s)) in
  let out := Main.discover_devices e scan scan_ble s in
  match fetched.1 with
  | Throw _ =>
      out.1 = Return {| Main.cloud_devices := []; Main.ble_devices := [] |}
      /\ Main.ble_scanner (Main.this out.2) = Main.ble_scanner (Main.this s)
  | Return found =>
      out.1 = Return {| Main.cloud_devices := Api.list_ found;
                        Main.ble_devices := if scan_ble then scanned.1 else [] |}
      /\ Main.ble_scanner (Main.this out.2)
         = (if scan_ble then scanned.2 else Main.ble_scanner (Main.this s))
  end.
Proof.
  intros fetched scanned out. subst out.
  destruct (entered_rest s) as (Hm & Hb & Hcb & Hw & Hreq).
  unfold Main.discover_devices, Main.async_with_api, Main.beside. st_run. cbn.
  rewrite enter_returns. cbn. rewrite in_api_run. fold fetched. cbn.
  destruct (fetched.1) as [found | x]; cbn.
  - destruct scan_ble; cbn.
    + unfold Main.in_ble. cbn. rewrite Hb. fold scanned.
      destruct scanned as [devices scanner] eqn:Hs. cbn.
      rewrite exit_returns. cbn. split; [reflexivity | ].
      match goal with |- context [exited ?t] =>
        destruct (exited_rest t) as (_ & -> & _) end. reflexivity.
    + rewrite exit_returns. cbn. split; [reflexivity | ].
      match goal with |- context [exited ?t] =>
        destruct (exited_rest t) as (_ & -> & _) end. exact Hb.
  - rewrite exit_returns. cbn. split; [reflexivity | ].
    match goal with |- context [exited ?t] =>
      destruct (exited_rest t) as (_ & -> & _) end. exact Hb.
Qed.

Lemma api_state_run (t : Api.state) (a : Main.AirseekersHomeAssistantAPI) n w :
  api_state {| Main.this := Main.set_api (Api.self t) a; Main.the_net := n;
               Main.the_world := w |}
  = {| Api.self := Api.self t; Api.net := n |}.
Proof. reflexivity. Qed.

(** X22: [initialize] never raises. When it gives [True], it has asked for
    the server host and then logged in at that host, and the client
    holds the tokens and the host of the login response. When it gives [False], the tokens and
    their expiry are as before. The messaging client is not touched. *)
Theorem initialize_outcome (e : Api.env) (s : Main.app) :
  let out := Main.initialize e s in
  let before := Main.api (Main.this s) in
  let after := Main.api (Main.this out.2) in
  (exists b, out.1 = Return b)
  /\ (out.1 = Return true ->
      exists host response id,
        Api.requests (Main.the_net out.2)
        = Api.requests (Main.the_net s)
          ++ [Api.request_for before id "GET" "/api/web/server-host" None false;
              Api.request_for (Api.set_base_url host before) id "POST" "/user/login"
                (Some [("email", JString (Api.email before));
                       ("password", JString (Api.password before))]) false]
        /\ Api.access_token after = JString (Api.login_access_token response)
        /\ Api.refresh_token after = Some (Api.login_refresh_token response)
        /\ Api.base_url after = Api.login_host response)
  /\ (out.1 = Return false ->
      Api.access_token after = Api.access_token before
      /\ Api.refresh_token after = Api.refresh_token before
      /\ Api.token_expires_at after = Api.token_expires_at before)
  /\ Main.mqtt_client (Main.this out.2) = Main.mqtt_client (Main.this s)
  /\ Main.the_world out.2 = Main.the_world s.
Proof.
  intros out before after. subst out after.
  unfold Main.initialize. rewrite try_false, async_with_api_eq. cbn [fst snd].
  destruct (entered_rest s) as (Hm & Hb & Hcb & Hw & Hreq).
  destruct (entered_session s) as (id & Hid).
  pose proof (entered_api s) as Hapi. rewrite Hid in Hapi. fold before in Hapi.
  pose proof (get_server_host_effect e (api_state (entered s)) id Hid)
    as (Hreq1 & Hret1 & Hraise1).
  unfold st_bind. rewrite in_api_run.
  set (hosted := Api.get_server_host e (api_state (entered s))) in *.
  match goal with |- context [exited ?t] =>
    destruct (exited_rest t) as (Hm' & _ & _ & Hw' & Hreq' & Hapi') end.
  rewrite Hm', Hw', Hreq', Hapi'. clear Hm' Hw' Hreq' Hapi'.
  split; [eauto | ].
  destruct (hosted.1) as [host | x] eqn:Hhost.
  - specialize (Hret1 host eq_refl). clear Hraise1.
    rewrite in_api_run. rewrite api_state_run.
    set (s1 := {| Api.self := Api.self hosted.2; Api.net := Api.net hosted.2 |}).
    assert (s1 = hosted.2) as Hs1 by (subst s1; destruct hosted.2; reflexivity).
    assert (Api.session (Api.self s1) = Some id) as Hid1.
    { rewrite Hs1, Hret1. cbn. exact Hid. }
    pose proof (login_effect e s1 id Hid1) as (Hreq2 & Hret2 & Hraise2).
    destruct ((Api.login e s1).1) as [response | x] eqn:Hlogin; unfold st_ret; proj.
    + specialize (Hret2 response eq_refl).
      split; [intros _ | split; [discriminate | ] ].
      * exists host, response, id. rewrite Hreq2, Hret2.
        rewrite Hs1, Hreq1, Hret1. unfold api_state. proj. rewrite Hreq, Hapi. cbn.
        split; [ | auto]. rewrite <- app_assoc. reflexivity.
      * split; [exact Hm | exact Hw].
    + specialize (Hraise2 x eq_refl).
      split; [discriminate | ]. split; [intros _ | split; [exact Hm | exact Hw] ].
      rewrite Hraise2, Hs1, Hret1. unfold api_state. proj. rewrite Hapi. cbn. auto.
  - specialize (Hraise1 x eq_refl). proj.
    split; [discriminate | ]. split; [intros _ | split; [exact Hm | exact Hw] ].
    rewrite Hraise1. unfold api_state. proj. rewrite Hapi. cbn. auto.
Qed.

Lemma find_first {X} (p : X -> bool) (before after : list X) (x : X) :
  forallb (fun y => negb (p y)) before = true -> p x = true ->
  List.find p (before ++ x :: after) = Some x.
Proof.
  intros Hb Hx. induction before as [ | y rest IH]; cbn in *; [rewrite Hx; reflexivity | ].
  apply andb_prop in Hb as [Hy Hrest]. destruct (p y); [discriminate | auto].
Qed.

Lemma find_nothing {X} (p : X -> bool) (xs : list X) :
  forallb (fun y => negb (p y)) xs = true -> List.find p xs = None.
Proof.
  induction xs as [ | y rest IH]; cbn; [reflexivity | ].
  intros H. apply andb_prop in H as [Hy Hrest]. destruct (p y); [discriminate | auto].
Qed.

(** X24: [get_device_status] never raises. It gives the first device of
    the cloud's list whose [id] is the string asked for, and the empty
    dictionary when there is none (an [id] that is not a string never
    matches) or when the list cannot be fetched. *)
Theorem get_device_status_outcome (e : Api.env) (device_id : string) (s : Main.app) :
  let fetched := Api.get_devices e (api_state (entered s)) in
  let out := Main.get_device_status e device_id s in
  let is_it device := eq_str (dict_get "id" device) device_id in
  (exists device, out.1 = Return device
     /\ (device = [] \/ dict_get "id" device = Some (JString device_id)))
  /\ ((exists x, fetched.1 = Throw x) -> out.1 = Return [])
  /\ (forall found, fetched.1 = Return found ->
       (forallb (fun device => negb (is_it device)) (Api.list_ found) = true ->
        out.1 = Return [])
       /\ (forall before device after,
            Api.list_ found = before ++ device :: after ->
            forallb (fun d => negb (is_it d)) before = true ->
            dict_get "id" device = Some (JString device_id) ->
            out.1 = Return device)).
Proof.
  intros fetched out is_it. subst out.
  unfold Main.get_device_status.
  assert (forall (body : St Main.app (list (string * json))) t,
            (st_try body (fun _ => st_ret []) t).1
            = Return (match (body t).1 with Return d => d | Throw _ => [] end)) as Htry.
  { intros body t. unfold st_try, st_ret. destruct (body t) as [[d | x] t']; reflexivity. }
  rewrite !Htry. rewrite async_with_api_eq. cbn [fst snd].
  unfold st_bind. rewrite in_api_run. fold fetched.
  destruct (fetched.1) as [found | x]; unfold st_ret; cbn [fst snd].
  - fold is_it. split; [ | split; [intros [x Hx]; discriminate | ] ].
    + eexists. split; [reflexivity | ].
      destruct (List.find is_it (Api.list_ found)) as [device | ] eqn:Hfind; cbn; [ | auto].
      right. apply find_some in Hfind as [_ Hit]. unfold is_it, eq_str in Hit.
      destruct (dict_get "id" device) as [[] | ]; try discriminate.
      apply String.eqb_eq in Hit. subst. reflexivity.
    + intros found' [= <-]. split.
      * intros Hnone. rewrite (find_nothing _ _ Hnone). reflexivity.
      * intros before device after Hlist Hbefore Hid. rewrite Hlist.
        rewrite (find_first is_it before after device Hbefore); [reflexivity | ].
        unfold is_it. rewrite Hid. cbn. apply String.eqb_refl.
  - split; [eexists; split; [reflexivity | auto] | ]. split; [reflexivity | discriminate].
Qed.

End MainProperties.

(** * The further properties at the scenarios *)

#[local] Existing Instance scenario_repr.
#[local] Existing Instance scenario_api.
#[local] Existing Instance scenario_models.
Local Open Scope list_scope.

Lemma connect_acknowledged_witness :
  connect_setup acknowledged fresh = (Ret tt, (connect_setup acknowledged fresh).2)
  /\ _connection_event (self fresh) = false
  /\ existsb is_connack_success (ce_arrivals acknowledged) = true
  /\ exists s', connect acknowledged fresh = (Ret true, s')
       /\ is_connected (self s')
          = link_after (ce_arrivals acknowledged) (is_connected (self fresh))
       /\ _connection_event (self s') = link_after (ce_arrivals acknowledged) false.
Proof.
  assert (connect_setup acknowledged fresh = (Ret tt, (connect_setup acknowledged fresh).2))
    as Hsetup by (vm_compute; reflexivity).
  split; [exact Hsetup | ]. split; [reflexivity | ]. split; [reflexivity | ].
  exact (connect_acknowledged acknowledged fresh _ Hsetup eq_refl eq_refl).
Defined.

(** The broker accepts the connection and drops it before the caller runs
    again: [connect] returns [True] on a client that is not connected. *)
Example connect_then_dropped :
  let env := {| ce_mkdtemp := Ret "/tmp/tmpa1"; ce_write := no_fault; ce_Client := None;
                ce_tls_set := None; ce_loop_start := None; ce_connect := Ret 0%Z;
                ce_arrivals := [OnConnect 0; OnDisconnect 7] |} in
  let '(r, s') := connect env fresh in
  r = Ret true
  /\ is_connected (self s') = false
  /\ _connection_event (self s') = false
  /\ is_connection_alive s' = false.
Proof. vm_compute. auto. Qed.

Lemma disconnect_live_witness :
  is_connection_alive connected = true
  /\ de_disconnect parting = Ret 0%Z
  /\ exists s', disconnect parting connected = (Ret tt, s')
       /\ is_connected (self s') = false
       /\ trace (world s')
          = trace (world connected) ++ [Disconnect; Await EvDisconnect 5; LoopStop].
Proof.
  split; [reflexivity | ]. split; [reflexivity | ].
  exact (disconnect_live parting 0 connected eq_refl eq_refl).
Defined.

Lemma disconnect_transport_error_witness :
  is_connection_alive connected = true
  /\ de_disconnect broken_pipe = Raise (OSError "Broken pipe")
  /\ is_TimeoutError (OSError "Broken pipe") = false
  /\ _temp_dir (self connected) = Some "/tmp/tmpa1"
  /\ "/tmp/tmpa1" <> EmptyString
  /\ de_rmtree broken_pipe = None
  /\ exists s', disconnect broken_pipe connected = (Ret tt, s')
       /\ is_connected (self s') = true
       /\ trace (world s') = trace (world connected) ++ [Disconnect]
       /\ fs (world s') !! "/tmp/tmpa1" = None.
Proof.
  assert ("/tmp/tmpa1" <> EmptyString) as Hd by discriminate.
  repeat (split; [first [exact Hd | reflexivity] | ]).
  exact (disconnect_transport_error broken_pipe (OSError "Broken pipe") "/tmp/tmpa1" connected
           eq_refl eq_refl eq_refl eq_refl Hd eq_refl).
Defined.

Lemma publish_acknowledged_witness :
  is_connection_alive connected = true
  /\ wf connected
  /\ serialise (PDict lock_members) connected = (Ret lock_text, connected)
  /\ pe_publish acknowledging = Ret 7%Z
  /\ pe_is_published acknowledging = Ret false
  /\ pe_arrivals acknowledging = [OnPublish 3 (Some 0%Z)] ++ OnPublish 7 (Some 0%Z) :: []
  /\ exists s',
       publish acknowledging command_topic (PDict lock_members) connected
       = (Ret (bool_decide (final_ack 7 (Some 0%Z) [] = Some MQTT_ERR_SUCCESS)), s')
       /\ (forallb (fun cb => negb (is_puback 7 cb)) [] = true ->
           final_ack 7 (Some 0%Z) [] = Some 0%Z)
       /\ _publish_events (self s') !! 7%Z = None
       /\ _publish_results (self s') !! 7%Z = None
       /\ trace (world s')
          = trace (world connected)
            ++ [Publish command_topic lock_text;
                Await (EvObj (length (events (world connected)))) 5].
Proof.
  split; [reflexivity | ]. split; [exact wf_connected | ].
  do 4 (split; [reflexivity | ]).
  exact (publish_acknowledged acknowledging command_topic lock_text (PDict lock_members) 7
           (Some 0%Z) [OnPublish 3 (Some 0%Z)] [] connected
           eq_refl wf_connected eq_refl eq_refl eq_refl eq_refl).
Defined.

(** Were the transport to acknowledge one identifier twice during the
    wait, the later reason code would decide. *)
Example publish_acknowledged_twice :
  let env := {| pe_publish := Ret 7%Z; pe_is_published := Ret false;
                pe_arrivals := [OnPublish 7 (Some 0%Z); OnPublish 7 (Some 1%Z)] |} in
  (publish env command_topic (PDict lock_members) connected).1 = Ret false.
Proof. vm_compute. reflexivity. Qed.

Lemma not_alive_refused_witness :
  is_connection_alive fresh = false
  /\ subscribe prompt_ack status_topic fresh
     = (Raise (RuntimeError "MQTT client not connected"), fresh)
  /\ publish flushed command_topic (PDict lock_members) fresh
     = (Raise (RuntimeError "MQTT client not connected"), fresh).
Proof.
  split; [reflexivity | ].
  exact (not_alive_refused status_topic (PDict lock_members) prompt_ack flushed fresh eq_refl).
Defined.

Lemma connect_malformed_broker_witness :
  length (str_split ":"%char (mqtt_broker (iot_cert (self fresh_no_port)))) <> 2
  /\ exists s', connect acknowledged fresh_no_port = (Ret false, s')
       /\ client (self s') = client (self fresh_no_port)
       /\ trace (world s') = trace (world fresh_no_port).
Proof.
  assert (length (str_split ":"%char (mqtt_broker (iot_cert (self fresh_no_port)))) <> 2)
    as Hlen by (vm_compute; discriminate).
  split; [exact Hlen | ].
  exact (connect_malformed_broker acknowledged fresh_no_port Hlen).
Defined.

Lemma suback_completes_latest_subscribe_witness :
  is_connection_alive connected = true
  /\ status_topic <> command_topic
  /\ command_topic <> EmptyString
  /\ se_subscribe late_ack = Ret (MQTT_ERR_SUCCESS, Some 1%Z)
  /\ let n := length (events (world connected)) in
     let s1 := (subscribe_issue late_ack status_topic connected).2 in
     let s2 := (subscribe_issue late_ack command_topic s1).2 in
     let s3 := deliver (OnSubscribe 1) s2 in
     _subscribe_events (self s2) !! status_topic = Some n
     /\ _subscribe_events (self s2) !! command_topic = Some (S n)
     /\ events (world s3) !! n = Some false
     /\ events (world s3) !! S n = Some true.
Proof.
  assert (status_topic <> command_topic) as H1 by discriminate.
  assert (command_topic <> EmptyString) as H2 by discriminate.
  split; [reflexivity | ]. split; [exact H1 | ]. split; [exact H2 | ].
  split; [reflexivity | ].
  exact (suback_completes_latest_subscribe late_ack late_ack status_topic command_topic
           (Some 1%Z) (Some 1%Z) 1 connected eq_refl H1 H2 eq_refl eq_refl).
Defined.


Lemma connect_with_event_set_witness :
  _connection_event (self stopped) = true
  /\ connect_setup unanswered stopped = (Ret tt, (connect_setup unanswered stopped).2)
  /\ connect unanswered stopped
     = (Ret true,
        on_world (fun w => set_trace (trace w ++ [Await EvConnection 10]) w)
          (connect_setup unanswered stopped).2)
  /\ is_connected (self (connect_setup unanswered stopped).2) = is_connected (self stopped).
Proof.
  assert (_connection_event (self stopped) = true) as Hev by (vm_compute; reflexivity).
  assert (connect_setup unanswered stopped = (Ret tt, (connect_setup unanswered stopped).2))
    as Hsetup by (vm_compute; reflexivity).
  split; [exact Hev | ]. split; [exact Hsetup | ].
  exact (connect_with_event_set unanswered stopped _ Hev Hsetup).
Defined.

Lemma disconnect_timeout_keeps_event_witness :
  is_connection_alive connected = true
  /\ _connection_event (self connected) = true
  /\ de_disconnect silent = Ret 0%Z
  /\ forallb (fun cb => negb (is_disconnect_ack cb)) (de_arrivals silent) = true
  /\ is_connected (self (disconnect silent connected).2) = false
  /\ _connection_event (self (disconnect silent connected).2) = true.
Proof.
  do 4 (split; [reflexivity | ]).
  exact (disconnect_timeout_keeps_event silent 0 connected eq_refl eq_refl eq_refl eq_refl).
Defined.

Lemma scan_reports_advertisers_witness :
  Ble.bleak_installed nearby = true
  /\ Ble.discover nearby = Ret [headset; mower]
  /\ (Ble.scan_for_devices nearby scanner0).1 = [Ble.ble_device mower.1 mower.2].
Proof.
  split; [reflexivity | ]. split; [reflexivity | ].
  rewrite (proj1 (scan_reports_advertisers nearby scanner0 [headset; mower] eq_refl eq_refl)).
  vm_compute. reflexivity.
Defined.

Lemma scan_edge_identifiers_witness :
  Ble.bleak_installed nearby = true
  /\ Ble.discover nearby = Ret [headset; mower]
  /\ (Ble.scan_for_devices nearby (Ble.init [])).1 = []
  /\ (Ble.scan_for_devices nearby (Ble.init [])).2 = Ble.init [].
Proof.
  split; [reflexivity | ]. split; [reflexivity | ].
  exact (proj2 (scan_edge_identifiers nearby (Ble.init []) [headset; mower] eq_refl eq_refl)
           eq_refl).
Defined.

Lemma no_session_no_request_witness :
  Api.session (Api.self signed_out) = None
  /\ refused (Api.get_devices cloud) signed_out
  /\ refused (Api.lock_device cloud "42") signed_out
  /\ Api.refresh_access_token cloud signed_out = (Return false, signed_out).
Proof.
  pose proof (no_session_no_request cloud signed_out eq_refl)
    as (_ & _ & _ & Hdevices & _ & Hcommand & _ & Hrefresh).
  split; [reflexivity | ]. split; [exact Hdevices | ].
  split; [exact (Hcommand "/api/web/device/lock" "42") | exact Hrefresh].
Defined.

Lemma session_reused_after_close_witness :
  Api.session (Api.self signed_out) = None
  /\ Api._should_close_session (Api.self signed_out) = true
  /\ keeps_session (Api.login cloud)
  /\ let s1 := (Api.async_with (Api.login cloud) signed_out).2 in
     Api.session (Api.self s1) = Some 0
     /\ In 0 (Api.closed (Api.net s1))
     /\ forall method endpoint data include_auth,
          let s2 := (Api.async_with (Api._make_request cloud method endpoint data include_auth)
                       s1).2 in
          Api.created (Api.net s2) = Api.created (Api.net s1)
          /\ Api.requests (Api.net s2)
             = Api.requests (Api.net s1)
               ++ [Api.request_for (Api.self s1) 0 method endpoint data include_auth].
Proof.
  split; [reflexivity | ]. split; [reflexivity | ]. split; [exact (keeps_login cloud) | ].
  exact (session_reused_after_close cloud (Api.login cloud) signed_out eq_refl eq_refl
           (keeps_login cloud)).
Defined.

Lemma expired_token_refreshed_witness :
  Api.session (Api.self expired) = Some 0
  /\ truthy (Api.access_token (Api.self expired)) = true
  /\ Api.token_expires_at (Api.self expired) = Some 500%Z
  /\ (500 <= Api.now forgetful (Api.clock_reads (Api.net expired)))%Z
  /\ Api.refresh_token (Api.self expired) = Some "refresh-1"
  /\ "refresh-1" <> EmptyString
  /\ Api.respond forgetful (length (Api.requests (Api.net expired)))
     = ok [("expires_in", JInt 82800)]
  /\ (Api.ensure_authenticated forgetful expired).1 = Return true
  /\ Api.access_token (Api.self (Api.ensure_authenticated forgetful expired).2) = JNull.
Proof.
  assert ((500 <= Api.now forgetful (Api.clock_reads (Api.net expired)))%Z) as Hle
    by (vm_compute; discriminate).
  assert ("refresh-1" <> EmptyString) as Htext by discriminate.
  assert ([("expires_in", JInt 82800)] <> []) as Hmem by discriminate.
  pose proof (expired_token_refreshed forgetful expired 0 500 "refresh-1" _
                [("expires_in", JInt 82800)] eq_refl eq_refl eq_refl Hle eq_refl Htext
                eq_refl eq_refl eq_refl Hmem) as (Hret & Htoken & _).
  do 7 (split; [first [exact Hle | exact Htext | reflexivity] | ]).
  split; [exact Hret | exact Htoken].
Defined.

Lemma login_outcome_witness :
  Api.session (Api.self in_session) = Some 0
  /\ Api.access_token (Api.self (Api.login cloud in_session).2) = JString "token-1"
  /\ Api.base_url (Api.self (Api.login cloud in_session).2) = "https://eu.example"
  /\ Api.token_expires_at (Api.self (Api.login cloud in_session).2)
     = Some (1000 + Api.hours_23)%Z.
Proof.
  split; [reflexivity | ].
  pose proof (login_outcome cloud in_session 0 eq_refl) as (_ & _ & _ & Hret & _).
  destruct (Hret {| Api.login_access_token := "token-1"; Api.login_host := "https://eu.example";
                    Api.login_language := "en"; Api.login_refresh_token := "refresh-1" |}
              eq_refl) as (Htoken & _ & Hhost & Hexp).
  split; [exact Htoken | ]. split; [exact Hhost | exact Hexp].
Defined.

Lemma device_query_no_data_witness :
  Api.session (Api.self signed_in) = Some 0
  /\ token_valid blank signed_in
  /\ (Api.get_device_map blank "42" signed_in).1 = Return (JObject []).
Proof.
  assert (token_valid blank signed_in) as Hvalid by (split; [reflexivity | vm_compute; reflexivity]).
  split; [reflexivity | ]. split; [exact Hvalid | ].
  exact (proj1 (device_query_no_data blank "/api/web/device/map?device_id="
                  "Failed to get device map: " "42" 0 signed_in _ eq_refl Hvalid eq_refl)
           eq_refl (or_introl eq_refl)).
Defined.

Lemma mqtt_required_witness :
  (forall c, Main.mqtt_client (Main.this app0) = Some c -> is_connected c = false)
  /\ Main.subscribe_to_device_updates prompt_ack "42" app0
     = (Throw (Builtin (RuntimeError "MQTT client not connected. Call setup_mqtt() first.")),
        app0)
  /\ Main.send_device_command flushed "42" lock_members app0
     = (Throw (Builtin (RuntimeError "MQTT client not connected. Call setup_mqtt() first.")),
        app0)
  /\ Main.is_mqtt_connected app0 = false.
Proof.
  assert (forall c, Main.mqtt_client (Main.this app0) = Some c -> is_connected c = false)
    as H by (intros c Hc; discriminate Hc).
  split; [exact H | ].
  exact (mqtt_required prompt_ack flushed "42" lock_members app0 H).
Defined.

(** The theorems without a hypothesis, at the scenarios. *)
Lemma initialize_outcome_witness :
  (Main.initialize welcoming app0).1 = Return true
  /\ exists host response id,
       Api.requests (Main.the_net (Main.initialize welcoming app0).2)
       = Api.requests (Main.the_net app0)
         ++ [Api.request_for (Main.api (Main.this app0)) id "GET" "/api/web/server-host"
               None false;
             Api.request_for (Api.set_base_url host (Main.api (Main.this app0))) id "POST"
               "/user/login"
               (Some [("email", JString (Api.email (Main.api (Main.this app0))));
                      ("password", JString (Api.password (Main.api (Main.this app0))))])
               false]
       /\ Api.access_token (Main.api (Main.this (Main.initialize welcoming app0).2))
          = JString (Api.login_access_token response)
       /\ Api.refresh_token (Main.api (Main.this (Main.initialize welcoming app0).2))
          = Some (Api.login_refresh_token response)
       /\ Api.base_url (Main.api (Main.this (Main.initialize welcoming app0).2))
          = Api.login_host response.
Proof.
  assert ((Main.initialize welcoming app0).1 = Return true) as Hret by (vm_compute; reflexivity).
  split; [exact Hret | ].
  exact (proj1 (proj2 (initialize_outcome welcoming app0)) Hret).
Defined.

Lemma discover_devices_outcome_witness :
  (Main.discover_devices offline nearby true app0).1
  = Return {| Main.cloud_devices := []; Main.ble_devices := [] |}
  /\ Main.ble_scanner (Main.this (Main.discover_devices offline nearby true app0).2)
     = Main.ble_scanner (Main.this app0).
Proof. exact (discover_devices_outcome offline nearby true app0). Defined.

Lemma get_device_status_outcome_witness :
  (Main.get_device_status stocked "42" app0).1
  = Return [("id", JString "42"); ("name", JString "mower")].
Proof.
  refine (proj2 (proj2 (proj2 (get_device_status_outcome stocked "42" app0)) _ _)
            [[("id", JInt 42)]] _ [] _ _ _); vm_compute; reflexivity.
Defined.

Lemma control_device_outcome_witness :
  known_action "lock"
  /\ token_valid blank (api_state app_signed_in)
  /\ ~ known_action "mow"
  /\ (Main.control_device blank "42" "mow" app_signed_in).1 = Return false
  /\ (Main.control_device blank "42" "lock" app_signed_in).1 = Return true
  /\ List.map Api.rq_url
       (Api.requests (Main.the_net (Main.control_device blank "42" "lock" app_signed_in).2))
     = ["https://cloud-eu.airseekers-robotics.com/api/web/device/lock"].
Proof.
  assert (known_action "lock") as Hlock by (left; reflexivity).
  assert (token_valid blank (api_state app_signed_in)) as Hvalid
    by (split; [reflexivity | vm_compute; reflexivity]).
  assert (~ known_action "mow") as Hmow by (intros [H | [H | [H | H]]]; discriminate H).
  split; [exact Hlock | ]. split; [exact Hvalid | ]. split; [exact Hmow | ].
  split; [exact (proj1 (proj1 (proj2 (control_device_outcome blank "42" "mow" app_signed_in))
                          Hmow)) | ].
  destruct (proj1 (proj2 (proj2 (control_device_outcome blank "42" "lock" app_signed_in)))
              Hlock Hvalid) as (id & _ & Hreq & Hret).
  split; [exact Hret | ]. rewrite Hreq. vm_compute. reflexivity.
Defined.

Lemma setup_mqtt_outcome_witness :
  (Main.setup_mqtt cloud acknowledged app0).1 = Return true
  /\ existsb is_connack_success (ce_arrivals acknowledged) = true
  /\ Main.is_mqtt_connected (Main.setup_mqtt cloud acknowledged app0).2
     = link_after (ce_arrivals acknowledged) false.
Proof.
  assert ((Main.setup_mqtt cloud acknowledged app0).1 = Return true) as Hret
    by (vm_compute; reflexivity).
  split; [exact Hret | ].
  exact (proj1 (proj2 (setup_mqtt_outcome cloud acknowledged app0)) Hret).
Defined.

Lemma disconnect_mqtt_outcome_witness :
  Main.mqtt_client (Main.this app_connected) = Some (self connected)
  /\ (Main.disconnect_mqtt parting app_connected).1 = Return tt
  /\ Main.is_mqtt_connected (Main.disconnect_mqtt parting app_connected).2 = false.
Proof.
  pose proof (disconnect_mqtt_outcome parting app_connected) as (Hret & _ & Hsome).
  split; [reflexivity | ]. split; [exact Hret | ].
  destruct (Hsome (self connected) eq_refl) as (_ & _ & Hoff).
  exact (Hoff {| client_id := "client-1"; userdata := None |} 0%Z eq_refl eq_refl).
Defined.
